(** * figtree-cli: style compression, chunk planning and result combination

    A shallow embedding of the style pipeline of figtree-cli
    (compressStylesForAI, countTokens, shouldChunkStyles, chunkStyles and
    combineChunkedResults) together with the properties its specification
    states about it, and of the code around it: the provider table with
    getAvailableProviders, hasAvailableProviders and createModel, the
    prompts of createPrompt, createChunkPrompt and generatePrompt (with
    getFormatSpecificGuidelines), and generateCodeFromStyles, which ties
    them together.

    Modelling conventions.
    - A JavaScript value is a [JsVal].  Objects are their own enumerable
      string-keyed properties, kept in enumeration order.  Of the members a
      value inherits, two are met by the pipeline on such values and are
      modelled where they are met: the [fill] method of an array, in
      compressStylesForAI, and the [__proto__] accessor of Object.prototype,
      in the merge of the json results.  [getProp] itself reads own
      properties, and the length and elements of arrays and strings.
    - A string is a sequence of UTF-16 code units; the model carries the code
      units below 256 (one [ascii] each), so [String.length] is the
      JavaScript [length].
    - A number is an integer [Z] (the values the pipeline computes itself are
      lengths and counts), printed with all its digits, as JavaScript prints
      integers below 10^21; a token budget is a rational [Q], since the
      caller passes [maxTokens * 0.8].
    - A [TypeError] raised by the source is the result [None].
    - A call of the text generation service is a node of a [Calls] tree;
      [run] plays such a tree against a service and records the requests. *)

From Stdlib Require Import ZArith QArith String Ascii List Bool Arith Lia.
From Stdlib Require Import DecimalString DecimalNat.
Import ListNotations.

Set Warnings "-register-all".

Close Scope Q_scope.
Open Scope nat_scope.
Open Scope list_scope.
Open Scope string_scope.

(* ================================================================== *)
(** ** JavaScript values *)

Inductive JsVal : Type :=
| JUndef
| JNull
| JBool (b : bool)
| JNum (z : Z)
| JStr (s : string)
| JArr (elems : list JsVal)
| JObj (props : list (string * JsVal)).

Definition Props := list (string * JsVal).

(** ToBoolean. *)
Definition truthy (v : JsVal) : bool :=
  match v with
  | JUndef | JNull => false
  | JBool b => b
  | JNum z => negb (z =? 0)%Z
  | JStr s => negb (s =? EmptyString)%string
  | JArr _ | JObj _ => true
  end.

(** [v == null], the test behind [?.] and behind a TypeError on a read. *)
Definition nullish (v : JsVal) : bool :=
  match v with
  | JUndef | JNull => true
  | _ => false
  end.

(** [v !== undefined] *)
Definition defined (v : JsVal) : bool :=
  match v with
  | JUndef => false
  | _ => true
  end.

(** [v === 'lit'] for a string literal. *)
Definition isStr (lit : string) (v : JsVal) : bool :=
  match v with
  | JStr s => s =? lit
  | _ => false
  end.

(** [a || b] *)
Definition jsOr (a b : JsVal) : JsVal := if truthy a then a else b.

(** [Array.isArray] *)
Definition isArray (v : JsVal) : bool :=
  match v with
  | JArr _ => true
  | _ => false
  end.

(** *** Property keys *)

Definition isDigit (c : ascii) : bool :=
  let n := nat_of_ascii c in ((48 <=? n) && (n <=? 57))%nat.

Fixpoint digitsValue (acc : N) (s : string) : option N :=
  match s with
  | EmptyString => Some acc
  | String c s' =>
      if isDigit c
      then digitsValue (acc * 10 + N.of_nat (nat_of_ascii c - 48))%N s'
      else None
  end.

(** A key is an array index when it is the canonical decimal form of an
    integer below 2^32 - 1; such keys enumerate first, in ascending order. *)
Definition arrayIndex (k : string) : option N :=
  match k with
  | EmptyString => None
  | String c rest =>
      if (c =? "0")%char
      then match rest with EmptyString => Some 0%N | _ => None end
      else match digitsValue 0 k with
           | Some n => if (n <? 4294967295)%N then Some n else None
           | None => None
           end
  end.

Fixpoint lookup (k : string) (ps : Props) : JsVal :=
  match ps with
  | [] => JUndef
  | (k', v) :: ps' => if k' =? k then v else lookup k ps'
  end.

Fixpoint hasKey (k : string) (ps : Props) : bool :=
  match ps with
  | [] => false
  | (k', _) :: ps' => (k' =? k) || hasKey k ps'
  end.

(** [v.k] on a receiver that is neither null nor undefined. *)
Definition getProp (v : JsVal) (k : string) : JsVal :=
  match v with
  | JObj ps => lookup k ps
  | JArr l =>
      if k =? "length" then JNum (Z.of_nat (List.length l))
      else match arrayIndex k with
           | Some i => nth (N.to_nat i) l JUndef
           | None => JUndef
           end
  | JStr s =>
      if k =? "length" then JNum (Z.of_nat (String.length s))
      else match arrayIndex k with
           | Some i => match String.get (N.to_nat i) s with
                       | Some c => JStr (String c EmptyString)
                       | None => JUndef
                       end
           | None => JUndef
           end
  | _ => JUndef
  end.

(** [v?.k] *)
Definition optProp (v : JsVal) (k : string) : JsVal :=
  if nullish v then JUndef else getProp v k.

(** [v.k] where the source does not guard the receiver: a TypeError on
    null and undefined. *)
Definition readProp (v : JsVal) (k : string) : option JsVal :=
  if nullish v then None else Some (getProp v k).

(** *** Writing a property of an ordinary object: [obj[k] = v] *)

Fixpoint replaceProp (k : string) (v : JsVal) (ps : Props) : Props :=
  match ps with
  | [] => []
  | (k', v') :: ps' =>
      if k' =? k then (k', v) :: ps' else (k', v') :: replaceProp k v ps'
  end.

Fixpoint insertIndex (i : N) (k : string) (v : JsVal) (ps : Props) : Props :=
  match ps with
  | [] => [(k, v)]
  | (k', v') :: ps' =>
      match arrayIndex k' with
      | Some j => if (j <? i)%N then (k', v') :: insertIndex i k v ps'
                  else (k, v) :: ps
      | None => (k, v) :: ps
      end
  end.

Definition setProp (ps : Props) (k : string) (v : JsVal) : Props :=
  if hasKey k ps then replaceProp k v ps
  else match arrayIndex k with
       | Some i => insertIndex i k v ps
       | None => (ps ++ [(k, v)])%list
       end.

(** [if (x) obj.k = x] *)
Definition setIfTruthy (k : string) (x : JsVal) (ps : Props) : Props :=
  if truthy x then setProp ps k x else ps.

(** [if (x !== undefined) obj.k = x] *)
Definition setIfDefined (k : string) (x : JsVal) (ps : Props) : Props :=
  if defined x then setProp ps k x else ps.

(* ================================================================== *)
(** ** JSON.stringify *)

Definition showNat (n : nat) : string := NilZero.string_of_uint (Nat.to_uint n).
Definition showZ (z : Z) : string := NilZero.string_of_int (Z.to_int z).

Definition hexDigit (n : nat) : ascii :=
  if (n <? 10)%nat then ascii_of_nat (48 + n) else ascii_of_nat (87 + n).

(** One code unit of QuoteJSONString. *)
Definition quoteChar (c : ascii) : string :=
  let n := nat_of_ascii c in
  if (n =? 8)%nat then "\b"
  else if (n =? 9)%nat then "\t"
  else if (n =? 10)%nat then "\n"
  else if (n =? 12)%nat then "\f"
  else if (n =? 13)%nat then "\r"
  else if (n =? 34)%nat then String "\" (String c EmptyString)
  else if (n =? 92)%nat then "\\"
  else if (n <? 32)%nat
       then "\u00" ++ String (hexDigit (n / 16))
                         (String (hexDigit (n mod 16)) EmptyString)
       else String c EmptyString.

Fixpoint quoteBody (s : string) : string :=
  match s with
  | EmptyString => EmptyString
  | String c s' => quoteChar c ++ quoteBody s'
  end.

Definition dquote : string := String (ascii_of_nat 34) EmptyString.

Definition quoteJSON (s : string) : string := dquote ++ quoteBody s ++ dquote.

Definition newline : string := String (ascii_of_nat 10) EmptyString.

(** [join sep parts] is [parts.join(sep)] on an array of strings. *)
Fixpoint join (sep : string) (parts : list string) : string :=
  match parts with
  | [] => EmptyString
  | [p] => p
  | p :: rest => p ++ sep ++ join sep rest
  end.

(** The closing steps of SerializeJSONObject and SerializeJSONArray: the
    serialized members between the brackets, on one line when [gap] is
    empty and one per line at [indent ++ gap] otherwise. *)
Definition wrap (gap indent opening closing : string) (partial : list string)
  : string :=
  let inner := indent ++ gap in
  match partial with
  | [] => opening ++ closing
  | _ =>
      if gap =? EmptyString
      then opening ++ join "," partial ++ closing
      else opening ++ newline ++ inner
           ++ join ("," ++ newline ++ inner) partial
           ++ newline ++ indent ++ closing
  end.

(** SerializeJSONProperty with the given [gap], at the current [indent].
    An undefined array element serializes as null; an undefined property is
    left out. *)
Fixpoint serialize (gap indent : string) (v : JsVal) {struct v} : string :=
  match v with
  | JUndef => "null"
  | JNull => "null"
  | JBool true => "true"
  | JBool false => "false"
  | JNum z => showZ z
  | JStr s => quoteJSON s
  | JArr l =>
      wrap gap indent "[" "]" (map (serialize gap (indent ++ gap)) l)
  | JObj ps =>
      wrap gap indent "{" "}"
        (flat_map
           (fun kv : string * JsVal =>
              let (k, x) := kv in
              match x with
              | JUndef => []
              | _ => [quoteJSON k ++ (if gap =? EmptyString then ":" else ": ")
                      ++ serialize gap (indent ++ gap) x]
              end) ps)
  end.

(** The text of [JSON.stringify(v)] for a [v] that is not undefined. *)
Definition compactText (v : JsVal) : string :=
  serialize EmptyString EmptyString v.

(** [JSON.stringify(v)]: undefined at the top level gives undefined. *)
Definition JSON_stringify (v : JsVal) : option string :=
  match v with
  | JUndef => None
  | _ => Some (compactText v)
  end.


(* ================================================================== *)
(** ** Exceptions: a computation that may throw *)

Definition bind {A B : Type} (m : option A) (k : A -> option B) : option B :=
  match m with
  | Some a => k a
  | None => None
  end.

Notation "x <- m ;; k" := (bind m (fun x => k))
  (at level 61, m at next level, right associativity).

(** [arr.map(f)] for a callback that may throw. *)
Fixpoint mapM {A B : Type} (f : A -> option B) (l : list A) : option (list B) :=
  match l with
  | [] => Some []
  | x :: l' =>
      y <- f x ;;
      ys <- mapM f l' ;;
      Some (y :: ys)
  end.

(** [v.map(f)]: only an array has a [map] method. *)
Definition arrayMap {B : Type} (f : JsVal -> option B) (v : JsVal)
  : option (list B) :=
  match v with
  | JArr l => mapM f l
  | _ => None
  end.

(** [a > n] for a number literal [n].  The left operand goes through
    ToNumber: undefined is NaN, null is 0, a boolean is 0 or 1.  Strings,
    arrays and objects are converted through their text, which the model
    does not follow: it answers [false] for them.  The pipeline compares
    the [length] of an array or of a string, which is a number, and in the
    grid block the own [length] of whatever object stands where the grid
    list is expected; [plainLengths] singles out the collections where that
    operand is not a string, an array or an object. *)
Definition jsGt (a : JsVal) (n : Z) : bool :=
  match a with
  | JNum z => (n <? z)%Z
  | JBool b => (n <? (if b then 1 else 0))%Z
  | JNull => (n <? 0)%Z
  | _ => false
  end.

(** [a === n] for a number literal [n]. *)
Definition isNum (n : Z) (a : JsVal) : bool :=
  match a with
  | JNum z => (z =? n)%Z
  | _ => false
  end.

(* ================================================================== *)
(** ** compressStylesForAI *)

(** [t?.startsWith('GRADIENT_')] for [t = style.values?.type]: undefined
    when [t] is null or undefined, a TypeError when [t] is not a string. *)
Definition startsWithGradient (t : JsVal) : option bool :=
  match t with
  | JUndef | JNull => Some false
  | JStr s => Some (String.prefix "GRADIENT_" s)
  | _ => None
  end.

(** The callback of [styles.styles.fill.map]. *)
Definition fillToken (style : JsVal) : option JsVal :=
  name <- readProp style "name" ;;
  let V := optProp (getProp style "values") in
  let paint : Props :=
    [("name", name); ("type", jsOr (V "type") (JStr "unknown"))] in
  (* Common properties for all paint types *)
  let paint := setIfDefined "opacity" (V "opacity") paint in
  let paint := setIfTruthy "blendMode" (V "blendMode") paint in
  (* SOLID paint properties *)
  let paint :=
    if isStr "SOLID" (V "type") then
      let paint := setIfTruthy "color" (V "color") paint in
      let paint := setIfTruthy "hex" (V "hex") paint in
      setIfTruthy "css" (V "css") paint
    else paint in
  (* GRADIENT paint properties *)
  gradient <- startsWithGradient (V "type") ;;
  let paint :=
    if gradient then
      let paint :=
        setIfTruthy "gradientHandlePositions" (V "gradientHandlePositions")
          paint in
      let paint := setIfTruthy "gradientStops" (V "gradientStops") paint in
      setIfTruthy "gradient" (V "gradient") paint
    else paint in
  (* IMAGE paint properties *)
  let paint :=
    if isStr "IMAGE" (V "type") then
      let paint := setIfTruthy "scaleMode" (V "scaleMode") paint in
      let paint := setIfTruthy "imageTransform" (V "imageTransform") paint in
      let paint := setIfDefined "scalingFactor" (V "scalingFactor") paint in
      let paint := setIfDefined "rotation" (V "rotation") paint in
      let paint := setIfTruthy "imageRef" (V "imageRef") paint in
      let paint := setIfTruthy "filters" (V "filters") paint in
      setIfTruthy "gifRef" (V "gifRef") paint
    else paint in
  (* PATTERN paint properties *)
  let paint :=
    if isStr "PATTERN" (V "type") then
      let paint := setIfTruthy "sourceNodeId" (V "sourceNodeId") paint in
      let paint := setIfTruthy "tileType" (V "tileType") paint in
      let paint := setIfDefined "scalingFactor" (V "scalingFactor") paint in
      let paint := setIfTruthy "spacing" (V "spacing") paint in
      let paint :=
        setIfTruthy "horizontalAlignment" (V "horizontalAlignment") paint in
      setIfTruthy "verticalAlignment" (V "verticalAlignment") paint
    else paint in
  (* Fallback to any available color representation *)
  let paint :=
    if negb (truthy (lookup "color" paint))
       && negb (truthy (lookup "gradientStops" paint))
       && negb (truthy (lookup "imageRef" paint))
    then
      let paint := setIfTruthy "fallbackHex" (V "hex") paint in
      setIfTruthy "fallbackCss" (V "css") paint
    else paint in
  Some (JObj paint).

(** The predicate of the [filter] that follows the fill [map]. *)
Definition keepPaint (paint : JsVal) : bool :=
  negb (isStr "unknown" (getProp paint "type"))
  || truthy (getProp paint "fallbackHex")
  || truthy (getProp paint "fallbackCss").

(** The callback of [styles.styles.text.map]. *)
Definition textToken (style : JsVal) : option JsVal :=
  name <- readProp style "name" ;;
  let V := optProp (getProp style "values") in
  Some (JObj [("name", name);
              ("fontSize", jsOr (V "fontSize") (JNum 16));
              ("fontFamily", jsOr (V "fontFamily") (JStr "system"));
              ("fontWeight", jsOr (V "fontWeight") (JStr "normal"));
              ("lineHeight", jsOr (V "lineHeight") (JStr "normal"));
              ("letterSpacing", jsOr (V "letterSpacing") (JStr "normal"))]).

(** The effect object as it stands before [allEffects] is considered:
    built from [style.name] and the first effect [effectData] alone. *)
Definition effectFields (name effectData : JsVal) : option Props :=
  ty <- readProp effectData "type" ;;
  let E := getProp effectData in
  let effect : Props := [("name", name); ("type", jsOr ty (JStr "unknown"))] in
  (* Add common properties *)
  let effect := setIfDefined "radius" (E "radius") effect in
  let effect := setIfTruthy "blendMode" (E "blendMode") effect in
  let effect := setIfDefined "visible" (E "visible") effect in
  (* Shadow-specific properties *)
  let effect :=
    if isStr "INNER_SHADOW" ty || isStr "DROP_SHADOW" ty then
      let effect := setIfTruthy "color" (E "color") effect in
      let effect := setIfTruthy "offset" (E "offset") effect in
      let effect := setIfDefined "spread" (E "spread") effect in
      setIfDefined "showShadowBehindNode" (E "showShadowBehindNode") effect
    else effect in
  (* Blur-specific properties *)
  let effect :=
    if isStr "LAYER_BLUR" ty || isStr "BACKGROUND_BLUR" ty then
      let effect := setIfTruthy "blurType" (E "blurType") effect in
      let effect := setIfDefined "startRadius" (E "startRadius") effect in
      let effect := setIfTruthy "startOffset" (E "startOffset") effect in
      setIfTruthy "endOffset" (E "endOffset") effect
    else effect in
  (* Noise-specific properties *)
  let effect :=
    if isStr "NOISE" ty then
      let effect := setIfDefined "noiseSize" (E "noiseSize") effect in
      let effect := setIfTruthy "noiseType" (E "noiseType") effect in
      let effect := setIfDefined "density" (E "density") effect in
      let effect := setIfTruthy "secondaryColor" (E "secondaryColor") effect in
      setIfDefined "opacity" (E "opacity") effect
    else effect in
  (* Texture-specific properties *)
  let effect :=
    if isStr "TEXTURE" ty then
      let effect := setIfDefined "noiseSize" (E "noiseSize") effect in
      setIfDefined "clipToShape" (E "clipToShape") effect
    else effect in
  Some effect.

(** The callback of [styles.styles.effect.map]; [Some None] is the [null]
    it returns for a style without effects. *)
Definition effectToken (style : JsVal) : option (option JsVal) :=
  values <- readProp style "values" ;;
  let effects := optProp values "effects" in
  if negb (truthy effects)
     || negb (isArray effects)
     || isNum 0 (getProp effects "length")
  then Some None
  else
    (* Take the first effect from the array *)
    let effectData := getProp effects "0" in
    effect <- effectFields (getProp style "name") effectData ;;
    (* Include all effects from the array if there are multiple *)
    let effect :=
      if jsGt (getProp effects "length") 1
      then setProp effect "allEffects" effects
      else effect in
    Some (Some (JObj effect)).

(** The predicate of the [filter] that follows the effect [map]. *)
Definition keepEffect (effect : option JsVal) : bool :=
  match effect with
  | None => false
  | Some e => negb (isStr "unknown" (getProp e "type"))
  end.

(** [filter] with [keepEffect], giving back the effects themselves. *)
Fixpoint filterEffects (l : list (option JsVal)) : list JsVal :=
  match l with
  | [] => []
  | e :: l' =>
      if keepEffect e
      then match e with
           | Some x => x :: filterEffects l'
           | None => filterEffects l'
           end
      else filterEffects l'
  end.

(** The callback of [styles.styles.grid.map]. *)
Definition gridToken (style : JsVal) : option JsVal :=
  name <- readProp style "name" ;;
  let grid : Props := [("name", name); ("type", JStr "grid")] in
  let grids := optProp (getProp style "values") "grids" in
  if truthy grids && jsGt (getProp grids "length") 0 then
    (* Take first grid *)
    let gridData := getProp grids "0" in
    pattern <- readProp gridData "pattern" ;;
    let G := getProp gridData in
    let grid := setIfTruthy "pattern" pattern grid in
    let grid := setIfDefined "sectionSize" (G "sectionSize") grid in
    let grid := setIfDefined "gutterSize" (G "gutterSize") grid in
    let grid := setIfDefined "offset" (G "offset") grid in
    let grid := setIfDefined "count" (G "count") grid in
    let grid := setIfTruthy "alignment" (G "alignment") grid in
    let grid := setIfTruthy "color" (G "color") grid in
    Some (JObj grid)
  else Some (JObj grid).

(** The predicate of the [filter] that follows the grid [map]. *)
Definition keepGrid (grid : JsVal) : bool :=
  truthy (getProp grid "pattern") || defined (getProp grid "sectionSize").

Record Summary : Type := mkSummary {
  totalColors : nat;
  totalTypography : nat;
  totalEffects : nat;
  totalSpacing : nat;
  originalFileSize : option nat;
  chunkNumber : option nat
}.

(** A compressed style set and, equally, one chunk of it.  [summary] is
    absent while a chunk is being filled. *)
Record StyleSet : Type := mkStyleSet {
  colors : list JsVal;
  typography : list JsVal;
  effects : list JsVal;
  spacing : list JsVal;
  summary : option Summary
}.

Definition compressStylesForAI (styles : JsVal) : option StyleSet :=
  ss <- readProp styles "styles" ;;
  (* Extract detailed paint/color information.  On an array [ss.fill] is
     the method arrays inherit from Array.prototype: a function, which is
     truthy and has no [map], so the call of [map] throws. *)
  cs <- (if isArray ss then None
         else
           let fill := optProp ss "fill" in
           if truthy fill
           then paints <- arrayMap fillToken fill ;;
                Some (filter keepPaint paints)
           else Some []) ;;
  (* Extract only essential typography information *)
  ts <- (let text := optProp ss "text" in
         if truthy text then arrayMap textToken text else Some []) ;;
  (* Extract detailed effect information *)
  es <- (let effect := optProp ss "effect" in
         if truthy effect
         then found <- arrayMap effectToken effect ;; Some (filterEffects found)
         else Some []) ;;
  (* Extract grid/layout information *)
  gs <- (let grid := optProp ss "grid" in
         if truthy grid
         then grids <- arrayMap gridToken grid ;; Some (filter keepGrid grids)
         else Some []) ;;
  (* Add summary stats *)
  text <- JSON_stringify styles ;;
  Some {| colors := cs;
          typography := ts;
          effects := es;
          spacing := gs;
          summary := Some {| totalColors := List.length cs;
                             totalTypography := List.length ts;
                             totalEffects := List.length es;
                             totalSpacing := List.length gs;
                             originalFileSize := Some (String.length text);
                             chunkNumber := None |} |}.

(* ================================================================== *)
(** ** Token estimate and chunk planning *)

Definition summaryToJs (s : Summary) : JsVal :=
  let num (n : nat) := JNum (Z.of_nat n) in
  let opt (k : string) (o : option nat) : Props :=
    match o with
    | Some n => [(k, num n)]
    | None => []
    end in
  JObj ([("totalColors", num (totalColors s));
         ("totalTypography", num (totalTypography s));
         ("totalEffects", num (totalEffects s));
         ("totalSpacing", num (totalSpacing s))]
        ++ opt "originalFileSize" (originalFileSize s)
        ++ opt "chunkNumber" (chunkNumber s))%list.

(** The object a [StyleSet] stands for, keys in creation order. *)
Definition toJs (c : StyleSet) : JsVal :=
  JObj ([("colors", JArr (colors c));
         ("typography", JArr (typography c));
         ("effects", JArr (effects c));
         ("spacing", JArr (spacing c))]
        ++ match summary c with
           | Some s => [("summary", summaryToJs s)]
           | None => []
           end)%list.

(** [JSON.stringify(c)] for a style set [c]. *)
Definition stringifySet (c : StyleSet) : string := compactText (toJs c).

(** [Math.ceil(text.length / 4)] *)
Definition countTokens (text : string) : nat := (String.length text + 3) / 4.

(** [n > maxTokens] for a token count [n]. *)
Definition exceeds (n : nat) (maxTokens : Q) : bool :=
  negb (Qle_bool (inject_Z (Z.of_nat n)) maxTokens).

Definition shouldChunkStyles (compressedStyles : StyleSet) (maxTokens : Q)
  : bool :=
  let estimatedTokens := countTokens (stringifySet compressedStyles) in
  exceeds estimatedTokens maxTokens.

Inductive Category : Type := Colors | Typography | Effects | Spacing.

Definition categories : list Category := [Colors; Typography; Effects; Spacing].

(** [chunk[category]] *)
Definition getCat (cat : Category) (c : StyleSet) : list JsVal :=
  match cat with
  | Colors => colors c
  | Typography => typography c
  | Effects => effects c
  | Spacing => spacing c
  end.

(** [chunk[category] = items] *)
Definition setCat (cat : Category) (l : list JsVal) (c : StyleSet) : StyleSet :=
  match cat with
  | Colors => mkStyleSet l (typography c) (effects c) (spacing c) (summary c)
  | Typography => mkStyleSet (colors c) l (effects c) (spacing c) (summary c)
  | Effects => mkStyleSet (colors c) (typography c) l (spacing c) (summary c)
  | Spacing => mkStyleSet (colors c) (typography c) (effects c) l (summary c)
  end.

(** [{ colors: [], typography: [], effects: [], spacing: [] }] *)
Definition emptyChunk : StyleSet := mkStyleSet [] [] [] [] None.

(** [chunk[category].push(item)] *)
Definition push (cat : Category) (item : JsVal) (c : StyleSet) : StyleSet :=
  setCat cat (getCat cat c ++ [item])%list c.

(** [chunk[category].pop()] *)
Definition pop (cat : Category) (c : StyleSet) : StyleSet :=
  setCat cat (removelast (getCat cat c)) c.

(** [chunk.summary = { totalColors: ..., chunkNumber }] *)
Definition withSummary (c : StyleSet) (number : nat) : StyleSet :=
  mkStyleSet (colors c) (typography c) (effects c) (spacing c)
    (Some {| totalColors := List.length (colors c);
             totalTypography := List.length (typography c);
             totalEffects := List.length (effects c);
             totalSpacing := List.length (spacing c);
             originalFileSize := None;
             chunkNumber := Some number |}).

(** The two variables the loops of [chunkStyles] update. *)
Record PlanState : Type := mkPlanState {
  chunks : list StyleSet;
  currentChunk : StyleSet
}.

(** The body of the inner loop, for one [item] of [category]. *)
Definition stepItem (maxTokensPerChunk : Q) (cat : Category)
    (st : PlanState) (item : JsVal) : PlanState :=
  let current := push cat item (currentChunk st) in
  (* Check if chunk is getting too large *)
  if exceeds (countTokens (stringifySet current)) maxTokensPerChunk then
    (* Remove the last item and save chunk *)
    let current := pop cat current in
    let current := withSummary current (List.length (chunks st) + 1) in
    (* Start new chunk with the item that didn't fit *)
    mkPlanState (chunks st ++ [current])%list (setCat cat [item] emptyChunk)
  else mkPlanState (chunks st) current.

(** The body of the outer loop, for one [category]. *)
Definition stepCategory (maxTokensPerChunk : Q) (compressed : StyleSet)
    (st : PlanState) (cat : Category) : PlanState :=
  fold_left (stepItem maxTokensPerChunk cat) (getCat cat compressed) st.

(** [Object.values(chunk).some((arr) => arr.length > 0)] on a chunk that
    has no summary yet. *)
Definition someNonEmpty (c : StyleSet) : bool :=
  existsb (fun arr : list JsVal => (0 <? List.length arr)%nat)
    [colors c; typography c; effects c; spacing c].

(** [chunkStyles] from the point where [compressed] is known. *)
Definition planChunks (compressed : StyleSet) (maxTokensPerChunk : Q)
  : list StyleSet :=
  (* If small enough, return as single chunk *)
  if negb (shouldChunkStyles compressed maxTokensPerChunk) then [compressed]
  else
    (* Split by category if needed *)
    let st := fold_left (stepCategory maxTokensPerChunk compressed) categories
                (mkPlanState [] emptyChunk) in
    (* Add remaining items as final chunk *)
    if someNonEmpty (currentChunk st)
    then (chunks st
          ++ [withSummary (currentChunk st) (List.length (chunks st) + 1)])%list
    else chunks st.

Definition chunkStyles (styles : JsVal) (maxTokensPerChunk : Q)
  : option (list StyleSet) :=
  compressed <- compressStylesForAI styles ;;
  Some (planChunks compressed maxTokensPerChunk).

(* ================================================================== *)
(** ** combineChunkedResults *)

(** [\s] on the code units of the model. *)
Definition isWhiteSpace (c : ascii) : bool :=
  let n := nat_of_ascii c in
  ((n =? 9) || (n =? 10) || (n =? 11) || (n =? 12) || (n =? 13)
   || (n =? 32) || (n =? 160))%nat.

Fixpoint skipSpaces (s : string) : string :=
  match s with
  | EmptyString => EmptyString
  | String c s' => if isWhiteSpace c then skipSpaces s' else s
  end.

Fixpoint stripPrefix (p s : string) : option string :=
  match p with
  | EmptyString => Some s
  | String a p' =>
      match s with
      | EmptyString => None
      | String b s' => if (a =? b)%char then stripPrefix p' s' else None
      end
  end.

(** The greedy [[\s\S]*}]: the longest prefix of [s] that ends in a closing
    brace. *)
Fixpoint throughLastBrace (s : string) : option string :=
  match s with
  | EmptyString => None
  | String c s' =>
      match throughLastBrace s' with
      | Some t => Some (String c t)
      | None => if (c =? "}")%char then Some (String c EmptyString) else None
      end
  end.

(** [/module\.exports\s*=\s*({[\s\S]*})/] anchored at the start of [s];
    the result is capture group 1. *)
Definition matchConfigAt (s : string) : option string :=
  match stripPrefix "module.exports" s with
  | Some r =>
      match skipSpaces r with
      | String "=" r' =>
          match skipSpaces r' with
          | String "{" body =>
              match throughLastBrace body with
              | Some t => Some (String "{" t)
              | None => None
              end
          | _ => None
          end
      | _ => None
      end
  | None => None
  end.

(** [r.match(/module\.exports\s*=\s*({[\s\S]*})/)]: the leftmost match. *)
Fixpoint matchConfig (r : string) : option string :=
  match matchConfigAt r with
  | Some g => Some g
  | None =>
      match r with
      | EmptyString => None
      | String _ r' => matchConfig r'
      end
  end.

(** The callback of [results.map] in the tailwind case. *)
Definition extractConfig (r : string) : string :=
  match matchConfig r with
  | Some config => config
  | None => r
  end.

Definition header (n : nat) : string :=
  "/* Design tokens generated from Figma - Combined from " ++ showNat n
  ++ " chunks */" ++ newline ++ newline.

(** The outer configuration object of the tailwind case, around the
    [configs] of [n] chunks. *)
Definition wrapConfigs (n : nat) (configs : list string) : string :=
  "module.exports = {" ++ newline
  ++ "  theme: {" ++ newline
  ++ "    extend: {" ++ newline
  ++ "      // Combined from " ++ showNat n ++ " chunks" ++ newline
  ++ "      " ++ join ("," ++ newline ++ "      ") configs ++ newline
  ++ "    }" ++ newline
  ++ "  }" ++ newline
  ++ "}".

Definition cssSeparator : string :=
  newline ++ newline ++ "/* --- Next chunk --- */" ++ newline ++ newline.

Definition lineSeparator : string :=
  newline ++ newline ++ "// --- Next chunk ---" ++ newline ++ newline.

(** The own enumerable properties [Object.assign] copies from a source. *)
Fixpoint indexed (i : nat) (l : list JsVal) : Props :=
  match l with
  | [] => []
  | x :: l' => (showNat i, x) :: indexed (S i) l'
  end.

Fixpoint chars (s : string) : list JsVal :=
  match s with
  | EmptyString => []
  | String c s' => JStr (String c EmptyString) :: chars s'
  end.

Definition ownEntries (v : JsVal) : Props :=
  match v with
  | JObj ps => ps
  | JArr l => indexed 0 l
  | JStr s => indexed 0 (chars s)
  | _ => []
  end.

(** The object [merged] of the json case: its own properties and its
    prototype.  The prototype matters for one key only: [__proto__] is an
    accessor of Object.prototype, and an assignment that reaches it sets
    the prototype instead of creating a property. *)
Inductive Prototype : Type :=
| ObjectPrototype
| NullPrototype
| ParsedPrototype (v : JsVal).

Record Merged : Type := mkMerged {
  own : Props;
  prototype : Prototype
}.

(** [{}] *)
Definition emptyObject : Merged := mkMerged [] ObjectPrototype.

(** Whether [merged.__proto__ = v] reaches the accessor of
    Object.prototype: [merged] has no own property of that name, and the
    first object of its prototype chain that has one is Object.prototype.
    A parsed object holds [__proto__] as an own data property, since
    JSON.parse defines its properties without assigning; a parsed array
    has none. *)
Definition reachesSetter (merged : Merged) : bool :=
  negb (hasKey "__proto__" (own merged))
  && match prototype merged with
     | ObjectPrototype => true
     | NullPrototype => false
     | ParsedPrototype (JObj ps) => negb (hasKey "__proto__" ps)
     | ParsedPrototype _ => true
     end.

(** The setter of [__proto__]: an object or null becomes the prototype,
    any other value is ignored. *)
Definition setPrototypeOf (merged : Merged) (v : JsVal) : Merged :=
  match v with
  | JObj _ | JArr _ => mkMerged (own merged) (ParsedPrototype v)
  | JNull => mkMerged (own merged) NullPrototype
  | _ => merged
  end.

(** [merged[k] = v] *)
Definition assign (merged : Merged) (k : string) (v : JsVal) : Merged :=
  if (k =? "__proto__") && reachesSetter merged then setPrototypeOf merged v
  else mkMerged (setProp (own merged) k v) (prototype merged).

(** [Object.assign(target, source)]: each own enumerable property of the
    source is assigned to the target, in order. *)
Definition objectAssign (target : Merged) (source : JsVal) : Merged :=
  fold_left (fun t kv => assign t (fst kv) (snd kv)) (ownEntries source)
    target.

Section Combine.

(** [JSON.parse]; [None] is the SyntaxError it throws. *)
Variable JSON_parse : string -> option JsVal.

(** The callback of [results.forEach] in the json case; [index] counts
    from 0. *)
Definition mergeResult (merged : Merged) (index : nat) (result : string)
  : Merged :=
  match JSON_parse result with
  | Some parsed => objectAssign merged parsed
  | None => assign merged ("chunk_" ++ showNat (index + 1)) (JStr result)
  end.

Fixpoint mergeFrom (index : nat) (merged : Merged) (results : list string)
  : Merged :=
  match results with
  | [] => merged
  | r :: rest => mergeFrom (S index) (mergeResult merged index r) rest
  end.

(** [merged] after the [forEach]. *)
Definition mergedAfter (results : list string) : Merged :=
  mergeFrom 0 emptyObject results.

(** The own properties of [merged] after the [forEach]: what
    [JSON.stringify] writes. *)
Definition mergeResults (results : list string) : Props :=
  own (mergedAfter results).

(** Results are the texts the generation calls returned.  On texts
    neither [match] nor the merge throws, so the [catch] branches of the
    tailwind and json cases are never entered. *)
Definition combineChunkedResults (results : list string) (format : string)
  : string :=
  let n := List.length results in
  if (format =? "css") || (format =? "scss") || (format =? "css-variables")
  then header n ++ join cssSeparator results
  else if format =? "tailwind" then
    let configs := map extractConfig results in
    header n ++ wrapConfigs n configs
  else if format =? "javascript" then header n ++ join lineSeparator results
  else if format =? "json" then
    serialize "  " EmptyString (JObj (mergeResults results))
  else header n ++ join lineSeparator results.

End Combine.

(* ================================================================== *)
(** ** Providers *)

(** The provider functions of the SDK packages. *)
Inductive Factory : Type := openai | google | anthropic | deepseek.

Record ProviderConfig : Type := mkProviderConfig {
  name : string;
  models : list (string * string);
  factory : Factory;
  envVar : string;
  defaultModel : string
}.

Definition AI_PROVIDERS : list (string * ProviderConfig) :=
  [("openai",
    {| name := "OpenAI";
       models :=
         [("o4-mini", "o4 Mini - Faster and more affordable model");
          ("o3", "o3 - Most powerful model");
          ("o3-pro", "o3 Pro - More compute than o3 for better responses");
          ("o3-mini", "o3 Mini - Smaller than o3");
          ("o1", "o1 - Most powerful model");
          ("o1-pro", "o1 Pro - More compute than o1 for better responses")];
       factory := openai;
       envVar := "OPENAI_API_KEY";
       defaultModel := "o4-mini" |});
   ("google",
    {| name := "Google (Gemini)";
       models :=
         [("gemini-2.5-pro",
           "Gemini 2.5 Pro - Enhanced thinking and reasoning");
          ("gemini-2.5-flash",
           "Gemini 2.5 Flash - Adaptive thinking, cost efficient")];
       factory := google;
       envVar := "GOOGLE_API_KEY";
       defaultModel := "gemini-2.5-flash" |});
   ("anthropic",
    {| name := "Anthropic (Claude)";
       models :=
         [("claude-opus-4-20250514",
           "Claude Opus 4 - Most powerful and capable model");
          ("claude-sonnet-4-20250514",
           "Claude Sonnet 4 - High performance model")];
       factory := anthropic;
       envVar := "ANTHROPIC_API_KEY";
       defaultModel := "claude-sonnet-4-20250514" |});
   ("deepseek",
    {| name := "DeepSeek";
       models :=
         [("deepseek-chat", "Most powerful and capable model");
          ("deepseek-reasoner", "High performance model")];
       factory := deepseek;
       envVar := "DEEPSEEK_API_KEY";
       defaultModel := "deepseek-chat" |})].

(** [process.env]: the text of each variable that is set. *)
Definition Env : Type := string -> option string.

(** [process.env[v]] as a condition: the variable is set and not empty. *)
Definition envTruthy (env : Env) (v : string) : bool :=
  match env v with
  | Some (String _ _) => true
  | _ => false
  end.

(** [table[key]] on the entries of a table. *)
Fixpoint entry {A : Type} (key : string) (table : list (string * A))
  : option A :=
  match table with
  | [] => None
  | (k, a) :: rest => if k =? key then Some a else entry key rest
  end.

(** The entries of the table whose key variable is set, in table order. *)
Definition getAvailableProviders (env : Env)
  : list (string * ProviderConfig) :=
  filter (fun kc : string * ProviderConfig => envTruthy env (envVar (snd kc)))
    AI_PROVIDERS.

Definition hasAvailableProviders (env : Env) : bool :=
  (0 <? List.length (map fst (getAvailableProviders env)))%nat.

(** What a provider function returns: the function and the model id it was
    called with. *)
Definition ModelHandle : Type := (Factory * JsVal)%type.

(** [createModel(provider, modelId)]; [None] is either of the two errors it
    throws.  A member the table only inherits (such as [constructor]) has
    no envVar and no factory, and the source throws for it as well. *)
Definition createModel (env : Env) (provider : string) (modelId : JsVal)
  : option ModelHandle :=
  match entry provider AI_PROVIDERS with
  | None => None
  | Some config =>
      if negb (envTruthy env (envVar config)) then None
      else Some (factory config, jsOr modelId (JStr (defaultModel config)))
  end.

(* ================================================================== *)
(** ** Prompts *)

(** The comment syntax named in a prompt: the [switch] that createPrompt
    and createChunkPrompt both start with. *)
Definition commentFormatOf (format : string) : string :=
  if (format =? "css") || (format =? "scss") || (format =? "css-variables")
  then "/* comment */"
  else if (format =? "tailwind") || (format =? "javascript")
  then "// comment"
  else if format =? "json" then "N/A - no comments in JSON"
  else if format =? "android" then "<!-- comment -->"
  else if format =? "swiftui" then "// comment"
  else "// comment".

(** [basePrompt] of createChunkPrompt, line by line. *)
Definition chunkBasePrompt (stylesSummary format commentFormat : string)
    (chunkNumber totalChunks : nat) : string :=
  join newline
    ["CRITICAL: Return ONLY valid " ++ format
      ++ " code. No explanations, no markdown, no text outside of code.";
     EmptyString;
     "This is chunk " ++ showNat chunkNumber ++ " of " ++ showNat totalChunks
       ++ " from a large design system.";
     EmptyString;
     "Convert these Figma design tokens to " ++ format ++ " code:";
     EmptyString;
     stylesSummary;
     EmptyString;
     "OUTPUT RULES:";
     "- Return ONLY valid " ++ format ++ " code";
     "- NO explanations or descriptions outside of code";
     "- NO markdown formatting, NO backticks";
     "- NO " ++ dquote ++ "Here's the code:" ++ dquote ++ " or similar text";
     "- All commentary must be in valid " ++ format ++ " comments using: "
       ++ commentFormat;
     "- Start immediately with the code"].

(** [chunkInstructions] of createChunkPrompt. *)
Definition chunkInstructions (chunkNumber totalChunks : nat) : string :=
  if (1 <? totalChunks)%nat
  then join newline
         ["- Generate code for this chunk only";
          "- Use consistent naming that will work with other chunks";
          "- Add comments indicating this is part " ++ showNat chunkNumber
            ++ " of " ++ showNat totalChunks;
          "- "]
  else EmptyString.

(** The requirement lines of the second [switch] of createChunkPrompt. *)
Definition chunkRequirements (format commentFormat : string) : list string :=
  if format =? "css" then
    ["- Use CSS custom properties (--variable-name) for colors";
     "- Create utility classes for typography";
     "- Use /* comment */ for all explanations";
     "- Use modern CSS syntax with good browser support";
     "- Group related styles with /* section comments */";
     "- Use semantic naming conventions";
     "- NO explanatory text outside of CSS comments"]
  else if format =? "scss" then
    ["- Use SCSS variables ($variable-name) for colors";
     "- Create mixins for typography styles";
     "- Use /* comment */ and // comment for all explanations";
     "- Use SCSS best practices and features";
     "- Group related styles with /* section comments */";
     "- Use semantic naming conventions";
     "- NO explanatory text outside of SCSS comments"]
  else if format =? "tailwind" then
    ["- Create a partial tailwind.config.js configuration";
     "- Include colors, typography, spacing, and effects from this chunk";
     "- Follow Tailwind CSS naming conventions";
     "- Include proper theme structure";
     "- Use // comment for all explanations";
     "- Use semantic naming that matches the design system";
     "- Start with module.exports = { or export default {";
     "- NO explanatory text outside of JavaScript comments"]
  else if format =? "javascript" then
    ["- Export as ES modules with proper TypeScript types";
     "- Use descriptive variable names";
     "- Use // comment or /* comment */ for all explanations";
     "- Organize into logical groups (colors, typography, etc.)";
     "- Use proper JavaScript object structure";
     "- Include JSDoc comments for documentation";
     "- NO explanatory text outside of JavaScript comments"]
  else if format =? "json" then
    ["- Create a clean JSON structure";
     "- Organize by type (colors, typography, spacing, effects)";
     "- Use descriptive names and include descriptions as JSON values";
     "- Follow design token standards";
     "- Include proper nesting and organization";
     "- Valid JSON only - no comments possible";
     "- NO explanatory text outside of the JSON structure"]
  else if format =? "css-variables" then
    ["- Generate ONLY CSS custom properties";
     "- Use semantic naming (--color-primary, --font-heading, etc.)";
     "- Include proper fallbacks";
     "- Group by category with /* section comments */";
     "- Use consistent naming patterns";
     "- Use /* comment */ for all explanations";
     "- NO explanatory text outside of CSS comments"]
  else if format =? "android" then
    ["- Create proper Android XML resource files";
     "- Use dp units for spacing and sp for text sizes";
     "- Follow Android naming conventions (lowercase with underscores)";
     "- Create separate sections for colors, dimensions, and styles";
     "- Use <!-- comment --> for all explanations";
     "- NO explanatory text outside of XML comments"]
  else if format =? "swiftui" then
    ["- Create Swift extensions for Color and Font";
     "- Use SwiftUI's design token patterns";
     "- Implement semantic color schemes";
     "- Create reusable typography styles";
     "- Use // comment for all explanations";
     "- Support dynamic type and accessibility";
     "- NO explanatory text outside of Swift comments"]
  else
    ["- Follow best practices for " ++ format;
     "- Use semantic naming conventions";
     "- Include proper documentation in " ++ commentFormat ++ " format";
     "- Organize code logically";
     "- NO explanatory text outside of valid " ++ format ++ " comments"].

(** A template [basePrompt / blank line / REQUIREMENTS: / requirements]. *)
Definition withRequirements (basePrompt requirements : string) : string :=
  basePrompt ++ newline ++ newline ++ "REQUIREMENTS:" ++ newline
  ++ requirements.

Definition createChunkPrompt (chunk : StyleSet) (format : string)
    (chunkNumber totalChunks : nat) : string :=
  let stylesSummary := serialize "  " EmptyString (toJs chunk) in
  let commentFormat := commentFormatOf format in
  let basePrompt :=
    chunkBasePrompt stylesSummary format commentFormat chunkNumber
      totalChunks in
  withRequirements basePrompt
    (chunkInstructions chunkNumber totalChunks
     ++ join newline (chunkRequirements format commentFormat)).

(** [basePrompt] of createPrompt, line by line. *)
Definition wholeBasePrompt (stylesSummary format commentFormat : string)
  : string :=
  join newline
    ["CRITICAL: Return ONLY valid " ++ format
      ++ " code. No explanations, no markdown, no text outside of code.";
     EmptyString;
     "Convert these Figma design tokens to " ++ format ++ " code:";
     EmptyString;
     stylesSummary;
     EmptyString;
     "OUTPUT RULES:";
     "- Return ONLY valid " ++ format ++ " code";
     "- NO explanations or descriptions outside of code";
     "- NO markdown formatting, NO backticks";
     "- NO " ++ dquote ++ "Here's the code:" ++ dquote ++ " or similar text";
     "- All commentary must be in valid " ++ format ++ " comments using: "
       ++ commentFormat;
     "- Start immediately with the code"].

(** The requirement lines of the second [switch] of createPrompt. *)
Definition promptRequirements (format commentFormat : string) : list string :=
  if format =? "css" then
    ["- Use CSS custom properties (--variable-name) for colors";
     "- Create utility classes for typography";
     "- Use /* comment */ for all explanations";
     "- Use modern CSS syntax with good browser support";
     "- Group related styles with /* section comments */";
     "- Use semantic naming conventions";
     "- NO explanatory text outside of CSS comments"]
  else if format =? "scss" then
    ["- Use SCSS variables ($variable-name) for colors";
     "- Create mixins for typography styles";
     "- Use /* comment */ and // comment for all explanations";
     "- Use SCSS best practices and features";
     "- Group related styles with /* section comments */";
     "- Use semantic naming conventions";
     "- NO explanatory text outside of SCSS comments"]
  else if format =? "tailwind" then
    ["- Create a complete tailwind.config.js configuration";
     "- Include colors, typography, spacing, and effects";
     "- Follow Tailwind CSS naming conventions";
     "- Include proper theme structure";
     "- Use // comment for all explanations";
     "- Use semantic naming that matches the design system";
     "- Start with module.exports = { or export default {";
     "- NO explanatory text outside of JavaScript comments"]
  else if format =? "javascript" then
    ["- Export as ES modules with proper TypeScript types";
     "- Use descriptive variable names";
     "- Use // comment or /* comment */ for all explanations";
     "- Organize into logical groups (colors, typography, etc.)";
     "- Use proper JavaScript object structure";
     "- Include JSDoc comments for documentation";
     "- NO explanatory text outside of JavaScript comments"]
  else if format =? "json" then
    ["- Create a clean JSON structure";
     "- Organize by type (colors, typography, spacing, effects)";
     "- Use descriptive names and include descriptions as JSON values";
     "- Follow design token standards";
     "- Include proper nesting and organization";
     "- Valid JSON only - no comments possible";
     "- NO explanatory text outside of the JSON structure"]
  else if format =? "css-variables" then
    ["- Generate ONLY CSS custom properties";
     "- Use semantic naming (--color-primary, --font-heading, etc.)";
     "- Include proper fallbacks";
     "- Group by category with /* section comments */";
     "- Use consistent naming patterns";
     "- Use /* comment */ for all explanations";
     "- NO explanatory text outside of CSS comments"]
  else if format =? "android" then
    ["- Create proper Android XML resource files";
     "- Use dp units for spacing and sp for text sizes";
     "- Follow Android naming conventions (lowercase with underscores)";
     "- Create separate sections for colors, dimensions, and styles";
     "- Use <!-- comment --> for all explanations";
     "- NO explanatory text outside of XML comments"]
  else if format =? "swiftui" then
    ["- Create Swift extensions for Color and Font";
     "- Use SwiftUI's design token patterns";
     "- Implement semantic color schemes";
     "- Create reusable typography styles";
     "- Use // comment for all explanations";
     "- Support dynamic type and accessibility";
     "- NO explanatory text outside of Swift comments"]
  else
    ["- Follow best practices for " ++ format;
     "- Use semantic naming conventions";
     "- Include proper documentation in " ++ commentFormat ++ " format";
     "- Organize code logically";
     "- NO explanatory text outside of valid " ++ format ++ " comments"].

(** [createPrompt(styles, format)]; the token-usage log line is left out. *)
Definition createPrompt (styles : JsVal) (format : string) : option string :=
  compressedStyles <- compressStylesForAI styles ;;
  let stylesSummary := serialize "  " EmptyString (toJs compressedStyles) in
  let commentFormat := commentFormatOf format in
  let basePrompt := wholeBasePrompt stylesSummary format commentFormat in
  Some (withRequirements basePrompt
          (join newline (promptRequirements format commentFormat))).

(** The [guidelines] object of getFormatSpecificGuidelines; each text
    starts with a line break. *)
Definition guidelines : list (string * string) :=
  [("css",
    join newline
       [EmptyString;
        "- Use CSS custom properties (--variable-name) for colors";
        "- Create utility classes for typography";
        "- Use /* comment */ for all explanations";
        "- Use modern CSS syntax with good browser support";
        "- Group related styles with /* section comments */";
        "- Use semantic naming conventions";
        "- NO explanatory text outside of CSS comments"]);
   ("scss",
    join newline
       [EmptyString;
        "- Use SCSS variables ($variable-name) for colors";
        "- Create mixins for typography styles";
        "- Use /* comment */ and // comment for all explanations";
        "- Use SCSS best practices and features";
        "- Group related styles with /* section comments */";
        "- Use semantic naming conventions";
        "- NO explanatory text outside of SCSS comments"]);
   ("tailwind",
    join newline
       [EmptyString;
        "- Create a complete tailwind.config.js configuration";
        "- Include colors, typography, spacing, and effects";
        "- Follow Tailwind CSS naming conventions";
        "- Include proper theme structure";
        "- Use // comment for all explanations";
        "- Use semantic naming that matches the design system";
        "- Start with module.exports = { or export default {";
        "- NO explanatory text outside of JavaScript comments"]);
   ("javascript",
    join newline
       [EmptyString;
        "- Export as ES modules with proper TypeScript types";
        "- Use descriptive variable names";
        "- Use // comment or /* comment */ for all explanations";
        "- Organize into logical groups (colors, typography, etc.)";
        "- Use proper JavaScript object structure";
        "- Include JSDoc comments for documentation";
        "- NO explanatory text outside of JavaScript comments"]);
   ("json",
    join newline
       [EmptyString;
        "- Create a clean JSON structure";
        "- Organize by type (colors, typography, spacing, effects)";
        "- Use descriptive names and include descriptions as JSON values";
        "- Follow design token standards";
        "- Include proper nesting and organization";
        "- Valid JSON only - no comments possible";
        "- NO explanatory text outside of the JSON structure"]);
   ("css-variables",
    join newline
       [EmptyString;
        "- Generate ONLY CSS custom properties";
        "- Use semantic naming (--color-primary, --font-heading, etc.)";
        "- Include proper fallbacks";
        "- Group by category with /* section comments */";
        "- Use consistent naming patterns";
        "- Use /* comment */ for all explanations";
        "- NO explanatory text outside of CSS comments"]);
   ("android",
    join newline
       [EmptyString;
        "- Create proper Android XML resource files";
        "- Use dp units for spacing and sp for text sizes";
        "- Follow Android naming conventions (lowercase with underscores)";
        "- Create separate sections for colors, dimensions, and styles";
        "- Use <!-- comment --> for all explanations";
        "- NO explanatory text outside of XML comments"]);
   ("swiftui",
    join newline
       [EmptyString;
        "- Create Swift extensions for Color and Font";
        "- Use SwiftUI's design token patterns";
        "- Implement semantic color schemes";
        "- Create reusable typography styles";
        "- Use // comment for all explanations";
        "- Support dynamic type and accessibility";
        "- NO explanatory text outside of Swift comments"])].

(** [guidelines[format] || default].  A format that names a member the
    object only inherits is outside the model. *)
Definition getFormatSpecificGuidelines (format : string) : string :=
  let fallback :=
    join newline
      ["Follow best practices for " ++ format;
       "- Use semantic naming conventions";
       "- Include proper documentation in valid " ++ format ++ " comments";
       "- Organize code logically";
       "- NO explanatory text outside of valid " ++ format ++ " comments"] in
  match entry format guidelines with
  | Some (String c text) => String c text
  | _ => fallback
  end.

(** [generatePrompt(styleTree, llm, format)] for an [llm] that is null
    ([None]) or a text; the token-usage log line is left out.  The
    [switch] for the comment syntax is the one of createPrompt, with two
    cases in the other order. *)
Definition generatePrompt (styleTree : JsVal) (llm : option string)
    (format : string) : option string :=
  compressedStyles <- compressStylesForAI styleTree ;;
  let stylesSummary := serialize "  " EmptyString (toJs compressedStyles) in
  let commentFormat := commentFormatOf format in
  let llmText :=
    match llm with
    | Some (String c text) => " using " ++ String c text
    | _ => EmptyString
    end in
  Some (join newline
          ["CRITICAL: Return ONLY valid " ++ format
             ++ " code. No explanations, no markdown, no text outside of code.";
           EmptyString;
           "You are a code generation expert" ++ llmText ++ ".";
           EmptyString;
           "Convert these Figma design tokens to " ++ format ++ " code:";
           EmptyString;
           stylesSummary;
           EmptyString;
           "OUTPUT RULES:";
           "- Return ONLY valid " ++ format ++ " code";
           "- NO explanations or descriptions outside of code";
           "- NO markdown formatting, NO backticks";
           "- NO " ++ dquote ++ "Here's the code:" ++ dquote
             ++ " or similar text";
           "- All commentary must be in valid " ++ format
             ++ " comments using: " ++ commentFormat;
           "- Start immediately with the code";
           EmptyString;
           "REQUIREMENTS:";
           getFormatSpecificGuidelines format]).

(* ================================================================== *)
(** ** generateCodeFromStyles *)

(** What one call of the SDK's [generateText] is given. *)
Record Request : Type := mkRequest {
  model : ModelHandle;
  prompt : string;
  temperature : Q
}.

(** A computation that calls [generateText]: it returns, throws, or makes
    a call and goes on with its answer, the generated text or [None] when
    the call is rejected. *)
Inductive Calls (A : Type) : Type :=
| Return (a : A)
| Throw
| Call (request : Request) (next : option string -> Calls A).

Arguments Return {A} a.
Arguments Throw {A}.
Arguments Call {A} request next.

(** [maxTokens * 0.8].  For an integer limit the product with the double
    nearest to 0.8 compares with a whole token count as the exact product
    does: a multiple of 5 gives the exact integer after rounding, any other
    limit a product at least 0.2 away from every integer. *)
Definition chunkBudget (maxTokens : Z) : Q := (inject_Z maxTokens * (4 # 5))%Q.

Section Generate.

Variable JSON_parse : string -> option JsVal.
Variable env : Env.

(** The [for] loop over the chunks, from index [i], with the [results]
    pushed so far; a rejected call is logged and thrown again. *)
Fixpoint processChunks (aiModel : ModelHandle) (format : string)
    (temperature : Q) (totalChunks i : nat) (chunks : list StyleSet)
    (results : list string) : Calls string :=
  match chunks with
  | [] => Return (combineChunkedResults JSON_parse results format)
  | chunk :: rest =>
      let prompt := createChunkPrompt chunk format (i + 1) totalChunks in
      Call (mkRequest aiModel prompt temperature)
        (fun answer =>
           match answer with
           | Some text =>
               processChunks aiModel format temperature totalChunks (S i)
                 rest (results ++ [text])%list
           | None => Throw
           end)
  end.

(** [generateCodeFromStyles(styles, options)] once [options] is
    destructured (the defaults are provider openai, format css,
    temperature 0.3 and maxTokens 100000); the log lines are left out. *)
Definition generateCodeFromStyles (styles : JsVal) (provider : string)
    (model : JsVal) (format : string) (temperature : Q) (maxTokens : Z)
  : Calls string :=
  match createModel env provider model with
  | None => Throw
  | Some aiModel =>
      match compressStylesForAI styles with
      | None => Throw
      | Some compressed =>
          (* Check if we need to chunk *)
          if shouldChunkStyles compressed (inject_Z maxTokens) then
            match chunkStyles styles (chunkBudget maxTokens) with
            | None => Throw
            | Some chunks =>
                processChunks aiModel format temperature
                  (List.length chunks) 0 chunks []
            end
          else
            (* Process normally *)
            match createPrompt styles format with
            | None => Throw
            | Some prompt =>
                Call (mkRequest aiModel prompt temperature)
                  (fun answer =>
                     match answer with
                     | Some text => Return text
                     | None => Throw
                     end)
            end
      end
  end.

End Generate.

(** Running a computation against a service: [service n request] is the
    answer to [request] when [n] requests were made before it.  The result
    is the list of the requests made, in order, and the outcome ([None]:
    the computation threw). *)
Fixpoint run {A : Type} (service : nat -> Request -> option string) (n : nat)
    (c : Calls A) : list Request * option A :=
  match c with
  | Return a => ([], Some a)
  | Throw => ([], None)
  | Call request next =>
      let (trace, outcome) := run service (S n) (next (service n request)) in
      (request :: trace, outcome)
  end.

(* ================================================================== *)
(** ** Vocabulary of the statements *)

(** Everything of one category the planner holds: the finished chunks in
    order, then the chunk being filled. *)
Definition collected (cat : Category) (st : PlanState) : list JsVal :=
  (concat (map (getCat cat) (chunks st)) ++ getCat cat (currentChunk st))%list.

(** All items of a chunk, category by category. *)
Definition items (c : StyleSet) : list JsVal :=
  (colors c ++ typography c ++ effects c ++ spacing c)%list.

(** The token estimate of one item's own serialization. *)
Definition itemTokens (x : JsVal) : nat := countTokens (compactText x).

(** The token estimate of a whole chunk. *)
Definition chunkTokens (c : StyleSet) : nat := countTokens (stringifySet c).

(** A chunk in which an item that is over budget by itself has no
    company. *)
Definition alone (maxTokens : Q) (c : StyleSet) : Prop :=
  forall x, In x (items c) -> exceeds (itemTokens x) maxTokens = true ->
            items c = [x].

(** *** Sample inputs *)

(** The solid fill of the end-to-end scenario. *)
Definition primaryBlue : JsVal :=
  JObj [("name", JStr "Primary Blue");
        ("values", JObj [("type", JStr "SOLID"); ("hex", JStr "#007AFF")])].

(** A raw collection holding that one fill style. *)
Definition oneFill : JsVal :=
  JObj [("styles", JObj [("fill", JArr [primaryBlue])])].

(** The token built for [primaryBlue]. *)
Definition primaryBlueToken : JsVal :=
  JObj [("name", JStr "Primary Blue"); ("type", JStr "SOLID");
        ("hex", JStr "#007AFF"); ("fallbackHex", JStr "#007AFF")].

(** What [compressStylesForAI] makes of [oneFill]. *)
Definition oneFillCompressed : StyleSet :=
  mkStyleSet [primaryBlueToken] [] [] []
    (Some (mkSummary 1 0 0 0 (Some 87) None)).

(** The defaulted fields of a typography token, with their defaults. *)
Definition typographyDefaults : list (string * JsVal) :=
  [("fontSize", JNum 16); ("fontFamily", JStr "system");
   ("fontWeight", JStr "normal"); ("lineHeight", JStr "normal");
   ("letterSpacing", JStr "normal")].

(** A pattern fill that carries no colour data at all, and its token. *)
Definition dotsStyle : JsVal :=
  JObj [("name", JStr "Dots"); ("values", JObj [("type", JStr "PATTERN")])].

Definition dotsToken : JsVal :=
  JObj [("name", JStr "Dots"); ("type", JStr "PATTERN")].

(** A fill style without values, and its token. *)
Definition ghostStyle : JsVal := JObj [("name", JStr "Ghost")].

Definition ghostToken : JsVal :=
  JObj [("name", JStr "Ghost"); ("type", JStr "unknown")].

Definition threeFills : JsVal :=
  JObj [("styles", JObj [("fill", JArr [primaryBlue; dotsStyle; ghostStyle])])].

(** A text style whose size is 0 and whose family is the empty string. *)
Definition bodyStyle : JsVal :=
  JObj [("name", JStr "Body");
        ("values", JObj [("fontSize", JNum 0); ("fontFamily", JStr EmptyString);
                         ("fontWeight", JNum 700)])].

Definition bodyToken : JsVal :=
  JObj [("name", JStr "Body"); ("fontSize", JNum 16);
        ("fontFamily", JStr "system"); ("fontWeight", JNum 700);
        ("lineHeight", JStr "normal"); ("letterSpacing", JStr "normal")].

Definition oneText : JsVal :=
  JObj [("styles", JObj [("text", JArr [bodyStyle])])].

Definition threeFillsCompressed : StyleSet :=
  mkStyleSet [primaryBlueToken; dotsToken] [] [] []
    (Some (mkSummary 2 0 0 0 (Some 148) None)).

Definition oneTextCompressed : StyleSet :=
  mkStyleSet [] [bodyToken] [] []
    (Some (mkSummary 0 1 0 0 (Some 94) None)).

(** Three effect styles: two stacked shadows, an empty effect list, and a
    first effect without a type. *)
Definition shadowEffects : JsVal :=
  JArr [JObj [("type", JStr "DROP_SHADOW"); ("radius", JNum 4)];
        JObj [("type", JStr "INNER_SHADOW"); ("radius", JNum 2)]].

Definition cardShadow : JsVal :=
  JObj [("name", JStr "Card"); ("values", JObj [("effects", shadowEffects)])].

Definition noEffects : JsVal :=
  JObj [("name", JStr "Flat"); ("values", JObj [("effects", JArr [])])].

Definition untypedEffect : JsVal :=
  JObj [("name", JStr "Odd");
        ("values", JObj [("effects", JArr [JObj [("radius", JNum 1)]])])].

Definition threeEffects : JsVal :=
  JObj [("styles",
         JObj [("effect", JArr [cardShadow; noEffects; untypedEffect])])].

Definition cardToken : JsVal :=
  JObj [("name", JStr "Card"); ("type", JStr "DROP_SHADOW");
        ("radius", JNum 4); ("allEffects", shadowEffects)].

Definition threeEffectsCompressed : StyleSet :=
  mkStyleSet [] [] [cardToken] []
    (Some (mkSummary 0 0 1 0 (Some 222) None)).

(** Every code unit of [s] is white space. *)
Fixpoint allSpaces (s : string) : bool :=
  match s with
  | EmptyString => true
  | String c s' => isWhiteSpace c && allSpaces s'
  end.

(** [s] holds no closing brace. *)
Fixpoint noBrace (s : string) : bool :=
  match s with
  | EmptyString => true
  | String c s' => negb (c =? "}")%char && noBrace s'
  end.


(** Two generated tailwind chunks: one exports a configuration object, the
    other does not. *)
Definition exportingChunk : string := "module.exports = {colors: {}} // end".

Definition plainChunk : string := "theme colors".

(** The texts [{"a":1}] and [{"b":2}], a text that is not JSON, and a
    parser that knows them. *)
Definition textA : string := "{" ++ quoteJSON "a" ++ ":1}".

Definition textB : string := "{" ++ quoteJSON "b" ++ ":2}".

Definition textBad : string := "not json".

Definition sampleParse (text : string) : option JsVal :=
  if text =? textA then Some (JObj [("a", JNum 1)])
  else if text =? textB then Some (JObj [("b", JNum 2)])
  else None.


(** *** Vocabulary for the further properties of the planner *)

(** The serialized members of a style set, before the summary. *)
Definition fieldTexts (c : StyleSet) : list string :=
  [quoteJSON "colors" ++ ":" ++ compactText (JArr (colors c));
   quoteJSON "typography" ++ ":" ++ compactText (JArr (typography c));
   quoteJSON "effects" ++ ":" ++ compactText (JArr (effects c));
   quoteJSON "spacing" ++ ":" ++ compactText (JArr (spacing c))].

(** The serialized summary member, when there is a summary. *)
Definition summaryTexts (c : StyleSet) : list string :=
  match summary c with
  | Some s => [quoteJSON "summary" ++ ":" ++ compactText (summaryToJs s)]
  | None => []
  end.

(** A chunk as it was when the size check ran: without its summary. *)
Definition stripSummary (c : StyleSet) : StyleSet :=
  mkStyleSet (colors c) (typography c) (effects c) (spacing c) None.

(** The categories that come after [cat] hold nothing. *)
Definition tailEmpty (cat : Category) (c : StyleSet) : Prop :=
  match cat with
  | Colors => typography c = [] /\ effects c = [] /\ spacing c = []
  | Typography => effects c = [] /\ spacing c = []
  | Effects => spacing c = []
  | Spacing => True
  end.

(** The summary [chunkStyles] writes on a chunk it numbers [n]. *)
Definition chunkSummary (c : StyleSet) (n : nat) : Summary :=
  {| totalColors := List.length (colors c);
     totalTypography := List.length (typography c);
     totalEffects := List.length (effects c);
     totalSpacing := List.length (spacing c);
     originalFileSize := None;
     chunkNumber := Some n |}.

(** The chunks of [l] carry such summaries, numbered [n], [n + 1], ... *)
Fixpoint numberedFrom (n : nat) (l : list StyleSet) : Prop :=
  match l with
  | [] => True
  | c :: l' => summary c = Some (chunkSummary c n) /\ numberedFrom (S n) l'
  end.

(** A chunk that passed the size check or holds at most one item. *)
Definition fitsOrSingle (maxTokens : Q) (c : StyleSet) : Prop :=
  exceeds (chunkTokens (stripSummary c)) maxTokens = false
  \/ List.length (items c) <= 1.

(** A compressed set without any item; it is what a raw collection
    without styles compresses to (here from the one-character input [1]). *)
Definition noItemsCompressed : StyleSet :=
  mkStyleSet [] [] [] [] (Some (mkSummary 0 0 0 0 (Some 1) None)).

(** *** Vocabulary for the further properties of the normalizer *)

(** The values under which [t?.startsWith] does not throw. *)
Definition typeOk (t : JsVal) : bool :=
  match t with
  | JUndef | JNull | JStr _ => true
  | _ => false
  end.

(** The entries of the four raw arrays on which the callbacks return. *)
Definition fillOk (style : JsVal) : bool :=
  negb (nullish style) && typeOk (optProp (getProp style "values") "type").

Definition textOk (style : JsVal) : bool := negb (nullish style).

Definition effectOk (style : JsVal) : bool :=
  negb (nullish style)
  && (let effects := optProp (getProp style "values") "effects" in
      negb (truthy effects) || negb (isArray effects)
      || isNum 0 (getProp effects "length")
      || negb (nullish (getProp effects "0"))).

Definition gridOk (style : JsVal) : bool :=
  negb (nullish style)
  && (let grids := optProp (getProp style "values") "grids" in
      negb (truthy grids && jsGt (getProp grids "length") 0)
      || negb (nullish (getProp grids "0"))).

(** A raw array is absent (falsy) or an array of good entries. *)
Definition arrayOk (ok : JsVal -> bool) (v : JsVal) : bool :=
  if truthy v
  then match v with
       | JArr l => forallb ok l
       | _ => false
       end
  else true.

(** An operand of [>] that ToNumber takes without going through its
    text: a number, a boolean, null or undefined. *)
Definition plainOperand (a : JsVal) : bool :=
  match a with
  | JStr _ | JArr _ | JObj _ => false
  | _ => true
  end.

(** The [length] the grid block compares with 0 is such an operand for
    every grid style.  It always is when [grids] is an array or a string;
    an object can carry any own [length]. *)
Definition plainLengths (styles : JsVal) : bool :=
  match optProp (getProp styles "styles") "grid" with
  | JArr l =>
      forallb
        (fun style =>
           plainOperand
             (getProp (optProp (getProp style "values") "grids") "length"))
        l
  | _ => true
  end.

(** The raw collections on which [compressStylesForAI] returns. *)
Definition shapeOk (styles : JsVal) : bool :=
  negb (nullish styles)
  && negb (isArray (getProp styles "styles"))
  && arrayOk fillOk (optProp (getProp styles "styles") "fill")
  && arrayOk textOk (optProp (getProp styles "styles") "text")
  && arrayOk effectOk (optProp (getProp styles "styles") "effect")
  && arrayOk gridOk (optProp (getProp styles "styles") "grid").

(** The type-specific fields of an effect token, each with the effect
    types the callback copies it for. *)
Definition typedFields : list (string * list string) :=
  [("color", ["INNER_SHADOW"; "DROP_SHADOW"]);
   ("offset", ["INNER_SHADOW"; "DROP_SHADOW"]);
   ("spread", ["INNER_SHADOW"; "DROP_SHADOW"]);
   ("showShadowBehindNode", ["INNER_SHADOW"; "DROP_SHADOW"]);
   ("blurType", ["LAYER_BLUR"; "BACKGROUND_BLUR"]);
   ("startRadius", ["LAYER_BLUR"; "BACKGROUND_BLUR"]);
   ("startOffset", ["LAYER_BLUR"; "BACKGROUND_BLUR"]);
   ("endOffset", ["LAYER_BLUR"; "BACKGROUND_BLUR"]);
   ("noiseType", ["NOISE"]);
   ("density", ["NOISE"]);
   ("secondaryColor", ["NOISE"]);
   ("opacity", ["NOISE"]);
   ("noiseSize", ["NOISE"; "TEXTURE"]);
   ("clipToShape", ["TEXTURE"])].

(** A grid style with a column pattern and one without any grid. *)
Definition columnsStyle : JsVal :=
  JObj [("name", JStr "Columns");
        ("values", JObj [("grids", JArr [JObj [("pattern", JStr "COLUMNS");
                                                ("count", JNum 12)]])])].

Definition bareGridStyle : JsVal := JObj [("name", JStr "Bare")].

Definition columnsToken : JsVal :=
  JObj [("name", JStr "Columns"); ("type", JStr "grid");
        ("pattern", JStr "COLUMNS"); ("count", JNum 12)].

Definition twoGrids : JsVal :=
  JObj [("styles", JObj [("grid", JArr [columnsStyle; bareGridStyle])])].

Definition twoGridsCompressed : StyleSet :=
  mkStyleSet [] [] [] [columnsToken]
    (Some (mkSummary 0 0 0 1 (Some 110) None)).

(** A raw collection whose fill array holds a null entry. *)
Definition nullFill : JsVal :=
  JObj [("styles", JObj [("fill", JArr [primaryBlue; JNull])])].

(** The writes of the fill callback, block by block; [V k] stands for
    [style.values?.k] and the flag of a block says whether its paint type
    test succeeded. *)
Definition commonPaint (V : string -> JsVal) (paint : Props) : Props :=
  setIfTruthy "blendMode" (V "blendMode")
    (setIfDefined "opacity" (V "opacity") paint).

Definition solidPaint (V : string -> JsVal) (on : bool) (paint : Props) : Props :=
  if on then
    setIfTruthy "css" (V "css")
      (setIfTruthy "hex" (V "hex") (setIfTruthy "color" (V "color") paint))
  else paint.

Definition gradientPaint (V : string -> JsVal) (on : bool) (paint : Props)
  : Props :=
  if on then
    setIfTruthy "gradient" (V "gradient")
      (setIfTruthy "gradientStops" (V "gradientStops")
         (setIfTruthy "gradientHandlePositions" (V "gradientHandlePositions")
            paint))
  else paint.

Definition imagePaint (V : string -> JsVal) (on : bool) (paint : Props) : Props :=
  if on then
    setIfTruthy "gifRef" (V "gifRef")
      (setIfTruthy "filters" (V "filters")
         (setIfTruthy "imageRef" (V "imageRef")
            (setIfDefined "rotation" (V "rotation")
               (setIfDefined "scalingFactor" (V "scalingFactor")
                  (setIfTruthy "imageTransform" (V "imageTransform")
                     (setIfTruthy "scaleMode" (V "scaleMode") paint))))))
  else paint.

Definition patternPaint (V : string -> JsVal) (on : bool) (paint : Props)
  : Props :=
  if on then
    setIfTruthy "verticalAlignment" (V "verticalAlignment")
      (setIfTruthy "horizontalAlignment" (V "horizontalAlignment")
         (setIfTruthy "spacing" (V "spacing")
            (setIfDefined "scalingFactor" (V "scalingFactor")
               (setIfTruthy "tileType" (V "tileType")
                  (setIfTruthy "sourceNodeId" (V "sourceNodeId") paint)))))
  else paint.

Definition fallbackPaint (V : string -> JsVal) (paint : Props) : Props :=
  if negb (truthy (lookup "color" paint))
     && negb (truthy (lookup "gradientStops" paint))
     && negb (truthy (lookup "imageRef" paint))
  then setIfTruthy "fallbackCss" (V "css")
         (setIfTruthy "fallbackHex" (V "hex") paint)
  else paint.

(** *** Vocabulary for providers and generation *)

(** An environment in which only the OpenAI key is set. *)
Definition openaiOnly : Env :=
  fun v => if v =? "OPENAI_API_KEY" then Some "sk-test" else None.

(** The requests the chunk loop makes when none is rejected: one per
    chunk, in order, the first for chunk [i + 1] of [totalChunks]. *)
Fixpoint chunkRequests (aiModel : ModelHandle) (format : string)
    (temperature : Q) (totalChunks i : nat) (chunks : list StyleSet)
  : list Request :=
  match chunks with
  | [] => []
  | chunk :: rest =>
      mkRequest aiModel (createChunkPrompt chunk format (i + 1) totalChunks)
        temperature
      :: chunkRequests aiModel format temperature totalChunks (S i) rest
  end.

(** The requests of [requests] up to and including the first one the
    service rejects, when [n] requests were made before them. *)
Fixpoint untilRejected (service : nat -> Request -> option string) (n : nat)
    (requests : list Request) : list Request :=
  match requests with
  | [] => []
  | request :: rest =>
      request :: match service n request with
                 | Some _ => untilRejected service (S n) rest
                 | None => []
                 end
  end.

(** The texts the service answers [requests] with, if it rejects none. *)
Fixpoint answers (service : nat -> Request -> option string) (n : nat)
    (requests : list Request) : option (list string) :=
  match requests with
  | [] => Some []
  | request :: rest =>
      text <- service n request ;;
      texts <- answers service (S n) rest ;;
      Some (text :: texts)
  end.

(** A service that answers every request with the same rule. *)
Definition ruleService : nat -> Request -> option string :=
  fun _ _ => Some "a {}".

(** A service that rejects its second request. *)
Definition rejectSecond : nat -> Request -> option string :=
  fun n _ => if (n =? 1)%nat then None else Some "a {}".

(** The plan of the one-fill collection under a limit of 19 tokens, and
    the requests made for it. *)
Definition sampleChunks : list StyleSet :=
  planChunks oneFillCompressed (chunkBudget 19).

Definition sampleRequests : list Request :=
  chunkRequests (openai, JStr "o4-mini") "css" (3 # 10)%Q
    (List.length sampleChunks) 0 sampleChunks.

(** The request for the second of these chunks. *)
Definition secondRequest : Request :=
  mkRequest (openai, JStr "o4-mini")
    (createChunkPrompt
       (mkStyleSet [primaryBlueToken] [] [] []
          (Some (mkSummary 1 0 0 0 None (Some 2))))
       "css" 2 2)
    (3 # 10)%Q.

(** The properties the json case stores for results that do not parse:
    [chunk_(i+1)] for the result at index [i], counting on from [i]. *)
Fixpoint chunkEntries (i : nat) (results : list string) : Props :=
  match results with
  | [] => []
  | r :: rest =>
      ("chunk_" ++ showNat (i + 1), JStr r) :: chunkEntries (S i) rest
  end.



(** A text style whose name is null, and the collection that holds it. *)
Definition unnamedStyle : JsVal := JObj [("name", JNull)].

Definition unnamedToken : JsVal :=
  JObj [("name", JNull); ("fontSize", JNum 16);
        ("fontFamily", JStr "system"); ("fontWeight", JStr "normal");
        ("lineHeight", JStr "normal"); ("letterSpacing", JStr "normal")].

Definition oneUnnamedText : JsVal :=
  JObj [("styles", JObj [("text", JArr [unnamedStyle])])].

Definition oneUnnamedTextCompressed : StyleSet :=
  mkStyleSet [] [unnamedToken] [] []
    (Some (mkSummary 0 1 0 0 (Some 35) None)).

(** A collection whose [styles] member is an array. *)
Definition arrayStyles : JsVal := JObj [("styles", JArr [])].

(* ================================================================== *)
(** ** Basic facts: strings, lists, token counts *)

Lemma length_append (a b : string) :
  String.length (a ++ b) = String.length a + String.length b.
Proof.
  induction a as [|c a IH]; simpl; [reflexivity | now rewrite IH].
Qed.

Lemma join_length_ge (sep p : string) (parts : list string) :
  In p parts -> String.length p <= String.length (join sep parts).
Proof.
  induction parts as [|q [|q' rest] IH]; intros Hin.
  - destruct Hin.
  - destruct Hin as [-> | []]. simpl. lia.
  - change (join sep (q :: q' :: rest)) with (q ++ sep ++ join sep (q' :: rest)).
    rewrite !length_append.
    destruct Hin as [-> | Hin]; [lia |].
    specialize (IH Hin). lia.
Qed.

(** [countTokens] is the ceiling of a quarter of the length. *)
Lemma countTokens_ceil (text : string) :
  String.length text <= 4 * countTokens text
  /\ 4 * countTokens text < String.length text + 4.
Proof.
  unfold countTokens.
  pose proof (Nat.div_mod (String.length text + 3) 4 ltac:(lia)) as Hdm.
  pose proof (Nat.mod_upper_bound (String.length text + 3) 4 ltac:(lia)) as Hub.
  lia.
Qed.

Lemma countTokens_mono (a b : string) :
  String.length a <= String.length b -> countTokens a <= countTokens b.
Proof.
  intros H. unfold countTokens.
  apply Nat.Div0.div_le_mono. lia.
Qed.

Lemma exceeds_mono (n m : nat) (maxTokens : Q) :
  n <= m -> exceeds n maxTokens = true -> exceeds m maxTokens = true.
Proof.
  unfold exceeds. intros Hle Hn.
  apply negb_true_iff in Hn. apply negb_true_iff.
  destruct (Qle_bool (inject_Z (Z.of_nat m)) maxTokens) eqn:Hm; [| reflexivity].
  apply Qle_bool_iff in Hm.
  assert (Hq : (inject_Z (Z.of_nat n) <= maxTokens)%Q).
  { eapply Qle_trans; [| exact Hm].
    rewrite <- Zle_Qle. lia. }
  apply Qle_bool_iff in Hq. congruence.
Qed.

Lemma exceeds_false_iff (n : nat) (maxTokens : Q) :
  exceeds n maxTokens = false <-> (inject_Z (Z.of_nat n) <= maxTokens)%Q.
Proof.
  unfold exceeds. rewrite negb_false_iff. apply Qle_bool_iff.
Qed.

(** *** Serialization of arrays and of style sets *)

Lemma serialize_array (l : list JsVal) :
  compactText (JArr l)
  = match map compactText l with
    | [] => "[]"
    | parts => "[" ++ join "," parts ++ "]"
    end.
Proof.
  unfold compactText at 1. cbn [serialize]. unfold wrap.
  change (EmptyString ++ EmptyString) with EmptyString.
  change (serialize EmptyString EmptyString) with compactText.
  destruct (map compactText l); reflexivity.
Qed.

Lemma serialize_array_ge (x : JsVal) (l : list JsVal) :
  In x l ->
  String.length (compactText x) <= String.length (compactText (JArr l)).
Proof.
  intros Hin. rewrite serialize_array.
  pose proof (in_map compactText l x Hin) as Hp.
  destruct (map compactText l) as [|p parts] eqn:Hm; [destruct Hp |].
  rewrite !length_append.
  pose proof (join_length_ge "," _ _ Hp). lia.
Qed.

Lemma stringifySet_ge (cat : Category) (x : JsVal) (c : StyleSet) :
  In x (getCat cat c) ->
  String.length (compactText x) <= String.length (stringifySet c).
Proof.
  intros Hin.
  pose proof (serialize_array_ge x _ Hin) as Hx.
  set (field := fun (k : string) (l : list JsVal) =>
                  quoteJSON k ++ ":" ++ compactText (JArr l)).
  assert (Hs : exists tail : list string,
             stringifySet c
             = "{" ++ join "," (field "colors" (colors c)
                                 :: field "typography" (typography c)
                                 :: field "effects" (effects c)
                                 :: field "spacing" (spacing c) :: tail) ++ "}").
  { unfold stringifySet, toJs.
    destruct (summary c) as [s|].
    - eexists [_]. reflexivity.
    - exists []. reflexivity. }
  destruct Hs as [tail Hs]. rewrite Hs.
  assert (Hf : forall k l, String.length (compactText (JArr l))
                           <= String.length (field k l)).
  { intros k l. unfold field. rewrite !length_append. lia. }
  rewrite !length_append.
  assert (Hj : String.length (field
                 match cat with
                 | Colors => "colors" | Typography => "typography"
                 | Effects => "effects" | Spacing => "spacing"
                 end (getCat cat c))
               <= String.length
                    (join "," (field "colors" (colors c)
                               :: field "typography" (typography c)
                               :: field "effects" (effects c)
                               :: field "spacing" (spacing c) :: tail))).
  { apply join_length_ge. destruct cat; simpl; auto. }
  specialize (Hf match cat with
                 | Colors => "colors" | Typography => "typography"
                 | Effects => "effects" | Spacing => "spacing"
                 end (getCat cat c)).
  lia.
Qed.

(** *** Reading and writing one category of a chunk *)

Lemma Category_eq_dec (a b : Category) : {a = b} + {a <> b}.
Proof. decide equality. Defined.

Lemma getCat_setCat_same (cat : Category) (l : list JsVal) (c : StyleSet) :
  getCat cat (setCat cat l c) = l.
Proof. destruct cat; reflexivity. Qed.

Lemma getCat_setCat_other (cat cat' : Category) (l : list JsVal) (c : StyleSet) :
  cat <> cat' -> getCat cat (setCat cat' l c) = getCat cat c.
Proof. destruct cat, cat'; intros H; try reflexivity; congruence. Qed.

Lemma getCat_withSummary (cat : Category) (c : StyleSet) (n : nat) :
  getCat cat (withSummary c n) = getCat cat c.
Proof. destruct cat; reflexivity. Qed.

Lemma pop_push (cat : Category) (item : JsVal) (c : StyleSet) :
  pop cat (push cat item c) = c.
Proof.
  unfold pop, push. rewrite getCat_setCat_same, removelast_last.
  destruct c, cat; reflexivity.
Qed.

Lemma getCat_emptyChunk (cat : Category) : getCat cat emptyChunk = [].
Proof. destruct cat; reflexivity. Qed.

(** *** The planner loses nothing *)

Lemma stepItem_collected (maxTokens : Q) (cat cat' : Category)
    (st : PlanState) (item : JsVal) :
  collected cat' (stepItem maxTokens cat st item)
  = if Category_eq_dec cat' cat
    then (collected cat' st ++ [item])%list
    else collected cat' st.
Proof.
  unfold stepItem, collected.
  destruct (exceeds _ _); cbn [chunks currentChunk].
  - rewrite pop_push, map_app, concat_app. cbn [map concat].
    rewrite getCat_withSummary, app_nil_r.
    destruct (Category_eq_dec cat' cat) as [-> | Hne].
    + now rewrite getCat_setCat_same.
    + rewrite getCat_setCat_other, getCat_emptyChunk by assumption.
      now rewrite app_nil_r.
  - unfold push.
    destruct (Category_eq_dec cat' cat) as [-> | Hne].
    + rewrite getCat_setCat_same. now rewrite app_assoc.
    + now rewrite getCat_setCat_other by assumption.
Qed.

Lemma fold_stepItem_collected (maxTokens : Q) (cat cat' : Category)
    (items : list JsVal) (st : PlanState) :
  collected cat' (fold_left (stepItem maxTokens cat) items st)
  = if Category_eq_dec cat' cat
    then (collected cat' st ++ items)%list
    else collected cat' st.
Proof.
  revert st. induction items as [|item items IH]; intros st; cbn [fold_left].
  - destruct (Category_eq_dec cat' cat); [now rewrite app_nil_r | reflexivity].
  - rewrite IH, stepItem_collected.
    destruct (Category_eq_dec cat' cat); [| reflexivity].
    now rewrite <- app_assoc.
Qed.

Lemma plan_loop_collected (maxTokens : Q) (compressed : StyleSet) (cat : Category) :
  collected cat (fold_left (stepCategory maxTokens compressed) categories
                   (mkPlanState [] emptyChunk))
  = getCat cat compressed.
Proof.
  unfold categories, stepCategory. cbn [fold_left].
  rewrite !fold_stepItem_collected.
  unfold collected. cbn [chunks currentChunk map concat].
  rewrite getCat_emptyChunk.
  destruct cat; reflexivity.
Qed.

Lemma someNonEmpty_false (c : StyleSet) (cat : Category) :
  someNonEmpty c = false -> getCat cat c = [].
Proof.
  unfold someNonEmpty. cbn [existsb]. rewrite !orb_false_iff.
  intros (Hc & Ht & He & Hs & _).
  destruct cat; cbn [getCat];
    match goal with
    | |- ?f c = [] => destruct (f c); [reflexivity | discriminate]
    end.
Qed.

Lemma planChunks_concat (compressed : StyleSet) (maxTokens : Q) (cat : Category) :
  concat (map (getCat cat) (planChunks compressed maxTokens))
  = getCat cat compressed.
Proof.
  unfold planChunks.
  destruct (negb (shouldChunkStyles compressed maxTokens)).
  - cbn [map concat]. apply app_nil_r.
  - pose proof (plan_loop_collected maxTokens compressed cat) as Hc.
    set (st := fold_left _ categories _) in *.
    unfold collected in Hc.
    destruct (someNonEmpty (currentChunk st)) eqn:Hne.
    + rewrite map_app, concat_app. cbn [map concat].
      now rewrite getCat_withSummary, app_nil_r.
    + rewrite (someNonEmpty_false _ cat Hne), app_nil_r in Hc. exact Hc.
Qed.

(** *** Items that are over budget by themselves *)

Lemma in_items (x : JsVal) (c : StyleSet) :
  In x (items c) -> exists cat, In x (getCat cat c).
Proof.
  unfold items. rewrite !in_app_iff.
  intros [H | [H | [H | H]]];
    [exists Colors | exists Typography | exists Effects | exists Spacing];
    exact H.
Qed.

Lemma over_item_over_chunk (maxTokens : Q) (x : JsVal) (c : StyleSet) :
  In x (items c) -> exceeds (itemTokens x) maxTokens = true ->
  exceeds (chunkTokens c) maxTokens = true.
Proof.
  intros Hin Hx. destruct (in_items _ _ Hin) as [cat Hcat].
  eapply exceeds_mono; [| exact Hx].
  apply countTokens_mono. eapply stringifySet_ge. exact Hcat.
Qed.

Lemma alone_within_budget (maxTokens : Q) (c : StyleSet) :
  exceeds (chunkTokens c) maxTokens = false -> alone maxTokens c.
Proof.
  intros Hc x Hin Hx.
  rewrite (over_item_over_chunk _ _ _ Hin Hx) in Hc. discriminate.
Qed.

Lemma alone_single (maxTokens : Q) (cat : Category) (item : JsVal) :
  alone maxTokens (setCat cat [item] emptyChunk).
Proof.
  intros x Hin _.
  assert (Hi : items (setCat cat [item] emptyChunk) = [item])
    by (destruct cat; reflexivity).
  rewrite Hi in *. destruct Hin as [-> | []]. reflexivity.
Qed.

Lemma stepItem_alone (maxTokens : Q) (cat : Category) (st : PlanState) (item : JsVal) :
  Forall (alone maxTokens) (chunks st) -> alone maxTokens (currentChunk st) ->
  Forall (alone maxTokens) (chunks (stepItem maxTokens cat st item))
  /\ alone maxTokens (currentChunk (stepItem maxTokens cat st item)).
Proof.
  intros Hch Hcur. unfold stepItem.
  destruct (exceeds _ _) eqn:Hex; cbn [chunks currentChunk].
  - split; [| apply alone_single].
    apply Forall_app. split; [exact Hch |].
    constructor; [| constructor].
    rewrite pop_push. exact Hcur.
  - split; [exact Hch |]. apply alone_within_budget. exact Hex.
Qed.

Lemma fold_stepItem_alone (maxTokens : Q) (cat : Category)
    (l : list JsVal) (st : PlanState) :
  Forall (alone maxTokens) (chunks st) -> alone maxTokens (currentChunk st) ->
  Forall (alone maxTokens) (chunks (fold_left (stepItem maxTokens cat) l st))
  /\ alone maxTokens (currentChunk (fold_left (stepItem maxTokens cat) l st)).
Proof.
  revert st. induction l as [|item l IH]; intros st Hch Hcur; cbn [fold_left].
  - now split.
  - destruct (stepItem_alone maxTokens cat st item Hch Hcur) as [H1 H2].
    now apply IH.
Qed.

Lemma fold_stepCategory_alone (maxTokens : Q) (compressed : StyleSet)
    (cats : list Category) (st : PlanState) :
  Forall (alone maxTokens) (chunks st) -> alone maxTokens (currentChunk st) ->
  let st' := fold_left (stepCategory maxTokens compressed) cats st in
  Forall (alone maxTokens) (chunks st') /\ alone maxTokens (currentChunk st').
Proof.
  revert st. induction cats as [|cat cats IH]; intros st Hch Hcur; cbn [fold_left].
  - now split.
  - unfold stepCategory at 2.
    destruct (fold_stepItem_alone maxTokens cat (getCat cat compressed) st Hch Hcur)
      as [H1 H2].
    now apply IH.
Qed.

(** An item whose own serialization is over budget sits alone in its
    chunk, and that chunk is over budget. *)
Lemma oversized_item_alone (compressed : StyleSet) (maxTokens : Q)
    (chunk : StyleSet) (x : JsVal) :
  In chunk (planChunks compressed maxTokens) ->
  In x (items chunk) ->
  exceeds (itemTokens x) maxTokens = true ->
  items chunk = [x] /\ exceeds (chunkTokens chunk) maxTokens = true.
Proof.
  intros Hchunk Hx Hover.
  split; [| eapply over_item_over_chunk; eassumption].
  revert Hchunk. unfold planChunks.
  destruct (negb (shouldChunkStyles compressed maxTokens)) eqn:Hsmall.
  - intros [<- | []].
    apply negb_true_iff in Hsmall.
    exact (alone_within_budget _ _ Hsmall x Hx Hover).
  - assert (Hempty : alone maxTokens emptyChunk) by (intros y []).
    destruct (fold_stepCategory_alone maxTokens compressed categories
                (mkPlanState [] emptyChunk) (Forall_nil _) Hempty) as [H1 H2].
    set (st := fold_left _ categories _) in *.
    rewrite Forall_forall in H1.
    destruct (someNonEmpty (currentChunk st)).
    + rewrite in_app_iff. intros [Hin | [<- | []]].
      * exact (H1 _ Hin x Hx Hover).
      * exact (H2 x Hx Hover).
    + intros Hin. exact (H1 _ Hin x Hx Hover).
Qed.

(* ================================================================== *)
(** ** Chunk planner: the specified properties *)

(** C1.  For every compressed style set and every token budget, the colors
    arrays of the produced chunks, concatenated in chunk order, are the
    original colors array, and likewise for typography, effects and
    spacing: nothing is dropped, duplicated, reordered or moved to another
    category. *)
Theorem chunks_concat_lossless (compressed : StyleSet) (maxTokensPerChunk : Q) :
  let produced := planChunks compressed maxTokensPerChunk in
  concat (map colors produced) = colors compressed
  /\ concat (map typography produced) = typography compressed
  /\ concat (map effects produced) = effects compressed
  /\ concat (map spacing produced) = spacing compressed.
Proof.
  intros produced. subst produced. repeat split.
  - exact (planChunks_concat compressed maxTokensPerChunk Colors).
  - exact (planChunks_concat compressed maxTokensPerChunk Typography).
  - exact (planChunks_concat compressed maxTokensPerChunk Effects).
  - exact (planChunks_concat compressed maxTokensPerChunk Spacing).
Qed.

(** What [compressStylesForAI] puts in the summary. *)
Lemma compress_summary (styles : JsVal) (compressed : StyleSet) :
  compressStylesForAI styles = Some compressed ->
  exists size,
    summary compressed
    = Some {| totalColors := List.length (colors compressed);
              totalTypography := List.length (typography compressed);
              totalEffects := List.length (effects compressed);
              totalSpacing := List.length (spacing compressed);
              originalFileSize := Some size;
              chunkNumber := None |}.
Proof.
  unfold compressStylesForAI. intros H.
  repeat match type of H with
         | bind ?m _ = Some _ =>
             destruct m eqn:?; [cbn [bind] in H | discriminate H]
         end.
  injection H as <-. eexists. reflexivity.
Qed.

(** C2.  A compressed style set whose token estimate (the ceiling of a
    quarter of its serialized length) is at or below the per-chunk budget
    comes back as exactly one chunk, the set itself; its summary is the one
    compressStylesForAI wrote and carries no chunkNumber. *)
Theorem within_budget_single_chunk (compressed : StyleSet) (maxTokensPerChunk : Q) :
  Qle (inject_Z (Z.of_nat (countTokens (stringifySet compressed))))
      maxTokensPerChunk ->
  (String.length (stringifySet compressed)
   <= 4 * countTokens (stringifySet compressed)
   < String.length (stringifySet compressed) + 4)
  /\ planChunks compressed maxTokensPerChunk = [compressed]
  /\ forall styles,
       compressStylesForAI styles = Some compressed ->
       chunkStyles styles maxTokensPerChunk = Some [compressed]
       /\ option_map chunkNumber (summary compressed) = Some None.
Proof.
  intros Hfit.
  assert (Hplan : planChunks compressed maxTokensPerChunk = [compressed]).
  { unfold planChunks, shouldChunkStyles.
    apply exceeds_false_iff in Hfit. now rewrite Hfit. }
  split; [exact (countTokens_ceil (stringifySet compressed)) |].
  split; [exact Hplan |].
  intros styles Hc. split.
  - unfold chunkStyles. rewrite Hc. cbn [bind]. now rewrite Hplan.
  - destruct (compress_summary _ _ Hc) as [size ->]. reflexivity.
Qed.

Lemma within_budget_single_chunk_witness :
  Qle (inject_Z (Z.of_nat (countTokens (stringifySet oneFillCompressed))))
      (inject_Z 60)
  /\ compressStylesForAI oneFill = Some oneFillCompressed
  /\ planChunks oneFillCompressed (inject_Z 60) = [oneFillCompressed]
  /\ chunkStyles oneFill (inject_Z 60) = Some [oneFillCompressed]
  /\ option_map chunkNumber (summary oneFillCompressed) = Some None.
Proof.
  assert (Hfit : Qle (inject_Z (Z.of_nat
                        (countTokens (stringifySet oneFillCompressed))))
                     (inject_Z 60))
    by (apply Qle_bool_iff; vm_compute; reflexivity).
  assert (Hc : compressStylesForAI oneFill = Some oneFillCompressed)
    by (vm_compute; reflexivity).
  destruct (within_budget_single_chunk oneFillCompressed (inject_Z 60) Hfit)
    as (_ & Hplan & Hstyles).
  destruct (Hstyles oneFill Hc) as [Hchunks Hnum].
  repeat split; assumption.
Defined.

(** C5 (the code departs from it).  When the first item already exceeds the
    budget in a chunk of its own, the loop saves the still empty working
    chunk before starting the new one: [oneFill] with a budget of 15 tokens
    (its one token alone is estimated at 20) is planned as an empty chunk
    numbered 1 followed by the chunk holding the item, numbered 2. *)
Theorem first_item_over_budget_emits_empty_chunk :
  itemTokens primaryBlueToken = 20
  /\ exceeds (itemTokens primaryBlueToken) (inject_Z 15) = true
  /\ compressStylesForAI oneFill = Some oneFillCompressed
  /\ shouldChunkStyles oneFillCompressed (inject_Z 15) = true
  /\ chunkStyles oneFill (inject_Z 15)
     = Some [mkStyleSet [] [] [] [] (Some (mkSummary 0 0 0 0 None (Some 1)));
             mkStyleSet [primaryBlueToken] [] [] []
               (Some (mkSummary 1 0 0 0 None (Some 2)))]
  /\ exists chunk chunks,
       chunkStyles oneFill (inject_Z 15) = Some (chunk :: chunks)
       /\ items chunk = [].
Proof.
  repeat split; try (vm_compute; reflexivity).
  eexists. eexists. split; vm_compute; reflexivity.
Qed.

(* ================================================================== *)
(** ** Reading back what was written *)

Lemma lookup_replaceProp (k k' : string) (v : JsVal) (ps : Props) :
  hasKey k' ps = true ->
  lookup k (replaceProp k' v ps) = if k' =? k then v else lookup k ps.
Proof.
  induction ps as [|[k0 v0] ps IH]; cbn [hasKey replaceProp]; [discriminate |].
  intros Hk.
  destruct (String.eqb_spec k0 k') as [-> | Hne]; cbn [lookup].
  - destruct (k' =? k); reflexivity.
  - cbn [orb] in Hk. rewrite (IH Hk).
    destruct (String.eqb_spec k0 k) as [-> | Hne']; [| reflexivity].
    destruct (String.eqb_spec k' k) as [-> | _]; [congruence | reflexivity].
Qed.

Lemma lookup_insertIndex (i : N) (k k' : string) (v : JsVal) (ps : Props) :
  hasKey k' ps = false ->
  lookup k (insertIndex i k' v ps) = if k' =? k then v else lookup k ps.
Proof.
  induction ps as [|[k0 v0] ps IH]; cbn [hasKey insertIndex]; [reflexivity |].
  intros Hk. apply orb_false_iff in Hk as [Hk0 Hk].
  destruct (arrayIndex k0) as [j|]; [destruct (j <? i)%N |]; try reflexivity.
  cbn [lookup]. rewrite (IH Hk).
  destruct (String.eqb_spec k0 k) as [-> | Hne]; [| reflexivity].
  now rewrite String.eqb_sym, Hk0.
Qed.

Lemma lookup_append (k k' : string) (v : JsVal) (ps : Props) :
  hasKey k' ps = false ->
  lookup k (ps ++ [(k', v)])%list = if k' =? k then v else lookup k ps.
Proof.
  induction ps as [|[k0 v0] ps IH]; cbn [hasKey app lookup]; [reflexivity |].
  intros Hk. apply orb_false_iff in Hk as [Hk0 Hk].
  rewrite (IH Hk).
  destruct (String.eqb_spec k0 k) as [-> | Hne]; [| reflexivity].
  now rewrite String.eqb_sym, Hk0.
Qed.

(** Reading [k] after [obj[k'] = v]. *)
Lemma lookup_setProp (k k' : string) (v : JsVal) (ps : Props) :
  lookup k (setProp ps k' v) = if k' =? k then v else lookup k ps.
Proof.
  unfold setProp. destruct (hasKey k' ps) eqn:Hk.
  - now apply lookup_replaceProp.
  - destruct (arrayIndex k').
    + now apply lookup_insertIndex.
    + now apply lookup_append.
Qed.

Lemma lookup_setIfTruthy (k k' : string) (x : JsVal) (ps : Props) :
  lookup k (setIfTruthy k' x ps)
  = if (k' =? k) && truthy x then x else lookup k ps.
Proof.
  unfold setIfTruthy. destruct (truthy x).
  - rewrite lookup_setProp. now rewrite andb_true_r.
  - now rewrite andb_false_r.
Qed.

Lemma lookup_setIfDefined (k k' : string) (x : JsVal) (ps : Props) :
  lookup k (setIfDefined k' x ps)
  = if (k' =? k) && defined x then x else lookup k ps.
Proof.
  unfold setIfDefined. destruct (defined x).
  - rewrite lookup_setProp. now rewrite andb_true_r.
  - now rewrite andb_false_r.
Qed.

(* ================================================================== *)
(** ** Style normalizer: how the four arrays arise *)

Lemma mapM_Forall2 {A B : Type} (f : A -> option B) (l : list A) (l' : list B) :
  mapM f l = Some l' -> Forall2 (fun x y => f x = Some y) l l'.
Proof.
  revert l'. induction l as [|x l IH]; cbn [mapM]; intros l' H.
  - injection H as <-. constructor.
  - destruct (f x) as [y|] eqn:Hy; [cbn [bind] in H | discriminate].
    destruct (mapM f l) as [ys|]; [cbn [bind] in H | discriminate].
    injection H as <-. constructor; [exact Hy | now apply IH].
Qed.

Lemma arrayMap_inv {B : Type} (f : JsVal -> option B) (v : JsVal) (ys : list B) :
  arrayMap f v = Some ys ->
  exists l, v = JArr l /\ Forall2 (fun x y => f x = Some y) l ys.
Proof.
  destruct v; cbn [arrayMap]; try discriminate.
  intros H. eexists. split; [reflexivity | now apply mapM_Forall2].
Qed.

(** The four arrays of a compressed set, each traced to its raw array. *)
Lemma compress_inv (styles : JsVal) (compressed : StyleSet) :
  compressStylesForAI styles = Some compressed ->
  let ss := getProp styles "styles" in
  (if truthy (optProp ss "fill")
   then exists fill paints,
       optProp ss "fill" = JArr fill
       /\ Forall2 (fun style paint => fillToken style = Some paint) fill paints
       /\ colors compressed = filter keepPaint paints
   else colors compressed = [])
  /\ (if truthy (optProp ss "text")
      then exists texts,
          optProp ss "text" = JArr texts
          /\ Forall2 (fun style token => textToken style = Some token)
               texts (typography compressed)
      else typography compressed = [])
  /\ (if truthy (optProp ss "effect")
      then exists effs found,
          optProp ss "effect" = JArr effs
          /\ Forall2 (fun style r => effectToken style = Some r) effs found
          /\ effects compressed = filterEffects found
      else effects compressed = [])
  /\ (if truthy (optProp ss "grid")
      then exists grids found,
          optProp ss "grid" = JArr grids
          /\ Forall2 (fun style grid => gridToken style = Some grid) grids found
          /\ spacing compressed = filter keepGrid found
      else spacing compressed = []).
Proof.
  intros H. cbv zeta.
  unfold compressStylesForAI, readProp in H.
  destruct (nullish styles); [discriminate |]. cbn [bind] in H.
  set (ss := getProp styles "styles") in *.
  destruct (isArray ss); [discriminate |].
  destruct (truthy (optProp ss "fill")) eqn:Hf;
    destruct (truthy (optProp ss "text")) eqn:Ht;
    destruct (truthy (optProp ss "effect")) eqn:He;
    destruct (truthy (optProp ss "grid")) eqn:Hg;
    repeat match type of H with
      | bind (bind ?m _) _ = Some _ =>
          let E := fresh "E" in
          destruct m eqn:E; [cbn [bind] in H | discriminate H];
          apply arrayMap_inv in E; destruct E as (? & ? & ?)
      | bind (Some _) _ = Some _ => cbn [bind] in H
      | bind ?m _ = Some _ =>
          let E := fresh "E" in
          destruct m eqn:E; [cbn [bind] in H | discriminate H];
          try (apply arrayMap_inv in E; destruct E as (? & ? & ?))
      end;
    injection H as <-; cbn [colors typography effects spacing];
    repeat split; eauto 6.
Qed.

Lemma Forall2_In_l {A B : Type} (R : A -> B -> Prop) (l : list A) (l' : list B) (x : A) :
  Forall2 R l l' -> In x l -> exists y, In y l' /\ R x y.
Proof.
  induction 1 as [|a b l l' Hab _ IH]; intros Hin; [destruct Hin |].
  destruct Hin as [-> | Hin].
  - exists b. split; [now left | exact Hab].
  - destruct (IH Hin) as (y & Hy & Hxy). exists y. split; [now right | exact Hxy].
Qed.

(* ================================================================== *)
(** ** Style normalizer: colors *)

(** C3 as stated fails: the token of a pattern fill has no color, no
    gradientStops, no imageRef and no fallback, and it is kept. *)
Lemma pattern_paint_without_colour_is_kept :
  In dotsStyle [primaryBlue; dotsStyle; ghostStyle]
  /\ fillToken dotsStyle = Some dotsToken
  /\ getProp dotsToken "color" = JUndef
  /\ getProp dotsToken "gradientStops" = JUndef
  /\ getProp dotsToken "imageRef" = JUndef
  /\ getProp dotsToken "fallbackHex" = JUndef
  /\ getProp dotsToken "fallbackCss" = JUndef
  /\ compressStylesForAI threeFills = Some threeFillsCompressed
  /\ In dotsToken (colors threeFillsCompressed).
Proof.
  repeat split; try (vm_compute; reflexivity).
  - right. left. reflexivity.
  - right. left. reflexivity.
Qed.

(** C3, amended.  For every raw style collection and every fill style in
    it, if the token built for that style has the type "unknown" and no
    fallback (no fallbackHex, no fallbackCss), the token is absent from the
    compressed colors array. *)
Theorem unknown_paint_without_fallback_dropped
    (styles : JsVal) (compressed : StyleSet) (fill : list JsVal)
    (style paint : JsVal) :
  compressStylesForAI styles = Some compressed ->
  optProp (getProp styles "styles") "fill" = JArr fill ->
  In style fill ->
  fillToken style = Some paint ->
  getProp paint "type" = JStr "unknown" ->
  getProp paint "fallbackHex" = JUndef ->
  getProp paint "fallbackCss" = JUndef ->
  ~ In paint (colors compressed).
Proof.
  intros Hc Hfill _ _ Hty Hhex Hcss Hin.
  destruct (compress_inv _ _ Hc) as (Hcolors & _).
  rewrite Hfill in Hcolors. cbn [truthy] in Hcolors.
  destruct Hcolors as (fill' & paints & _ & _ & Heq).
  rewrite Heq in Hin. apply filter_In in Hin as [_ Hkeep].
  unfold keepPaint in Hkeep. rewrite Hty, Hhex, Hcss in Hkeep.
  discriminate Hkeep.
Qed.

Lemma unknown_paint_without_fallback_dropped_witness :
  compressStylesForAI threeFills = Some threeFillsCompressed
  /\ In ghostStyle [primaryBlue; dotsStyle; ghostStyle]
  /\ fillToken ghostStyle = Some ghostToken
  /\ ~ In ghostToken (colors threeFillsCompressed).
Proof.
  assert (Hc : compressStylesForAI threeFills = Some threeFillsCompressed)
    by (vm_compute; reflexivity).
  assert (Hin : In ghostStyle [primaryBlue; dotsStyle; ghostStyle])
    by (right; right; left; reflexivity).
  assert (Htok : fillToken ghostStyle = Some ghostToken)
    by (vm_compute; reflexivity).
  repeat split; try assumption.
  apply (unknown_paint_without_fallback_dropped threeFills threeFillsCompressed
           [primaryBlue; dotsStyle; ghostStyle] ghostStyle ghostToken);
    try assumption; vm_compute; reflexivity.
Defined.

(** The converse: a token of a fill style is kept as soon as its type is
    not "unknown" or it carries a fallback. *)
Lemma kept_paint_in_colors
    (styles : JsVal) (compressed : StyleSet) (fill : list JsVal)
    (style paint : JsVal) :
  compressStylesForAI styles = Some compressed ->
  optProp (getProp styles "styles") "fill" = JArr fill ->
  In style fill ->
  fillToken style = Some paint ->
  keepPaint paint = true ->
  In paint (colors compressed).
Proof.
  intros Hc Hfill Hin Htok Hkeep.
  destruct (compress_inv _ _ Hc) as (Hcolors & _).
  rewrite Hfill in Hcolors. cbn [truthy] in Hcolors.
  destruct Hcolors as (fill' & paints & [= <-] & Hall & ->).
  destruct (Forall2_In_l _ _ _ _ Hall Hin) as (paint' & Hin' & Htok').
  rewrite Htok in Htok'. injection Htok' as <-.
  apply filter_In. split; assumption.
Qed.

(* ================================================================== *)
(** ** Style normalizer: typography *)

Lemma textToken_field (style token : JsVal) (field : string) (dflt : JsVal) :
  textToken style = Some token ->
  In (field, dflt) typographyDefaults ->
  getProp token field = jsOr (optProp (getProp style "values") field) dflt
  /\ truthy dflt = true.
Proof.
  unfold textToken, readProp.
  destruct (nullish style); [discriminate |]. cbn [bind].
  intros [= <-] Hin. unfold typographyDefaults in Hin. cbn [In] in Hin.
  repeat (destruct Hin as [[= <- <-] | Hin]; [split; reflexivity |]).
  destruct Hin.
Qed.

Lemma textToken_name (style token : JsVal) :
  textToken style = Some token -> getProp token "name" = getProp style "name".
Proof.
  unfold textToken, readProp.
  destruct (nullish style); [discriminate |]. cbn [bind].
  now intros [= <-].
Qed.

Lemma truthy_not_null (v : JsVal) : truthy v = true -> v <> JNull /\ v <> JUndef.
Proof. destruct v; cbn [truthy]; intros H; split; congruence. Qed.

Lemma jsOr_truthy (a b : JsVal) : truthy b = true -> truthy (jsOr a b) = true.
Proof. unfold jsOr. destruct (truthy a) eqn:Ha; auto. Qed.

Lemma compress_typography (styles : JsVal) (compressed : StyleSet) (texts : list JsVal) :
  compressStylesForAI styles = Some compressed ->
  optProp (getProp styles "styles") "text" = JArr texts ->
  Forall2 (fun style token => textToken style = Some token)
    texts (typography compressed).
Proof.
  intros Hc Htext.
  destruct (compress_inv _ _ Hc) as (_ & Htypo & _).
  rewrite Htext in Htypo. cbn [truthy] in Htypo.
  destruct Htypo as (texts' & [= <-] & Hall). exact Hall.
Qed.

(** C8 as stated fails: a text style whose name is null gives a token
    whose name is null, so a field of a typography token can be null. *)
Lemma typography_name_can_be_null :
  compressStylesForAI oneUnnamedText = Some oneUnnamedTextCompressed
  /\ typography oneUnnamedTextCompressed = [unnamedToken]
  /\ textToken unnamedStyle = Some unnamedToken
  /\ getProp unnamedToken "name" = JNull.
Proof.
  repeat split; vm_compute; reflexivity.
Qed.

(** C8, amended.  Whenever the normalizer returns, the compressed
    typography array has exactly one token per raw text style, whatever the
    style carries; in each token fontSize, fontFamily, fontWeight,
    lineHeight and letterSpacing take the defaults 16, "system", "normal",
    "normal", "normal" when absent upstream, and none of these five is ever
    null (or undefined); the name is the style's own, null included. *)
Theorem typography_complete_and_defaulted (styles : JsVal) (compressed : StyleSet) :
  compressStylesForAI styles = Some compressed ->
  (truthy (optProp (getProp styles "styles") "text") = false ->
   typography compressed = [])
  /\ forall texts,
       optProp (getProp styles "styles") "text" = JArr texts ->
       List.length (typography compressed) = List.length texts
       /\ Forall2
            (fun style token =>
               getProp token "name" = getProp style "name"
               /\ forall field dflt,
                   In (field, dflt) typographyDefaults ->
                   (optProp (getProp style "values") field = JUndef ->
                    getProp token field = dflt)
                   /\ getProp token field <> JNull
                   /\ getProp token field <> JUndef)
            texts (typography compressed).
Proof.
  intros Hc. split.
  - intros Hfalsy.
    destruct (compress_inv _ _ Hc) as (_ & Htypo & _).
    now rewrite Hfalsy in Htypo.
  - intros texts Htext.
    pose proof (compress_typography _ _ _ Hc Htext) as Hall.
    split; [symmetry; eapply Forall2_length; exact Hall |].
    eapply Forall2_impl; [| exact Hall].
    intros style token Htok. split; [exact (textToken_name _ _ Htok) |].
    intros field dflt Hin.
    destruct (textToken_field _ _ _ _ Htok Hin) as [Hfield Hdflt].
    rewrite Hfield. split.
    + intros ->. reflexivity.
    + apply truthy_not_null, jsOr_truthy, Hdflt.
Qed.

Lemma typography_complete_and_defaulted_witness :
  compressStylesForAI oneText = Some oneTextCompressed
  /\ List.length (typography oneTextCompressed) = 1
  /\ getProp bodyToken "lineHeight" = JStr "normal"
  /\ getProp bodyToken "lineHeight" <> JNull.
Proof.
  assert (Hc : compressStylesForAI oneText = Some oneTextCompressed)
    by (vm_compute; reflexivity).
  destruct (typography_complete_and_defaulted oneText oneTextCompressed Hc)
    as [_ Hall].
  destruct (Hall [bodyStyle] eq_refl) as [Hlen Hfields].
  inversion Hfields as [| style token l l' [_ Hbody] _ Es Et]; subst.
  destruct (Hbody "lineHeight" (JStr "normal")) as (Habsent & Hnull & _).
  { right. right. right. left. reflexivity. }
  split; [exact Hc |].
  split; [exact Hlen |].
  split; [exact (Habsent eq_refl) | exact Hnull].
Defined.

(** C10.  Defaulting goes by falsiness, not absence: whenever the upstream
    value of fontSize, fontFamily, fontWeight, lineHeight or letterSpacing
    is falsy (0, the empty string, false, null as well as undefined) the
    token carries the default instead. *)
Theorem typography_defaults_on_falsy
    (styles : JsVal) (compressed : StyleSet) (texts : list JsVal) :
  compressStylesForAI styles = Some compressed ->
  optProp (getProp styles "styles") "text" = JArr texts ->
  Forall2
    (fun style token =>
       forall field dflt,
         In (field, dflt) typographyDefaults ->
         truthy (optProp (getProp style "values") field) = false ->
         getProp token field = dflt)
    texts (typography compressed).
Proof.
  intros Hc Htext.
  eapply Forall2_impl; [| exact (compress_typography _ _ _ Hc Htext)].
  intros style token Htok field dflt Hin Hfalsy.
  destruct (textToken_field _ _ _ _ Htok Hin) as [-> _].
  unfold jsOr. now rewrite Hfalsy.
Qed.

Lemma typography_defaults_on_falsy_witness :
  compressStylesForAI oneText = Some oneTextCompressed
  /\ optProp (getProp bodyStyle "values") "fontSize" = JNum 0
  /\ getProp bodyToken "fontSize" = JNum 16
  /\ optProp (getProp bodyStyle "values") "fontFamily" = JStr EmptyString
  /\ getProp bodyToken "fontFamily" = JStr "system".
Proof.
  assert (Hc : compressStylesForAI oneText = Some oneTextCompressed)
    by (vm_compute; reflexivity).
  pose proof (typography_defaults_on_falsy oneText oneTextCompressed
                [bodyStyle] Hc eq_refl) as Hall.
  inversion Hall as [| style token l l' Hbody _ Es Et]; subst.
  split; [exact Hc |].
  split; [reflexivity |].
  split.
  { apply (Hbody "fontSize" (JNum 16)); [left; reflexivity | reflexivity]. }
  split; [reflexivity |].
  apply (Hbody "fontFamily" (JStr "system"));
    [right; left; reflexivity | reflexivity].
Defined.

(* ================================================================== *)
(** ** Style normalizer: effects *)

Lemma filterEffects_In (token : JsVal) (found : list (option JsVal)) :
  In token (filterEffects found) ->
  In (Some token) found /\ keepEffect (Some token) = true.
Proof.
  induction found as [|[e|] found IH]; cbn [filterEffects]; [intros [] | |].
  - destruct (keepEffect (Some e)) eqn:Hk.
    + intros [-> | Hin].
      * split; [now left | exact Hk].
      * destruct (IH Hin) as [H1 H2]. split; [now right | exact H2].
    + intros Hin. destruct (IH Hin) as [H1 H2]. split; [now right | exact H2].
  - cbn [keepEffect]. intros Hin.
    destruct (IH Hin) as [H1 H2]. split; [now right | exact H2].
Qed.

Lemma filterEffects_length (found : list (option JsVal)) :
  List.length (filterEffects found) <= List.length found.
Proof.
  induction found as [|[e|] found IH]; cbn [filterEffects keepEffect List.length].
  - lia.
  - destruct (negb _); cbn [List.length]; lia.
  - lia.
Qed.

(** The name and the type of an effect come from the style and from the
    first effect; the later writes leave them alone. *)
Lemma effectFields_name_type (name effectData : JsVal) (base : Props) :
  effectFields name effectData = Some base ->
  lookup "name" base = name
  /\ lookup "type" base = jsOr (getProp effectData "type") (JStr "unknown").
Proof.
  unfold effectFields, readProp.
  destruct (nullish effectData); [discriminate |]. cbn [bind].
  intros [= <-].
  destruct (isStr "INNER_SHADOW" (getProp effectData "type")
            || isStr "DROP_SHADOW" (getProp effectData "type"));
    destruct (isStr "LAYER_BLUR" (getProp effectData "type")
              || isStr "BACKGROUND_BLUR" (getProp effectData "type"));
    destruct (isStr "NOISE" (getProp effectData "type"));
    destruct (isStr "TEXTURE" (getProp effectData "type"));
    repeat (rewrite lookup_setIfTruthy || rewrite lookup_setIfDefined);
    split; reflexivity.
Qed.

(** What the effect callback returns, by the shape of [values.effects]. *)
Lemma effectToken_cases (style : JsVal) (r : option JsVal) :
  effectToken style = Some r ->
  let list := optProp (getProp style "values") "effects" in
  ((truthy list = false \/ isArray list = false \/ list = JArr []) -> r = None)
  /\ (forall first rest,
        list = JArr (first :: rest) ->
        exists base,
          effectFields (getProp style "name") first = Some base
          /\ lookup "name" base = getProp style "name"
          /\ lookup "type" base = jsOr (getProp first "type") (JStr "unknown")
          /\ r = Some (JObj match rest with
                            | [] => base
                            | _ :: _ => setProp base "allEffects"
                                          (JArr (first :: rest))
                            end)).
Proof.
  intros H. cbv zeta.
  unfold effectToken, readProp in H.
  destruct (nullish style); [discriminate |]. cbn [bind] in H.
  set (list := optProp (getProp style "values") "effects") in *.
  split.
  - intros Hnone.
    assert (Hguard : negb (truthy list) || negb (isArray list)
                     || isNum 0 (getProp list "length") = true).
    { destruct Hnone as [-> | [-> | ->]]; cbn [negb orb]; try reflexivity.
      now rewrite orb_true_r. }
    rewrite Hguard in H. now injection H as <-.
  - intros first rest Hlist. rewrite Hlist in H.
    assert (Hguard : negb (truthy (JArr (first :: rest)))
                     || negb (isArray (JArr (first :: rest)))
                     || isNum 0 (getProp (JArr (first :: rest)) "length") = false).
    { cbn [truthy isArray negb orb].
      change (getProp (JArr (first :: rest)) "length")
        with (JNum (Z.of_nat (List.length (first :: rest)))).
      cbn [isNum List.length]. apply Z.eqb_neq. lia. }
    rewrite Hguard in H.
    change (getProp (JArr (first :: rest)) "0") with first in H.
    destruct (effectFields (getProp style "name") first) as [base|] eqn:Hbase;
      [cbn [bind] in H | discriminate].
    exists base.
    destruct (effectFields_name_type _ _ _ Hbase) as [Hname Htype].
    repeat split; try assumption.
    injection H as <-.
    change (getProp (JArr (first :: rest)) "length")
      with (JNum (Z.of_nat (List.length (first :: rest)))).
    destruct rest as [|second rest].
    + reflexivity.
    + assert (Hgt : jsGt (JNum (Z.of_nat (List.length (first :: second :: rest)))) 1
                    = true)
        by (cbn [jsGt List.length]; apply Z.ltb_lt; lia).
      match goal with
      | |- Some (JObj (if ?c then _ else _)) = _ =>
          change c with
            (jsGt (JNum (Z.of_nat (List.length (first :: second :: rest)))) 1)
      end.
      now rewrite Hgt.
Qed.

(** C9.  Each effect token is built from the first element of
    values.effects; a style whose effects are missing, not an array or
    empty gives no token; with more than one effect the whole list is kept
    under allEffects; tokens of type "unknown" are dropped; so the
    compressed effects array is never longer than the raw effect list. *)
Theorem effects_from_first_effect (styles : JsVal) (compressed : StyleSet) :
  compressStylesForAI styles = Some compressed ->
  (truthy (optProp (getProp styles "styles") "effect") = false ->
   effects compressed = [])
  /\ forall effs,
     optProp (getProp styles "styles") "effect" = JArr effs ->
     exists found : list (option JsVal),
       effects compressed = filterEffects found
       /\ Forall2
            (fun style r =>
               let list := optProp (getProp style "values") "effects" in
               effectToken style = Some r
               /\ ((truthy list = false \/ isArray list = false \/ list = JArr []) ->
                   r = None)
               /\ (forall first rest,
                     list = JArr (first :: rest) ->
                     exists base,
                       effectFields (getProp style "name") first = Some base
                       /\ lookup "name" base = getProp style "name"
                       /\ lookup "type" base
                          = jsOr (getProp first "type") (JStr "unknown")
                       /\ r = Some (JObj match rest with
                                         | [] => base
                                         | _ :: _ => setProp base "allEffects"
                                                       (JArr (first :: rest))
                                         end)))
            effs found
       /\ (forall token, In token (effects compressed) ->
                         getProp token "type" <> JStr "unknown")
       /\ List.length (effects compressed) <= List.length effs.
Proof.
  intros Hc.
  destruct (compress_inv _ _ Hc) as (_ & _ & Heffects & _).
  split; [intros Hfalsy; now rewrite Hfalsy in Heffects |].
  intros effs Heff.
  rewrite Heff in Heffects. cbn [truthy] in Heffects.
  destruct Heffects as (effs' & found & [= <-] & Hall & Heq).
  exists found. split; [exact Heq |]. split; [| split].
  - eapply Forall2_impl; [| exact Hall].
    intros style r Hr. cbv zeta.
    split; [exact Hr |]. exact (effectToken_cases style r Hr).
  - intros token Hin Hty. rewrite Heq in Hin.
    apply filterEffects_In in Hin as [_ Hkeep].
    cbn [keepEffect] in Hkeep. rewrite Hty in Hkeep. discriminate Hkeep.
  - rewrite Heq, (Forall2_length Hall). apply filterEffects_length.
Qed.

Lemma effects_from_first_effect_witness :
  compressStylesForAI threeEffects = Some threeEffectsCompressed
  /\ (forall token, In token (effects threeEffectsCompressed) ->
                    getProp token "type" <> JStr "unknown")
  /\ List.length (effects threeEffectsCompressed) <= 3.
Proof.
  assert (Hc : compressStylesForAI threeEffects = Some threeEffectsCompressed)
    by (vm_compute; reflexivity).
  destruct (effects_from_first_effect threeEffects threeEffectsCompressed Hc)
    as (_ & Harray).
  destruct (Harray [cardShadow; noEffects; untypedEffect] eq_refl)
    as (found & _ & _ & Htypes & Hlen).
  split; [exact Hc |]. split; [exact Htypes | exact Hlen].
Defined.

(* ================================================================== *)
(** ** Result combiner: the configuration-export pattern *)

Lemma append_assoc (a b c : string) : (a ++ b) ++ c = a ++ (b ++ c).
Proof. induction a as [|x a IH]; cbn; [reflexivity | now rewrite IH]. Qed.

Lemma stripPrefix_spec (p s r : string) :
  stripPrefix p s = Some r -> s = p ++ r.
Proof.
  revert s. induction p as [|a p IH]; intros s; cbn [stripPrefix].
  - now intros [= ->].
  - destruct s as [|b s]; [discriminate |].
    destruct (Ascii.eqb_spec a b) as [-> | _]; [| discriminate].
    intros H. cbn. f_equal. now apply IH.
Qed.

Lemma skipSpaces_spec (s : string) :
  exists ws, s = ws ++ skipSpaces s /\ allSpaces ws = true.
Proof.
  induction s as [|c s (ws & Hs & Hws)]; cbn [skipSpaces].
  - exists EmptyString. now split.
  - destruct (isWhiteSpace c) eqn:Hc.
    + exists (String c ws). cbn. rewrite Hc, Hws. split; [now f_equal | reflexivity].
    + exists EmptyString. now split.
Qed.

Lemma throughLastBrace_spec (s t : string) :
  throughLastBrace s = Some t ->
  exists body post,
    t = body ++ "}" /\ s = t ++ post /\ noBrace post = true.
Proof.
  revert t. induction s as [|c s IH]; intros t; cbn [throughLastBrace];
    [discriminate |].
  destruct (throughLastBrace s) as [t'|] eqn:Ht.
  - intros [= <-]. destruct (IH t' eq_refl) as (body & post & -> & -> & Hpost).
    exists (String c body), post. repeat split. exact Hpost.
  - destruct (Ascii.eqb_spec c "}"%char) as [-> | _]; [| discriminate].
    intros [= <-]. exists EmptyString, s. repeat split.
    clear IH. induction s as [|d s IHs]; [reflexivity |].
    cbn [throughLastBrace] in Ht.
    destruct (throughLastBrace s); [discriminate |].
    destruct (Ascii.eqb d "}") eqn:Hd; [discriminate |].
    cbn [noBrace]. rewrite Hd. now apply IHs.
Qed.

Lemma matchConfigAt_spec (s g : string) :
  matchConfigAt s = Some g ->
  exists ws1 ws2 body post,
    s = "module.exports" ++ ws1 ++ "=" ++ ws2 ++ g ++ post
    /\ g = "{" ++ body ++ "}"
    /\ allSpaces ws1 = true /\ allSpaces ws2 = true /\ noBrace post = true.
Proof.
  unfold matchConfigAt.
  destruct (stripPrefix "module.exports" s) as [r|] eqn:Hr; [| discriminate].
  apply stripPrefix_spec in Hr.
  destruct (skipSpaces_spec r) as (ws1 & Hr1 & Hws1).
  destruct (skipSpaces r) as [|c1 r'] eqn:Er; [discriminate |].
  destruct (Ascii.eqb_spec c1 "="%char) as [-> | Hne].
  2:{ destruct c1 as [[] [] [] [] [] [] [] []]; try discriminate.
      now contradiction Hne. }
  destruct (skipSpaces_spec r') as (ws2 & Hr2 & Hws2).
  destruct (skipSpaces r') as [|c2 r''] eqn:Er'; [discriminate |].
  destruct (Ascii.eqb_spec c2 "{"%char) as [-> | Hne].
  2:{ destruct c2 as [[] [] [] [] [] [] [] []]; try discriminate.
      now contradiction Hne. }
  destruct (throughLastBrace r'') as [t|] eqn:Ht; [| discriminate].
  intros [= <-].
  destruct (throughLastBrace_spec _ _ Ht) as (body & post & -> & Hr'' & Hpost).
  exists ws1, ws2, body, post. repeat split; try assumption.
  rewrite Hr, Hr1, Hr2, Hr''. reflexivity.
Qed.

(** A successful match is an occurrence of the pattern in the text: the
    marker, an equals sign between optional white space, and the captured
    braces reaching to the last closing brace. *)
Lemma matchConfig_spec (r g : string) :
  matchConfig r = Some g ->
  exists pre ws1 ws2 body post,
    r = pre ++ "module.exports" ++ ws1 ++ "=" ++ ws2 ++ g ++ post
    /\ g = "{" ++ body ++ "}"
    /\ allSpaces ws1 = true /\ allSpaces ws2 = true /\ noBrace post = true.
Proof.
  induction r as [|c r IH].
  - cbn. discriminate.
  - cbn [matchConfig].
    destruct (matchConfigAt (String c r)) as [g'|] eqn:Hat.
    + intros [= <-].
      destruct (matchConfigAt_spec _ _ Hat) as (ws1 & ws2 & body & post & H).
      exists EmptyString, ws1, ws2, body, post. exact H.
    + intros Hm.
      destruct (IH Hm) as (pre & ws1 & ws2 & body & post & -> & H).
      exists (String c pre), ws1, ws2, body, post. split; [reflexivity | exact H].
Qed.

(* ================================================================== *)
(** ** Result combiner: merging parsed objects *)




Lemma hasKey_app (k : string) (ps qs : Props) :
  hasKey k (ps ++ qs)%list = hasKey k ps || hasKey k qs.
Proof.
  induction ps as [|[k0 v0] ps IH]; cbn [app hasKey]; [reflexivity |].
  now rewrite IH, orb_assoc.
Qed.










Section CombineProperties.

Variable JSON_parse : string -> option JsVal.



(* ------------------------------------------------------------------ *)
(** *** A single result *)


(* ------------------------------------------------------------------ *)
(** *** tailwind *)

(** C7, amended.  For tailwind the combiner looks in each chunk for the
    object literal after [module.exports =]; the fragments, each being the
    extracted literal or, where extraction fails, the chunk's raw text, are
    joined and wrapped in one outer configuration object after the
    header. *)
Theorem tailwind_wraps_extracted_or_raw (results : list string) :
  combineChunkedResults JSON_parse results "tailwind"
  = header (List.length results)
    ++ wrapConfigs (List.length results) (map extractConfig results)
  /\ forall r,
       (matchConfig r = None -> extractConfig r = r)
       /\ (forall config,
             matchConfig r = Some config ->
             extractConfig r = config
             /\ exists pre ws1 ws2 body post,
                 r = pre ++ "module.exports" ++ ws1 ++ "=" ++ ws2
                     ++ config ++ post
                 /\ config = "{" ++ body ++ "}"
                 /\ allSpaces ws1 = true /\ allSpaces ws2 = true
                 /\ noBrace post = true).
Proof.
  split; [reflexivity |].
  intros r. unfold extractConfig. split.
  - now intros ->.
  - intros config Hm. rewrite Hm. split; [reflexivity |].
    now apply matchConfig_spec.
Qed.

(* ------------------------------------------------------------------ *)
(** *** json *)


End CombineProperties.



(** C7 as stated fails: when extraction fails for one chunk the output is
    still the wrapped configuration, with that chunk's raw text in it, and
    not the plain concatenation of the results. *)
Lemma tailwind_failed_extraction_is_not_concatenated :
  matchConfig exportingChunk = Some "{colors: {}}"
  /\ matchConfig plainChunk = None
  /\ combineChunkedResults sampleParse [exportingChunk; plainChunk] "tailwind"
     = header 2 ++ wrapConfigs 2 ["{colors: {}}"; plainChunk]
  /\ combineChunkedResults sampleParse [exportingChunk; plainChunk] "tailwind"
     <> header 2 ++ join lineSeparator [exportingChunk; plainChunk].
Proof.
  repeat split; try (vm_compute; reflexivity).
  vm_compute. discriminate.
Qed.

Lemma tailwind_wraps_extracted_or_raw_witness :
  matchConfig plainChunk = None
  /\ extractConfig plainChunk = plainChunk
  /\ matchConfig exportingChunk = Some "{colors: {}}"
  /\ extractConfig exportingChunk = "{colors: {}}".
Proof.
  destruct (tailwind_wraps_extracted_or_raw sampleParse []) as [_ Hall].
  assert (Hp : matchConfig plainChunk = None) by (vm_compute; reflexivity).
  assert (He : matchConfig exportingChunk = Some "{colors: {}}")
    by (vm_compute; reflexivity).
  split; [exact Hp |].
  split; [exact (proj1 (Hall plainChunk) Hp) |].
  split; [exact He |].
  exact (proj1 (proj2 (Hall exportingChunk) _ He)).
Defined.


(* ================================================================== *)
(** ** Chunk planner: further properties *)

Lemma join_app_length_le (sep : string) (l t : list string) :
  String.length (join sep l) <= String.length (join sep (l ++ t)%list).
Proof.
  induction l as [|p [|q l] IH].
  - cbn [join String.length]. lia.
  - destruct t as [|x t]; [cbn [app]; lia |].
    change (join sep ([p] ++ x :: t)%list) with (p ++ sep ++ join sep (x :: t)).
    cbn [join]. rewrite !length_append. lia.
  - change (join sep (p :: q :: l)) with (p ++ sep ++ join sep (q :: l)).
    change (join sep ((p :: q :: l) ++ t)%list)
      with (p ++ sep ++ join sep ((q :: l) ++ t)%list).
    rewrite !length_append. lia.
Qed.

Lemma stringifySet_shape (c : StyleSet) :
  stringifySet c
  = "{" ++ join "," (fieldTexts c ++ summaryTexts c)%list ++ "}".
Proof.
  unfold stringifySet, toJs, fieldTexts, summaryTexts.
  destruct (summary c); reflexivity.
Qed.

Lemma stringifySet_strip_le (c : StyleSet) :
  String.length (stringifySet (stripSummary c)) <= String.length (stringifySet c).
Proof.
  rewrite !stringifySet_shape.
  change (fieldTexts (stripSummary c)) with (fieldTexts c).
  change (summaryTexts (stripSummary c)) with (@nil string).
  rewrite app_nil_r, !length_append.
  pose proof (join_app_length_le "," (fieldTexts c) (summaryTexts c)).
  lia.
Qed.

(** A property of the planner's state that every item step keeps holds
    when the loops are done. *)
Lemma plan_loop_invariant (P : PlanState -> Prop) (maxTokens : Q)
    (compressed : StyleSet) (cats : list Category) (st : PlanState) :
  (forall cat st item, P st -> P (stepItem maxTokens cat st item)) ->
  P st ->
  P (fold_left (stepCategory maxTokens compressed) cats st).
Proof.
  intros Hstep. revert st.
  induction cats as [|cat cats IH]; intros st Hst; cbn [fold_left]; [exact Hst |].
  apply IH. unfold stepCategory.
  generalize (getCat cat compressed) as l. intros l. revert st Hst.
  induction l as [|item l IHl]; intros st Hst; cbn [fold_left]; [exact Hst |].
  apply IHl, Hstep, Hst.
Qed.

Lemma items_push_length (cat : Category) (item : JsVal) (c : StyleSet) :
  List.length (items (push cat item c)) = S (List.length (items c)).
Proof.
  unfold items, push. destruct cat; cbn [getCat setCat colors typography effects spacing];
    rewrite ?length_app; cbn [List.length]; lia.
Qed.

Lemma items_single (cat : Category) (item : JsVal) :
  items (setCat cat [item] emptyChunk) = [item].
Proof. destruct cat; reflexivity. Qed.

Lemma summary_push (cat : Category) (item : JsVal) (c : StyleSet) :
  summary (push cat item c) = summary c.
Proof. destruct cat; reflexivity. Qed.

Lemma stripSummary_id (c : StyleSet) : summary c = None -> stripSummary c = c.
Proof. destruct c as [? ? ? ? s]. cbn. now intros ->. Qed.

(* ------------------------------------------------------------------ *)
(** *** Budget *)

(** X1.  Every produced chunk either passed the size check (its token
    estimate, taken without the summary that is attached afterwards, is not
    above the budget) or holds at most one item. *)
Theorem chunks_fit_or_single (compressed : StyleSet) (maxTokens : Q)
    (chunk : StyleSet) :
  In chunk (planChunks compressed maxTokens) ->
  exceeds (chunkTokens (stripSummary chunk)) maxTokens = false
  \/ List.length (items chunk) <= 1.
Proof.
  change (In chunk (planChunks compressed maxTokens) ->
          fitsOrSingle maxTokens chunk).
  unfold planChunks.
  destruct (negb (shouldChunkStyles compressed maxTokens)) eqn:Hsmall.
  - intros [<- | []]. left.
    apply negb_true_iff in Hsmall. unfold shouldChunkStyles in Hsmall.
    destruct (exceeds (chunkTokens (stripSummary compressed)) maxTokens) eqn:Hex;
      [| reflexivity].
    rewrite <- Hsmall. symmetry. eapply exceeds_mono; [| exact Hex].
    apply countTokens_mono, stringifySet_strip_le.
  - pose proof (plan_loop_invariant
        (fun st => Forall (fitsOrSingle maxTokens) (chunks st)
                   /\ fitsOrSingle maxTokens (currentChunk st)
                   /\ summary (currentChunk st) = None)
        maxTokens compressed categories (mkPlanState [] emptyChunk)) as Hinv.
    cbv beta in Hinv.
    destruct Hinv as (Hch & Hcur & _).
    + intros cat st item (Hch & Hcur & Hsum). unfold stepItem.
      destruct (exceeds _ _) eqn:Hex; cbn [chunks currentChunk].
      * rewrite pop_push. repeat split.
        -- apply Forall_app. split; [exact Hch |].
           constructor; [| constructor]. exact Hcur.
        -- right. rewrite items_single. cbn. lia.
        -- destruct cat; reflexivity.
      * repeat split; [exact Hch | | now rewrite summary_push].
        left. rewrite stripSummary_id by now rewrite summary_push.
        exact Hex.
    + repeat split; [constructor | right; cbn; lia].
    + set (st := fold_left _ categories _) in *.
      rewrite Forall_forall in Hch.
      destruct (someNonEmpty (currentChunk st)).
      * rewrite in_app_iff. intros [Hin | [<- | []]]; [now apply Hch | exact Hcur].
      * apply Hch.
Qed.

Lemma chunks_fit_or_single_witness :
  In oneFillCompressed (planChunks oneFillCompressed (inject_Z 60))
  /\ (exceeds (chunkTokens (stripSummary oneFillCompressed)) (inject_Z 60) = false
      \/ List.length (items oneFillCompressed) <= 1).
Proof.
  assert (Hin : In oneFillCompressed (planChunks oneFillCompressed (inject_Z 60)))
    by (vm_compute; left; reflexivity).
  split; [exact Hin |].
  exact (chunks_fit_or_single oneFillCompressed (inject_Z 60) oneFillCompressed Hin).
Defined.

(* ------------------------------------------------------------------ *)
(** *** Empty chunks *)

Lemma items_push_nonempty (cat : Category) (item : JsVal) (c : StyleSet) :
  items (push cat item c) <> [].
Proof.
  intros H. pose proof (items_push_length cat item c) as Hl.
  rewrite H in Hl. discriminate.
Qed.

(** X2.  Only the first chunk of a plan can be empty: every chunk after the
    first holds at least one item. *)
Theorem only_first_chunk_can_be_empty (compressed : StyleSet) (maxTokens : Q)
    (chunk : StyleSet) :
  In chunk (tl (planChunks compressed maxTokens)) -> items chunk <> [].
Proof.
  unfold planChunks.
  destruct (negb (shouldChunkStyles compressed maxTokens)); [intros [] |].
  pose proof (plan_loop_invariant
      (fun st => (forall c, In c (tl (chunks st)) -> items c <> [])
                 /\ (chunks st = [] \/ items (currentChunk st) <> []))
      maxTokens compressed categories (mkPlanState [] emptyChunk)) as Hinv.
  cbv beta in Hinv.
  destruct Hinv as (Htl & Hcur).
  - intros cat st item (Htl & Hcur). unfold stepItem.
    destruct (exceeds _ _); cbn [chunks currentChunk].
    + rewrite pop_push. split.
      * intros c Hc. destruct (chunks st) as [|c0 rest] eqn:Hst; [destruct Hc |].
        cbn [app tl] in Hc. apply in_app_iff in Hc as [Hc | [<- | []]].
        -- now apply Htl.
        -- destruct Hcur as [Hnil | Hne]; [discriminate | exact Hne].
      * right. rewrite items_single. discriminate.
    + split; [exact Htl |]. right. apply items_push_nonempty.
  - split; [intros c [] | now left].
  - set (st := fold_left _ categories _) in *.
    destruct (someNonEmpty (currentChunk st)) eqn:Hne; [| exact (Htl chunk)].
    intros Hc. destruct (chunks st) as [|c0 rest] eqn:Hst; [destruct Hc |].
    cbn [app tl] in Hc. apply in_app_iff in Hc as [Hc | [<- | []]].
    + now apply Htl.
    + destruct Hcur as [Hnil | Hcur]; [discriminate | exact Hcur].
Qed.

Lemma only_first_chunk_can_be_empty_witness :
  In (mkStyleSet [primaryBlueToken] [] [] []
        (Some (mkSummary 1 0 0 0 None (Some 2))))
     (tl (planChunks oneFillCompressed (inject_Z 15)))
  /\ items (mkStyleSet [primaryBlueToken] [] [] []
              (Some (mkSummary 1 0 0 0 None (Some 2)))) <> [].
Proof.
  assert (Hin : In (mkStyleSet [primaryBlueToken] [] [] []
                      (Some (mkSummary 1 0 0 0 None (Some 2))))
                   (tl (planChunks oneFillCompressed (inject_Z 15))))
    by (vm_compute; left; reflexivity).
  split; [exact Hin |].
  exact (only_first_chunk_can_be_empty _ _ _ Hin).
Defined.

(* ------------------------------------------------------------------ *)
(** *** Numbering and summaries *)

Lemma numberedFrom_snoc (n : nat) (l : list StyleSet) (c : StyleSet) :
  numberedFrom n l ->
  summary c = Some (chunkSummary c (n + List.length l)) ->
  numberedFrom n (l ++ [c])%list.
Proof.
  revert n. induction l as [|c0 l IH]; intros n Hl Hc; cbn [app numberedFrom].
  - rewrite Nat.add_0_r in Hc. now split.
  - destruct Hl as [H0 Hl]. split; [exact H0 |].
    apply IH; [exact Hl |]. cbn [List.length] in Hc.
    now rewrite Nat.add_succ_comm.
Qed.

Lemma planChunks_numbered (compressed : StyleSet) (maxTokens : Q) :
  shouldChunkStyles compressed maxTokens = true ->
  numberedFrom 1 (planChunks compressed maxTokens).
Proof.
  intros Hsplit. unfold planChunks. rewrite Hsplit. cbn [negb].
  pose proof (plan_loop_invariant
      (fun st => numberedFrom 1 (chunks st))
      maxTokens compressed categories (mkPlanState [] emptyChunk)) as Hinv.
  cbv beta in Hinv.
  assert (Hnum : numberedFrom 1
                   (chunks (fold_left (stepCategory maxTokens compressed)
                              categories (mkPlanState [] emptyChunk)))).
  { apply Hinv; [| exact I].
    intros cat st item Hst. unfold stepItem.
    destruct (exceeds _ _); cbn [chunks currentChunk]; [| exact Hst].
    apply numberedFrom_snoc; [exact Hst |].
    rewrite Nat.add_comm. reflexivity. }
  set (st := fold_left _ categories _) in *.
  destruct (someNonEmpty (currentChunk st)); [| exact Hnum].
  apply numberedFrom_snoc; [exact Hnum |].
  rewrite Nat.add_comm. reflexivity.
Qed.

(** X3.  When the planner splits, the chunks are numbered 1, 2, 3, ... in
    the order produced, and each chunk's summary counts exactly the items of
    its four arrays (and has no originalFileSize). *)
Theorem split_chunks_numbered_in_order (compressed : StyleSet) (maxTokens : Q) :
  shouldChunkStyles compressed maxTokens = true ->
  numberedFrom 1 (planChunks compressed maxTokens).
Proof. exact (planChunks_numbered compressed maxTokens). Qed.

Lemma split_chunks_numbered_in_order_witness :
  shouldChunkStyles oneFillCompressed (inject_Z 15) = true
  /\ numberedFrom 1 (planChunks oneFillCompressed (inject_Z 15)).
Proof.
  assert (H : shouldChunkStyles oneFillCompressed (inject_Z 15) = true)
    by (vm_compute; reflexivity).
  split; [exact H |].
  exact (split_chunks_numbered_in_order oneFillCompressed (inject_Z 15) H).
Defined.

(* ------------------------------------------------------------------ *)
(** *** How many chunks *)

Lemma stepItem_chunks_length (maxTokens : Q) (cat : Category)
    (st : PlanState) (item : JsVal) :
  List.length (chunks (stepItem maxTokens cat st item))
  <= S (List.length (chunks st)).
Proof.
  unfold stepItem. destruct (exceeds _ _); cbn [chunks].
  - rewrite length_app. cbn [List.length]. lia.
  - lia.
Qed.

Lemma fold_stepItem_chunks_length (maxTokens : Q) (cat : Category)
    (l : list JsVal) (st : PlanState) :
  List.length (chunks (fold_left (stepItem maxTokens cat) l st))
  <= List.length (chunks st) + List.length l.
Proof.
  revert st. induction l as [|item l IH]; intros st; cbn [fold_left List.length].
  - lia.
  - specialize (IH (stepItem maxTokens cat st item)).
    pose proof (stepItem_chunks_length maxTokens cat st item). lia.
Qed.

(** X4.  A plan never has more chunks than the set has items, plus one. *)
Theorem chunk_count_bounded (compressed : StyleSet) (maxTokens : Q) :
  List.length (planChunks compressed maxTokens)
  <= List.length (items compressed) + 1.
Proof.
  unfold planChunks.
  destruct (negb (shouldChunkStyles compressed maxTokens));
    [cbn [List.length]; lia |].
  assert (Hloop : List.length
                    (chunks (fold_left (stepCategory maxTokens compressed)
                               categories (mkPlanState [] emptyChunk)))
                  <= List.length (items compressed)).
  { unfold categories, stepCategory. cbn [fold_left].
    set (st0 := mkPlanState [] emptyChunk).
    set (st1 := fold_left (stepItem maxTokens Colors) _ st0).
    set (st2 := fold_left (stepItem maxTokens Typography) _ st1).
    set (st3 := fold_left (stepItem maxTokens Effects) _ st2).
    pose proof (fold_stepItem_chunks_length maxTokens Colors
                  (getCat Colors compressed) st0) as H1.
    pose proof (fold_stepItem_chunks_length maxTokens Typography
                  (getCat Typography compressed) st1) as H2.
    pose proof (fold_stepItem_chunks_length maxTokens Effects
                  (getCat Effects compressed) st2) as H3.
    pose proof (fold_stepItem_chunks_length maxTokens Spacing
                  (getCat Spacing compressed) st3) as H4.
    fold st1 in H1. fold st2 in H2. fold st3 in H3.
    unfold items. rewrite !length_app.
    cbn [getCat] in *. subst st0. cbn [chunks List.length] in H1. lia. }
  set (st := fold_left _ categories _) in *.
  destruct (someNonEmpty (currentChunk st)).
  - rewrite length_app. cbn [List.length]. lia.
  - lia.
Qed.

(* ------------------------------------------------------------------ *)
(** *** Chunks are consecutive runs *)

Lemma push_tailEmpty (cat : Category) (item : JsVal) (c : StyleSet) :
  tailEmpty cat c ->
  items (push cat item c) = (items c ++ [item])%list
  /\ tailEmpty cat (push cat item c).
Proof.
  unfold items, push.
  destruct cat; cbn [tailEmpty getCat setCat colors typography effects spacing].
  - intros (-> & -> & ->). now rewrite !app_nil_r.
  - intros (-> & ->). rewrite !app_nil_r. split; [| now split].
    now rewrite <- app_assoc.
  - intros ->. rewrite !app_nil_r. split; [| reflexivity].
    now rewrite <- !app_assoc.
  - intros _. split; [| exact I]. now rewrite <- !app_assoc.
Qed.

Lemma single_tailEmpty (cat : Category) (item : JsVal) :
  tailEmpty cat (setCat cat [item] emptyChunk).
Proof. destruct cat; cbn; auto. Qed.

Lemma fold_stepItem_run (maxTokens : Q) (cat : Category) (l : list JsVal)
    (st : PlanState) (seq : list JsVal) :
  (concat (map items (chunks st)) ++ items (currentChunk st))%list = seq ->
  tailEmpty cat (currentChunk st) ->
  let st' := fold_left (stepItem maxTokens cat) l st in
  (concat (map items (chunks st')) ++ items (currentChunk st'))%list
  = (seq ++ l)%list
  /\ tailEmpty cat (currentChunk st').
Proof.
  revert st seq. induction l as [|item l IH]; intros st seq Hseq Htail;
    cbn [fold_left].
  - cbv zeta. now rewrite app_nil_r.
  - replace (seq ++ item :: l)%list with ((seq ++ [item]) ++ l)%list
      by now rewrite <- app_assoc.
    apply IH.
    + unfold stepItem. destruct (exceeds _ _); cbn [chunks currentChunk].
      * rewrite pop_push, map_app, concat_app. cbn [map concat].
        rewrite items_single, app_nil_r.
        change (items (withSummary (currentChunk st)
                         (List.length (chunks st) + 1)))
          with (items (currentChunk st)).
        now rewrite Hseq.
      * rewrite (proj1 (push_tailEmpty cat item _ Htail)), app_assoc.
        now rewrite Hseq.
    + unfold stepItem. destruct (exceeds _ _); cbn [currentChunk].
      * apply single_tailEmpty.
      * exact (proj2 (push_tailEmpty cat item _ Htail)).
Qed.

Lemma planChunks_items (compressed : StyleSet) (maxTokens : Q) :
  concat (map items (planChunks compressed maxTokens)) = items compressed.
Proof.
  unfold planChunks.
  destruct (negb (shouldChunkStyles compressed maxTokens)).
  - cbn [map concat]. apply app_nil_r.
  - unfold categories, stepCategory. cbn [fold_left].
    set (st0 := mkPlanState [] emptyChunk).
    destruct (fold_stepItem_run maxTokens Colors (getCat Colors compressed)
                st0 [] eq_refl) as [H1 T1]; [cbn; auto |].
    set (st1 := fold_left (stepItem maxTokens Colors) _ st0) in *.
    destruct (fold_stepItem_run maxTokens Typography
                (getCat Typography compressed) st1 _ H1) as [H2 T2];
      [exact (proj2 T1) |].
    set (st2 := fold_left (stepItem maxTokens Typography) _ st1) in *.
    destruct (fold_stepItem_run maxTokens Effects
                (getCat Effects compressed) st2 _ H2) as [H3 T3];
      [exact (proj2 T2) |].
    set (st3 := fold_left (stepItem maxTokens Effects) _ st2) in *.
    destruct (fold_stepItem_run maxTokens Spacing
                (getCat Spacing compressed) st3 _ H3) as [H4 _];
      [exact I |].
    set (st4 := fold_left (stepItem maxTokens Spacing) _ st3) in *.
    assert (Hall : (concat (map items (chunks st4)) ++ items (currentChunk st4))%list
                   = items compressed).
    { rewrite H4. unfold items. cbn [getCat app].
      now rewrite <- !app_assoc. }
    destruct (someNonEmpty (currentChunk st4)) eqn:Hne.
    + rewrite map_app, concat_app. cbn [map concat]. rewrite app_nil_r.
      exact Hall.
    + assert (Hnil : items (currentChunk st4) = []).
      { pose proof (someNonEmpty_false _ Colors Hne) as E1.
        pose proof (someNonEmpty_false _ Typography Hne) as E2.
        pose proof (someNonEmpty_false _ Effects Hne) as E3.
        pose proof (someNonEmpty_false _ Spacing Hne) as E4.
        cbn [getCat] in E1, E2, E3, E4.
        unfold items. now rewrite E1, E2, E3, E4. }
      now rewrite Hnil, app_nil_r in Hall.
Qed.

(** X5.  The chunks are consecutive runs of one sequence: all chunks' items
    (colors, typography, effects, spacing of each chunk, chunk after chunk)
    are the colors, then the typography, then the effects, then the spacing
    of the input.  No chunk holds an item of an earlier category than a
    chunk before it. *)
Theorem chunks_are_consecutive_runs (compressed : StyleSet) (maxTokens : Q) :
  concat (map items (planChunks compressed maxTokens))
  = (colors compressed ++ typography compressed
     ++ effects compressed ++ spacing compressed)%list.
Proof. exact (planChunks_items compressed maxTokens). Qed.

Lemma planChunks_nil_iff (compressed : StyleSet) (maxTokens : Q) :
  planChunks compressed maxTokens = []
  <-> shouldChunkStyles compressed maxTokens = true /\ items compressed = [].
Proof.
  split.
  - intros Hnil. split.
    + unfold planChunks in Hnil.
      destruct (shouldChunkStyles compressed maxTokens);
        [reflexivity | discriminate].
    + rewrite <- (planChunks_items compressed maxTokens), Hnil. reflexivity.
  - intros [Hsplit Hitems]. unfold planChunks. rewrite Hsplit. cbn [negb].
    unfold items in Hitems.
    apply app_eq_nil in Hitems as [Hc Hitems].
    apply app_eq_nil in Hitems as [Ht Hitems].
    apply app_eq_nil in Hitems as [He Hs].
    unfold categories, stepCategory. cbn [fold_left getCat].
    rewrite Hc, Ht, He, Hs. reflexivity.
Qed.

(** X6.  The planner returns no chunk at all exactly when it decides to
    split a set that has no items (the summary alone puts the set over the
    budget). *)
Theorem empty_plan_iff (compressed : StyleSet) (maxTokens : Q) :
  planChunks compressed maxTokens = []
  <-> shouldChunkStyles compressed maxTokens = true /\ items compressed = [].
Proof. exact (planChunks_nil_iff compressed maxTokens). Qed.

Lemma empty_plan_iff_witness :
  shouldChunkStyles noItemsCompressed (inject_Z 10) = true
  /\ items noItemsCompressed = []
  /\ compressStylesForAI (JNum 1) = Some noItemsCompressed
  /\ planChunks noItemsCompressed (inject_Z 10) = [].
Proof.
  assert (H1 : shouldChunkStyles noItemsCompressed (inject_Z 10) = true)
    by (vm_compute; reflexivity).
  split; [exact H1 |]. split; [reflexivity |].
  split; [vm_compute; reflexivity |].
  exact (proj2 (empty_plan_iff noItemsCompressed (inject_Z 10))
           (conj H1 eq_refl)).
Defined.

(* ================================================================== *)
(** ** Style normalizer: when it throws *)

Lemma fillToken_None_iff (style : JsVal) :
  fillToken style = None <-> fillOk style = false.
Proof.
  unfold fillToken, fillOk, readProp.
  destruct (nullish style); cbn [bind negb andb]; [tauto |].
  destruct (optProp (getProp style "values") "type");
    cbn [startsWithGradient typeOk bind]; split; intros H;
    try reflexivity; try discriminate H.
Qed.

Lemma textToken_None_iff (style : JsVal) :
  textToken style = None <-> textOk style = false.
Proof.
  unfold textToken, textOk, readProp.
  destruct (nullish style); cbn [bind negb]; split; intros H;
    try reflexivity; discriminate H.
Qed.

Lemma effectFields_None_iff (name effectData : JsVal) :
  effectFields name effectData = None <-> nullish effectData = true.
Proof.
  unfold effectFields, readProp.
  destruct (nullish effectData); cbn [bind]; split; intros H;
    try reflexivity; discriminate H.
Qed.

Lemma effectToken_None_iff (style : JsVal) :
  effectToken style = None <-> effectOk style = false.
Proof.
  unfold effectToken, effectOk, readProp.
  destruct (nullish style); cbn [bind negb andb]; [tauto |].
  cbv zeta.
  set (effects := optProp (getProp style "values") "effects").
  destruct (negb (truthy effects) || negb (isArray effects)
            || isNum 0 (getProp effects "length")); cbn [orb].
  - split; intros H; discriminate H.
  - pose proof (effectFields_None_iff (getProp style "name")
                  (getProp effects "0")) as Hf.
    destruct (effectFields (getProp style "name") (getProp effects "0"));
      cbn [bind].
    + split; [discriminate |]. intros H. apply negb_false_iff in H.
      apply Hf in H. discriminate H.
    + split; [| reflexivity]. intros _. apply negb_false_iff.
      now apply Hf.
Qed.

Lemma gridToken_None_iff (style : JsVal) :
  gridToken style = None <-> gridOk style = false.
Proof.
  unfold gridToken, gridOk, readProp.
  destruct (nullish style); cbn [bind negb andb]; [tauto |].
  cbv zeta.
  set (grids := optProp (getProp style "values") "grids").
  destruct (truthy grids && jsGt (getProp grids "length") 0); cbn [negb orb].
  - destruct (nullish (getProp grids "0")); cbn [bind negb]; split; intros H;
      try reflexivity; discriminate H.
  - split; intros H; discriminate H.
Qed.

Lemma mapM_None_iff {A B : Type} (f : A -> option B) (ok : A -> bool)
    (l : list A) :
  (forall x, f x = None <-> ok x = false) ->
  (mapM f l = None <-> forallb ok l = false).
Proof.
  intros Hf. induction l as [|x l IH]; cbn [mapM forallb].
  - split; discriminate.
  - specialize (Hf x).
    destruct (f x) as [y|]; destruct (ok x); cbn [bind andb].
    + destruct (mapM f l); cbn [bind]; split; intros H.
      * discriminate H.
      * apply IH in H. discriminate H.
      * now apply IH.
      * reflexivity.
    + assert (Hc : Some y = None) by now apply Hf. discriminate Hc.
    + assert (Hc : true = false) by now apply Hf. discriminate Hc.
    + tauto.
Qed.

Lemma arraySection_None_iff {B : Type} (f : JsVal -> option B)
    (ok : JsVal -> bool) (post : list B -> list JsVal) (v : JsVal) :
  (forall x, f x = None <-> ok x = false) ->
  ((if truthy v then xs <- arrayMap f v ;; Some (post xs) else Some []) = None
   <-> arrayOk ok v = false).
Proof.
  intros Hf. unfold arrayOk.
  destruct (truthy v); [| split; discriminate].
  destruct v; cbn [arrayMap bind]; try tauto.
  pose proof (mapM_None_iff f ok elems Hf) as Hm.
  destruct (mapM f elems); cbn [bind].
  - split; [discriminate |]. intros H. apply Hm in H. discriminate H.
  - split; [| reflexivity]. intros _. now apply Hm.
Qed.

(** X7.  On raw collections whose grid lengths are plain operands of the
    comparison (numbers, as the length of every array and string is),
    compressStylesForAI throws exactly when the collection is not well
    shaped: the collection itself is null or undefined, its styles member
    is an array (whose fill is the method arrays inherit), one of
    styles.fill, text, effect, grid is truthy without being an array, an
    entry of one of them is null or undefined, a fill's values.type is
    neither a string nor null/undefined, or the first element of a
    non-empty effects or grids list is null or undefined. *)
Theorem compress_throws_iff (styles : JsVal) :
  plainLengths styles = true ->
  (compressStylesForAI styles = None <-> shapeOk styles = false).
Proof.
  intros _.
  unfold compressStylesForAI, shapeOk, readProp.
  destruct (nullish styles) eqn:Hn; cbn [bind negb andb]; [tauto |].
  set (ss := getProp styles "styles").
  destruct (isArray ss); cbn [bind negb andb]; [tauto |].
  pose proof (arraySection_None_iff fillToken fillOk (filter keepPaint)
                (optProp ss "fill") fillToken_None_iff) as Hfill.
  pose proof (arraySection_None_iff textToken textOk (fun l => l)
                (optProp ss "text") textToken_None_iff) as Htext.
  pose proof (arraySection_None_iff effectToken effectOk filterEffects
                (optProp ss "effect") effectToken_None_iff) as Heff.
  pose proof (arraySection_None_iff gridToken gridOk (filter keepGrid)
                (optProp ss "grid") gridToken_None_iff) as Hgrid.
  cbv zeta.
  assert (Htext' :
            (if truthy (optProp ss "text")
             then arrayMap textToken (optProp ss "text") else Some []) = None
            <-> arrayOk textOk (optProp ss "text") = false).
  { rewrite <- Htext. destruct (truthy (optProp ss "text")); [| tauto].
    destruct (arrayMap textToken (optProp ss "text")); cbn [bind]; tauto. }
  clear Htext.
  assert (Hstr : exists text, JSON_stringify styles = Some text).
  { destruct styles; try discriminate Hn; eexists; reflexivity. }
  destruct Hstr as [text ->].
  destruct (if truthy (optProp ss "fill") then _ else _) as [cs|];
    cbn [bind];
    [destruct (arrayOk fillOk (optProp ss "fill"));
       [| exfalso; assert (Hc : Some cs = None) by (now apply Hfill);
          discriminate Hc]
    | split; [intros _ | reflexivity];
      rewrite (proj1 Hfill eq_refl); reflexivity].
  destruct (if truthy (optProp ss "text") then _ else _) as [ts|];
    cbn [bind andb];
    [destruct (arrayOk textOk (optProp ss "text"));
       [| exfalso; assert (Hc : Some ts = None) by (now apply Htext');
          discriminate Hc]
    | split; [intros _ | reflexivity];
      rewrite (proj1 Htext' eq_refl); reflexivity].
  destruct (if truthy (optProp ss "effect") then _ else _) as [es|];
    cbn [bind andb];
    [destruct (arrayOk effectOk (optProp ss "effect"));
       [| exfalso; assert (Hc : Some es = None) by (now apply Heff);
          discriminate Hc]
    | split; [intros _ | reflexivity];
      rewrite (proj1 Heff eq_refl); reflexivity].
  destruct (if truthy (optProp ss "grid") then _ else _) as [gs|];
    cbn [bind andb];
    [destruct (arrayOk gridOk (optProp ss "grid"));
       [| exfalso; assert (Hc : Some gs = None) by (now apply Hgrid);
          discriminate Hc]
    | split; [intros _ | reflexivity];
      rewrite (proj1 Hgrid eq_refl); reflexivity].
  split; intros H; discriminate H.
Qed.

Lemma compress_throws_iff_witness :
  plainLengths nullFill = true
  /\ shapeOk nullFill = false /\ compressStylesForAI nullFill = None
  /\ plainLengths arrayStyles = true
  /\ shapeOk arrayStyles = false /\ compressStylesForAI arrayStyles = None.
Proof.
  assert (Hp : plainLengths nullFill = true) by reflexivity.
  assert (H : shapeOk nullFill = false) by (vm_compute; reflexivity).
  assert (Hp' : plainLengths arrayStyles = true) by reflexivity.
  assert (H' : shapeOk arrayStyles = false) by reflexivity.
  split; [exact Hp |]. split; [exact H |].
  split; [exact (proj2 (compress_throws_iff nullFill Hp) H) |].
  split; [exact Hp' |]. split; [exact H' |].
  exact (proj2 (compress_throws_iff arrayStyles Hp') H').
Defined.

(* ================================================================== *)
(** ** Style normalizer: spacing *)

Ltac read_chain :=
  repeat (rewrite lookup_setIfTruthy || rewrite lookup_setIfDefined
          || rewrite lookup_setProp).

(** What a grid token holds. *)
Lemma gridToken_fields (style grid : JsVal) :
  gridToken style = Some grid ->
  getProp grid "name" = getProp style "name"
  /\ getProp grid "type" = JStr "grid"
  /\ (keepGrid grid = true ->
      let grids := optProp (getProp style "values") "grids" in
      truthy grids = true
      /\ jsGt (getProp grids "length") 0 = true
      /\ (truthy (getProp grid "pattern") = true ->
          getProp grid "pattern" = getProp (getProp grids "0") "pattern")
      /\ (getProp grid "sectionSize" <> JUndef ->
          getProp grid "sectionSize" = getProp (getProp grids "0") "sectionSize")).
Proof.
  unfold gridToken, readProp, keepGrid.
  destruct (nullish style); [discriminate |]. cbn [bind]. cbv zeta.
  set (grids := optProp (getProp style "values") "grids").
  destruct (truthy grids && jsGt (getProp grids "length") 0) eqn:Hg.
  - destruct (nullish (getProp grids "0")); [discriminate |]. cbn [bind].
    intros [= <-]. cbn [getProp]. read_chain.
    split; [reflexivity |]. split; [reflexivity |].
    apply andb_true_iff in Hg as [Hg1 Hg2].
    intros _. split; [exact Hg1 |]. split; [exact Hg2 |].
    cbn [String.eqb Ascii.eqb Bool.eqb andb lookup].
    split.
    + destruct (truthy (getProp (getProp grids "0") "pattern"));
        [reflexivity | discriminate].
    + destruct (defined (getProp (getProp grids "0") "sectionSize"));
        [reflexivity | intros H; now contradiction H].
  - intros [= <-]. cbn [getProp lookup String.eqb Ascii.eqb Bool.eqb].
    split; [reflexivity |]. split; [reflexivity |].
    cbn [truthy defined orb]. discriminate.
Qed.

(** X8.  Every spacing token comes from a grid style that has at least one
    grid: it has that style's name, the type "grid", and a truthy pattern
    or a defined sectionSize taken from the first grid; a style without
    grids gives no token, so spacing is never longer than the raw grid
    list. *)
Theorem spacing_from_first_grid (styles : JsVal) (compressed : StyleSet)
    (grids : list JsVal) :
  compressStylesForAI styles = Some compressed ->
  optProp (getProp styles "styles") "grid" = JArr grids ->
  List.length (spacing compressed) <= List.length grids
  /\ forall token,
       In token (spacing compressed) ->
       exists style,
         In style grids
         /\ gridToken style = Some token
         /\ getProp token "name" = getProp style "name"
         /\ getProp token "type" = JStr "grid"
         /\ (truthy (getProp token "pattern") = true
             \/ getProp token "sectionSize" <> JUndef)
         /\ truthy (optProp (getProp style "values") "grids") = true
         /\ jsGt (getProp (optProp (getProp style "values") "grids") "length") 0
            = true
         /\ (truthy (getProp token "pattern") = true ->
             getProp token "pattern"
             = getProp (getProp (optProp (getProp style "values") "grids") "0")
                 "pattern")
         /\ (getProp token "sectionSize" <> JUndef ->
             getProp token "sectionSize"
             = getProp (getProp (optProp (getProp style "values") "grids") "0")
                 "sectionSize").
Proof.
  intros Hc Hgrid.
  destruct (compress_inv _ _ Hc) as (_ & _ & _ & Hsp).
  rewrite Hgrid in Hsp. cbn [truthy] in Hsp.
  destruct Hsp as (grids' & found & [= <-] & Hall & Heq).
  split.
  - rewrite Heq, (Forall2_length Hall). apply filter_length_le.
  - intros token Hin. rewrite Heq in Hin.
    apply filter_In in Hin as [Hin Hkeep].
    assert (Hsrc : exists style, In style grids /\ gridToken style = Some token).
    { clear -Hall Hin. induction Hall as [|x y l l' Hxy _ IH];
        [destruct Hin |].
      destruct Hin as [-> | Hin].
      - exists x. split; [now left | exact Hxy].
      - destruct (IH Hin) as (style & Hs & Ht).
        exists style. split; [now right | exact Ht]. }
    destruct Hsrc as (style & Hstyle & Htok).
    destruct (gridToken_fields _ _ Htok) as (Hname & Htype & Hkept).
    destruct (Hkept Hkeep) as (Hg1 & Hg2 & Hpat & Hsec).
    exists style.
    split; [exact Hstyle |]. split; [exact Htok |].
    split; [exact Hname |]. split; [exact Htype |].
    split; [| split; [exact Hg1 | split; [exact Hg2 | split; assumption]]].
    unfold keepGrid in Hkeep. apply orb_true_iff in Hkeep as [Hp | Hs];
      [now left | right].
    intros Hu. rewrite Hu in Hs. discriminate Hs.
Qed.

Lemma spacing_from_first_grid_witness :
  compressStylesForAI twoGrids = Some twoGridsCompressed
  /\ List.length (spacing twoGridsCompressed) <= 2.
Proof.
  assert (Hc : compressStylesForAI twoGrids = Some twoGridsCompressed)
    by (vm_compute; reflexivity).
  split; [exact Hc |].
  exact (proj1 (spacing_from_first_grid twoGrids twoGridsCompressed
                  [columnsStyle; bareGridStyle] Hc eq_refl)).
Defined.

(* ================================================================== *)
(** ** Style normalizer: what a color token holds *)

(** The fill callback as the sequence of its blocks. *)
Lemma fillToken_blocks (style : JsVal) :
  fillToken style
  = (name <- readProp style "name" ;;
     let V := optProp (getProp style "values") in
     gradient <- startsWithGradient (V "type") ;;
     Some (JObj
       (fallbackPaint V
          (patternPaint V (isStr "PATTERN" (V "type"))
             (imagePaint V (isStr "IMAGE" (V "type"))
                (gradientPaint V gradient
                   (solidPaint V (isStr "SOLID" (V "type"))
                      (commonPaint V
                         [("name", name);
                          ("type", jsOr (V "type") (JStr "unknown"))])))))))).
Proof. reflexivity. Qed.

Lemma lookup_setIfTruthy_other (k k' : string) (x : JsVal) (ps : Props) :
  k' <> k -> lookup k (setIfTruthy k' x ps) = lookup k ps.
Proof.
  intros Hne. rewrite lookup_setIfTruthy.
  destruct (String.eqb_spec k' k); [contradiction | reflexivity].
Qed.

Lemma lookup_setIfDefined_other (k k' : string) (x : JsVal) (ps : Props) :
  k' <> k -> lookup k (setIfDefined k' x ps) = lookup k ps.
Proof.
  intros Hne. rewrite lookup_setIfDefined.
  destruct (String.eqb_spec k' k); [contradiction | reflexivity].
Qed.

Ltac skip_writes :=
  repeat first [ rewrite lookup_setIfTruthy_other by discriminate
               | rewrite lookup_setIfDefined_other by discriminate ].

(** The type-specific blocks, from the common properties to the pattern
    properties, applied in the order of the source. *)
Lemma typed_blocks_reads (V : string -> JsVal) (solid gradient image pattern : bool)
    (paint : Props) :
  let built :=
    patternPaint V pattern
      (imagePaint V image
         (gradientPaint V gradient (solidPaint V solid (commonPaint V paint)))) in
  lookup "type" built = lookup "type" paint
  /\ lookup "fallbackHex" built = lookup "fallbackHex" paint
  /\ lookup "fallbackCss" built = lookup "fallbackCss" paint
  /\ lookup "color" built
     = (if solid && truthy (V "color") then V "color" else lookup "color" paint)
  /\ lookup "gradientStops" built
     = (if gradient && truthy (V "gradientStops")
        then V "gradientStops" else lookup "gradientStops" paint)
  /\ lookup "imageRef" built
     = (if image && truthy (V "imageRef")
        then V "imageRef" else lookup "imageRef" paint).
Proof.
  cbv zeta.
  destruct solid, gradient, image, pattern;
    cbn [patternPaint imagePaint gradientPaint solidPaint andb];
    unfold commonPaint; repeat split;
    repeat (skip_writes;
            try (rewrite lookup_setIfTruthy;
                 cbn [String.eqb Ascii.eqb Bool.eqb andb]));
    reflexivity.
Qed.

Lemma fallbackPaint_reads (V : string -> JsVal) (paint : Props) (k : string) :
  let noColour :=
    negb (truthy (lookup "color" paint))
    && negb (truthy (lookup "gradientStops" paint))
    && negb (truthy (lookup "imageRef" paint)) in
  (k <> "fallbackHex" -> k <> "fallbackCss" ->
   lookup k (fallbackPaint V paint) = lookup k paint)
  /\ lookup "fallbackHex" (fallbackPaint V paint)
     = (if noColour && truthy (V "hex") then V "hex"
        else lookup "fallbackHex" paint)
  /\ lookup "fallbackCss" (fallbackPaint V paint)
     = (if noColour && truthy (V "css") then V "css"
        else lookup "fallbackCss" paint).
Proof.
  cbv zeta. unfold fallbackPaint.
  destruct (negb (truthy (lookup "color" paint))
            && negb (truthy (lookup "gradientStops" paint))
            && negb (truthy (lookup "imageRef" paint))); cbn [andb].
  - split; [| split].
    + intros H1 H2.
      rewrite !lookup_setIfTruthy_other by congruence. reflexivity.
    + skip_writes. rewrite lookup_setIfTruthy.
      cbn [String.eqb Ascii.eqb Bool.eqb andb]. reflexivity.
    + rewrite lookup_setIfTruthy.
      cbn [String.eqb Ascii.eqb Bool.eqb andb].
      skip_writes. reflexivity.
  - repeat split; reflexivity.
Qed.

(** The properties of a color token that decide whether it is kept, read
    back from the finished token. *)
Lemma fillToken_reads (style paint : JsVal) :
  fillToken style = Some paint ->
  let V := optProp (getProp style "values") in
  exists gradient,
    startsWithGradient (V "type") = Some gradient
    /\ getProp paint "type" = jsOr (V "type") (JStr "unknown")
    /\ getProp paint "color"
       = (if isStr "SOLID" (V "type") && truthy (V "color")
          then V "color" else JUndef)
    /\ getProp paint "gradientStops"
       = (if gradient && truthy (V "gradientStops")
          then V "gradientStops" else JUndef)
    /\ getProp paint "imageRef"
       = (if isStr "IMAGE" (V "type") && truthy (V "imageRef")
          then V "imageRef" else JUndef)
    /\ getProp paint "fallbackHex"
       = (if negb (truthy (getProp paint "color"))
             && negb (truthy (getProp paint "gradientStops"))
             && negb (truthy (getProp paint "imageRef"))
             && truthy (V "hex")
          then V "hex" else JUndef)
    /\ getProp paint "fallbackCss"
       = (if negb (truthy (getProp paint "color"))
             && negb (truthy (getProp paint "gradientStops"))
             && negb (truthy (getProp paint "imageRef"))
             && truthy (V "css")
          then V "css" else JUndef).
Proof.
  rewrite fillToken_blocks. unfold readProp.
  destruct (nullish style); [discriminate |]. cbn [bind]. cbv zeta.
  set (V := optProp (getProp style "values")).
  destruct (startsWithGradient (V "type")) as [gradient|]; [| discriminate].
  cbn [bind]. intros [= <-]. exists gradient. split; [reflexivity |].
  cbn [getProp].
  pose proof (typed_blocks_reads V (isStr "SOLID" (V "type")) gradient
                (isStr "IMAGE" (V "type")) (isStr "PATTERN" (V "type"))
                [("name", getProp style "name");
                 ("type", jsOr (V "type") (JStr "unknown"))]) as Hb.
  cbv zeta in Hb.
  set (built := patternPaint V _ _) in *.
  destruct Hb as (Hty & Hfh & Hfc & Hcol & Hgs & Hir).
  cbn [lookup String.eqb Ascii.eqb Bool.eqb] in Hty, Hfh, Hfc, Hcol, Hgs, Hir.
  pose proof (fallbackPaint_reads V built) as Hf. cbv zeta in Hf.
  assert (Hk : forall k, k <> "fallbackHex" -> k <> "fallbackCss" ->
                         lookup k (fallbackPaint V built) = lookup k built)
    by (intros k; apply (Hf k)).
  destruct (Hf "type") as (_ & HfH & HfC).
  rewrite !Hk by discriminate.
  rewrite HfH, HfC, Hty, Hfh, Hfc, Hcol, Hgs, Hir.
  repeat split; reflexivity.
Qed.

Lemma Forall2_In_r {A B : Type} (R : A -> B -> Prop) (l : list A) (l' : list B)
    (y : B) :
  Forall2 R l l' -> In y l' -> exists x, In x l /\ R x y.
Proof.
  induction 1 as [|a b l l' Hab _ IH]; intros Hin; [destruct Hin |].
  destruct Hin as [-> | Hin].
  - exists a. split; [now left | exact Hab].
  - destruct (IH Hin) as (x & Hx & Hxy). exists x. split; [now right | exact Hxy].
Qed.

(** A type that resolves to "unknown" passes none of the paint type
    tests. *)
Lemma unknown_type_plain (t : JsVal) (gradient : bool) :
  startsWithGradient t = Some gradient ->
  isStr "unknown" (jsOr t (JStr "unknown")) = true ->
  gradient = false /\ isStr "SOLID" t = false /\ isStr "IMAGE" t = false.
Proof.
  destruct t as [| | b | z | s | l | ps]; cbn [startsWithGradient];
    try discriminate; intros [= <-]; try (intros _; repeat split; reflexivity).
  unfold jsOr. cbn [truthy].
  destruct (String.eqb_spec s EmptyString) as [-> | Hne]; cbn [negb isStr].
  - intros _. repeat split; reflexivity.
  - intros Hs. apply String.eqb_eq in Hs. subst s. repeat split; reflexivity.
Qed.

(** X9.  A fill style that carries a truthy hex or css is never dropped:
    whatever its paint type, its token is in the compressed colors. *)
Theorem fill_with_hex_or_css_is_kept
    (styles : JsVal) (compressed : StyleSet) (fill : list JsVal) (style : JsVal) :
  compressStylesForAI styles = Some compressed ->
  optProp (getProp styles "styles") "fill" = JArr fill ->
  In style fill ->
  truthy (optProp (getProp style "values") "hex") = true
  \/ truthy (optProp (getProp style "values") "css") = true ->
  exists paint, fillToken style = Some paint /\ In paint (colors compressed).
Proof.
  intros Hc Hfill Hin Hhex.
  destruct (compress_inv _ _ Hc) as (Hcolors & _).
  rewrite Hfill in Hcolors. cbn [truthy] in Hcolors.
  destruct Hcolors as (fill' & paints & [= <-] & Hall & _).
  destruct (Forall2_In_l _ _ _ _ Hall Hin) as (paint & _ & Htok).
  exists paint. split; [exact Htok |].
  apply (kept_paint_in_colors styles compressed fill style paint Hc Hfill Hin Htok).
  unfold keepPaint.
  destruct (isStr "unknown" (getProp paint "type")) eqn:Hty; [| reflexivity].
  cbn [negb orb].
  destruct (fillToken_reads _ _ Htok)
    as (gradient & Hg & Htype & Hcol & Hgs & Hir & HfH & HfC).
  rewrite Htype in Hty.
  destruct (unknown_type_plain _ _ Hg Hty) as (-> & Hsolid & Himage).
  rewrite Hsolid, Himage in *. cbn [andb] in Hcol, Hgs, Hir.
  rewrite Hcol, Hgs, Hir in HfH, HfC. cbn [truthy negb andb] in HfH, HfC.
  rewrite HfH, HfC.
  destruct Hhex as [Hh | Hh]; rewrite Hh.
  - now rewrite Hh.
  - rewrite Hh. apply orb_true_r.
Qed.

Lemma fill_with_hex_or_css_is_kept_witness :
  compressStylesForAI threeFills = Some threeFillsCompressed
  /\ exists paint,
       fillToken primaryBlue = Some paint
       /\ In paint (colors threeFillsCompressed).
Proof.
  assert (Hc : compressStylesForAI threeFills = Some threeFillsCompressed)
    by (vm_compute; reflexivity).
  split; [exact Hc |].
  apply (fill_with_hex_or_css_is_kept threeFills threeFillsCompressed
           [primaryBlue; dotsStyle; ghostStyle] primaryBlue Hc eq_refl).
  - left. reflexivity.
  - left. reflexivity.
Defined.

(** X10.  Every compressed color comes from a fill style, and its fallback
    fields exclude the primary ones: a token that has a fallbackHex or a
    fallbackCss has no color, no gradientStops and no imageRef, and the
    fallback values are the style's own hex and css. *)
Theorem fallback_only_without_colour
    (styles : JsVal) (compressed : StyleSet) (fill : list JsVal) (paint : JsVal) :
  compressStylesForAI styles = Some compressed ->
  optProp (getProp styles "styles") "fill" = JArr fill ->
  In paint (colors compressed) ->
  exists style,
    In style fill
    /\ fillToken style = Some paint
    /\ (getProp paint "fallbackHex" <> JUndef
        \/ getProp paint "fallbackCss" <> JUndef ->
        getProp paint "color" = JUndef
        /\ getProp paint "gradientStops" = JUndef
        /\ getProp paint "imageRef" = JUndef)
    /\ (getProp paint "fallbackHex" <> JUndef ->
        getProp paint "fallbackHex" = optProp (getProp style "values") "hex")
    /\ (getProp paint "fallbackCss" <> JUndef ->
        getProp paint "fallbackCss" = optProp (getProp style "values") "css").
Proof.
  intros Hc Hfill Hin.
  destruct (compress_inv _ _ Hc) as (Hcolors & _).
  rewrite Hfill in Hcolors. cbn [truthy] in Hcolors.
  destruct Hcolors as (fill' & paints & [= <-] & Hall & Heq).
  rewrite Heq in Hin. apply filter_In in Hin as [Hin _].
  destruct (Forall2_In_r _ _ _ _ Hall Hin) as (style & Hstyle & Htok).
  exists style. split; [exact Hstyle |]. split; [exact Htok |].
  destruct (fillToken_reads _ _ Htok)
    as (gradient & _ & _ & Hcol & Hgs & Hir & HfH & HfC).
  set (V := optProp (getProp style "values")) in *.
  assert (Hnone : truthy (getProp paint "color") = false ->
                  getProp paint "color" = JUndef).
  { rewrite Hcol. destruct (isStr "SOLID" (V "type") && truthy (V "color")) eqn:E;
      [| reflexivity].
    apply andb_true_iff in E as [_ E]. rewrite E. discriminate. }
  assert (Hnone2 : truthy (getProp paint "gradientStops") = false ->
                   getProp paint "gradientStops" = JUndef).
  { rewrite Hgs. destruct (gradient && truthy (V "gradientStops")) eqn:E;
      [| reflexivity].
    apply andb_true_iff in E as [_ E]. rewrite E. discriminate. }
  assert (Hnone3 : truthy (getProp paint "imageRef") = false ->
                   getProp paint "imageRef" = JUndef).
  { rewrite Hir. destruct (isStr "IMAGE" (V "type") && truthy (V "imageRef")) eqn:E;
      [| reflexivity].
    apply andb_true_iff in E as [_ E]. rewrite E. discriminate. }
  destruct (truthy (getProp paint "color")) eqn:E1;
    destruct (truthy (getProp paint "gradientStops")) eqn:E2;
    destruct (truthy (getProp paint "imageRef")) eqn:E3;
    cbn [negb andb] in HfH, HfC;
    try (rewrite HfH, HfC;
         split; [intros [H | H]; exfalso; apply H; reflexivity |];
         split; intros H; exfalso; apply H; reflexivity).
  split; [intros _; repeat split; auto |].
  split.
  - rewrite HfH. destruct (truthy (V "hex")); [reflexivity |].
    intros H. exfalso. apply H. reflexivity.
  - rewrite HfC. destruct (truthy (V "css")); [reflexivity |].
    intros H. exfalso. apply H. reflexivity.
Qed.

Lemma fallback_only_without_colour_witness :
  compressStylesForAI threeFills = Some threeFillsCompressed
  /\ In primaryBlueToken (colors threeFillsCompressed)
  /\ exists style,
       In style [primaryBlue; dotsStyle; ghostStyle]
       /\ fillToken style = Some primaryBlueToken.
Proof.
  assert (Hc : compressStylesForAI threeFills = Some threeFillsCompressed)
    by (vm_compute; reflexivity).
  assert (Hin : In primaryBlueToken (colors threeFillsCompressed))
    by (left; reflexivity).
  split; [exact Hc |]. split; [exact Hin |].
  destruct (fallback_only_without_colour threeFills threeFillsCompressed
              [primaryBlue; dotsStyle; ghostStyle] primaryBlueToken
              Hc eq_refl Hin) as (style & Hs & Ht & _).
  exists style. split; assumption.
Defined.

(* ================================================================== *)
(** ** Style normalizer: type-specific effect fields *)

Lemma effectFields_typed (name effectData : JsVal) (base : Props) :
  effectFields name effectData = Some base ->
  forall field types,
    In (field, types) typedFields ->
    lookup field base <> JUndef ->
    existsb (fun t => isStr t (getProp effectData "type")) types = true
    /\ lookup field base = getProp effectData field.
Proof.
  unfold effectFields, readProp.
  destruct (nullish effectData); [discriminate |]. cbn [bind].
  intros [= <-] field types Hin.
  unfold typedFields in Hin. cbn [In] in Hin.
  assert (Hex : existsb (fun t => isStr t (getProp effectData "type")) types
                = existsb (fun t => isStr t (getProp effectData "type")) types)
    by reflexivity.
  revert Hex. generalize (existsb (fun t => isStr t (getProp effectData "type")) types) at 1 3.
  intros owner Hex. revert Hin Hex.
  destruct (isStr "INNER_SHADOW" (getProp effectData "type")
            || isStr "DROP_SHADOW" (getProp effectData "type")) eqn:Hshadow;
    destruct (isStr "LAYER_BLUR" (getProp effectData "type")
              || isStr "BACKGROUND_BLUR" (getProp effectData "type")) eqn:Hblur;
    destruct (isStr "NOISE" (getProp effectData "type")) eqn:Hnoise;
    destruct (isStr "TEXTURE" (getProp effectData "type")) eqn:Htexture;
    read_chain; intros Hin Hex;
    repeat (destruct Hin as [Heq | Hin]; [injection Heq as <- <- |]);
    try contradiction;
    cbn [existsb] in Hex;
    rewrite ?orb_false_r, ?Hshadow, ?Hblur, ?Hnoise, ?Htexture in Hex;
    cbn [orb] in Hex; subst owner;
    cbn [lookup String.eqb Ascii.eqb Bool.eqb andb orb];
    repeat match goal with
           | |- context [if ?c then _ else _] => destruct c
           end;
    intros Hne; try (exfalso; apply Hne; reflexivity);
    split; reflexivity.
Qed.

Lemma typedFields_types_truthy (field : string) (types : list string) (t : string) :
  In (field, types) typedFields -> In t types ->
  truthy (JStr t) = true /\ field <> "allEffects".
Proof.
  unfold typedFields. cbn [In]. intros Hin Ht.
  repeat (destruct Hin as [Heq | Hin]; [injection Heq as <- <- |]);
    try contradiction;
    cbn [In] in Ht;
    repeat (destruct Ht as [<- | Ht]); try contradiction;
    (split; [reflexivity | discriminate]).
Qed.

(** X11.  The type-specific fields of an effect token belong to its type:
    color, offset, spread and showShadowBehindNode occur only on shadow
    tokens, blurType, startRadius, startOffset and endOffset only on blur
    tokens, noiseType, density, secondaryColor and opacity only on NOISE,
    clipToShape only on TEXTURE, noiseSize only on NOISE or TEXTURE; and
    where such a field occurs its value is the first effect's. *)
Theorem effect_fields_by_type
    (styles : JsVal) (compressed : StyleSet) (effs : list JsVal) (token : JsVal) :
  compressStylesForAI styles = Some compressed ->
  optProp (getProp styles "styles") "effect" = JArr effs ->
  In token (effects compressed) ->
  exists style first rest,
    In style effs
    /\ optProp (getProp style "values") "effects" = JArr (first :: rest)
    /\ forall field types,
         In (field, types) typedFields ->
         getProp token field <> JUndef ->
         (exists t, In t types /\ getProp token "type" = JStr t)
         /\ getProp token field = getProp first field.
Proof.
  intros Hc Heff Hin.
  destruct (compress_inv _ _ Hc) as (_ & _ & Heffects & _).
  rewrite Heff in Heffects. cbn [truthy] in Heffects.
  destruct Heffects as (effs' & found & [= <-] & Hall & Heq).
  rewrite Heq in Hin. apply filterEffects_In in Hin as [Hin _].
  destruct (Forall2_In_r _ _ _ _ Hall Hin) as (style & Hstyle & Htok).
  destruct (effectToken_cases _ _ Htok) as [Hnone Hsome].
  cbv zeta in Hnone, Hsome.
  destruct (optProp (getProp style "values") "effects") as [| | b | z | s | l | ps]
    eqn:Hlist;
    try (assert (Hcontra : Some token = None)
           by (apply Hnone; cbn [truthy isArray]; auto);
         discriminate Hcontra).
  destruct l as [|first rest];
    [assert (Hcontra : Some token = None) by (apply Hnone; auto);
     discriminate Hcontra |].
  exists style, first, rest. split; [exact Hstyle |]. split; [exact Hlist |].
  destruct (Hsome first rest eq_refl) as (base & Hbase & _ & Htype & Hr).
  injection Hr as ->.
  intros field types Hfield Hne.
  assert (Hread : forall k, k <> "allEffects" ->
            getProp (JObj match rest with
                          | [] => base
                          | _ :: _ => setProp base "allEffects"
                                        (JArr (first :: rest))
                          end) k = lookup k base).
  { intros k Hk. cbn [getProp]. destruct rest; [reflexivity |].
    rewrite lookup_setProp.
    destruct (String.eqb_spec "allEffects" k); [congruence | reflexivity]. }
  assert (Hfa : field <> "allEffects").
  { unfold typedFields in Hfield. cbn [In] in Hfield.
    repeat (destruct Hfield as [Heq' | Hfield]; [injection Heq' as <- <- |]);
      try contradiction; discriminate. }
  rewrite (Hread field Hfa) in Hne |- *.
  rewrite (Hread "type") by discriminate.
  destruct (effectFields_typed _ _ _ Hbase field types Hfield Hne)
    as [Howner Hvalue].
  split; [| exact Hvalue].
  apply existsb_exists in Howner as (t & Ht & Hty).
  exists t. split; [exact Ht |].
  rewrite Htype.
  destruct (getProp first "type"); cbn [isStr] in Hty; try discriminate Hty.
  apply String.eqb_eq in Hty. subst.
  unfold jsOr.
  now rewrite (proj1 (typedFields_types_truthy field types t Hfield Ht)).
Qed.

Lemma effect_fields_by_type_witness :
  compressStylesForAI threeEffects = Some threeEffectsCompressed
  /\ In cardToken (effects threeEffectsCompressed)
  /\ exists style first rest,
       In style [cardShadow; noEffects; untypedEffect]
       /\ optProp (getProp style "values") "effects" = JArr (first :: rest).
Proof.
  assert (Hc : compressStylesForAI threeEffects = Some threeEffectsCompressed)
    by (vm_compute; reflexivity).
  assert (Hin : In cardToken (effects threeEffectsCompressed))
    by (left; reflexivity).
  split; [exact Hc |]. split; [exact Hin |].
  destruct (effect_fields_by_type threeEffects threeEffectsCompressed
              [cardShadow; noEffects; untypedEffect] cardToken Hc eq_refl Hin)
    as (style & first & rest & Hs & Hl & _).
  exists style, first, rest. split; assumption.
Defined.

(* ================================================================== *)
(** ** Result combiner: when extraction succeeds *)

Lemma stripPrefix_app (p r : string) : stripPrefix p (p ++ r) = Some r.
Proof.
  induction p as [|a p IH]; cbn [stripPrefix append]; [reflexivity |].
  now rewrite Ascii.eqb_refl.
Qed.

Lemma skipSpaces_app (ws : string) (c : ascii) (r : string) :
  allSpaces ws = true -> isWhiteSpace c = false ->
  skipSpaces (ws ++ String c r) = String c r.
Proof.
  intros Hws Hc. induction ws as [|w ws IH]; cbn [append skipSpaces].
  - now rewrite Hc.
  - cbn [allSpaces] in Hws. apply andb_true_iff in Hws as [-> Hws].
    now apply IH.
Qed.

Lemma throughLastBrace_app (body post : string) :
  exists t, throughLastBrace (body ++ "}" ++ post) = Some t.
Proof.
  induction body as [|c body [t IH]].
  - cbn [append throughLastBrace].
    destruct (throughLastBrace post); eexists; reflexivity.
  - change (String c body ++ "}" ++ post) with (String c (body ++ "}" ++ post)).
    cbn [throughLastBrace]. rewrite IH. eexists. reflexivity.
Qed.

Lemma matchConfig_unfold (r : string) :
  matchConfig r
  = match matchConfigAt r with
    | Some g => Some g
    | None => match r with
              | EmptyString => None
              | String _ r' => matchConfig r'
              end
    end.
Proof. destruct r; reflexivity. Qed.

(** X12.  Extraction from a tailwind chunk succeeds exactly when the text
    contains [module.exports], an equals sign with optional white space on
    either side, an opening brace and, somewhere after it, a closing
    brace. *)
Theorem extraction_succeeds_iff (r : string) :
  (exists config, matchConfig r = Some config)
  <-> exists pre ws1 ws2 body post,
        r = pre ++ "module.exports" ++ ws1 ++ "=" ++ ws2
            ++ "{" ++ body ++ "}" ++ post
        /\ allSpaces ws1 = true /\ allSpaces ws2 = true.
Proof.
  split.
  - intros [config Hm].
    destruct (matchConfig_spec _ _ Hm)
      as (pre & ws1 & ws2 & body & post & Hr & Hc & H1 & H2 & _).
    exists pre, ws1, ws2, body, post. split; [| now split].
    rewrite Hr, Hc. cbn [append]. now rewrite !append_assoc.
  - intros (pre & ws1 & ws2 & body & post & -> & H1 & H2).
    induction pre as [|c pre IH].
    + assert (Hat : exists config,
                 matchConfigAt ("module.exports" ++ ws1 ++ "=" ++ ws2
                                ++ "{" ++ body ++ "}" ++ post) = Some config).
      { unfold matchConfigAt. rewrite stripPrefix_app.
        change (ws1 ++ "=" ++ ws2 ++ "{" ++ body ++ "}" ++ post)
          with (ws1 ++ String "="%char (ws2 ++ "{" ++ body ++ "}" ++ post)).
        rewrite (skipSpaces_app ws1 "=" _ H1 eq_refl).
        change (ws2 ++ "{" ++ body ++ "}" ++ post)
          with (ws2 ++ String "{"%char (body ++ "}" ++ post)).
        rewrite (skipSpaces_app ws2 "{" _ H2 eq_refl).
        destruct (throughLastBrace_app body post) as [t ->].
        eexists. reflexivity. }
      destruct Hat as [config Hat].
      exists config.
      change (matchConfig ("module.exports" ++ ws1 ++ "=" ++ ws2
                           ++ "{" ++ body ++ "}" ++ post) = Some config).
      rewrite matchConfig_unfold. now rewrite Hat.
    + destruct IH as [config IH].
      change (String c pre ++ "module.exports" ++ ws1 ++ "=" ++ ws2
              ++ "{" ++ body ++ "}" ++ post)
        with (String c (pre ++ "module.exports" ++ ws1 ++ "=" ++ ws2
                        ++ "{" ++ body ++ "}" ++ post)).
      rewrite matchConfig_unfold.
      destruct (matchConfigAt _) as [g|]; [now exists g | now exists config].
Qed.

Lemma extraction_succeeds_iff_witness :
  (exists config, matchConfig exportingChunk = Some config)
  /\ exists pre ws1 ws2 body post,
       exportingChunk = pre ++ "module.exports" ++ ws1 ++ "=" ++ ws2
                        ++ "{" ++ body ++ "}" ++ post
       /\ allSpaces ws1 = true /\ allSpaces ws2 = true.
Proof.
  assert (H : exists config, matchConfig exportingChunk = Some config)
    by (eexists; vm_compute; reflexivity).
  split; [exact H |].
  exact (proj1 (extraction_succeeds_iff exportingChunk) H).
Defined.

(* ================================================================== *)
(** ** Providers *)

Lemma entry_In {A : Type} (key : string) (table : list (string * A)) (a : A) :
  entry key table = Some a -> In (key, a) table.
Proof.
  induction table as [|[k b] table IH]; cbn [entry]; [discriminate |].
  destruct (String.eqb_spec k key) as [-> | _].
  - intros [= ->]. now left.
  - intros H. right. now apply IH.
Qed.

Lemma In_entry {A : Type} (key : string) (table : list (string * A)) (a : A) :
  NoDup (map fst table) -> In (key, a) table -> entry key table = Some a.
Proof.
  induction table as [|[k b] table IH]; cbn [entry map fst];
    intros Hnd Hin; [destruct Hin |].
  inversion Hnd as [|? ? Hk Hnd']; subst.
  destruct Hin as [[= -> ->] | Hin].
  - now rewrite String.eqb_refl.
  - destruct (String.eqb_spec k key) as [-> | _]; [| now apply IH].
    exfalso. apply Hk. change key with (fst (key, a)). now apply in_map.
Qed.

Lemma AI_PROVIDERS_NoDup : NoDup (map fst AI_PROVIDERS).
Proof.
  cbn [map fst AI_PROVIDERS].
  repeat (constructor; [cbn [In]; intuition discriminate |]).
  constructor.
Qed.

Lemma createModel_Some (env : Env) (provider : string) (modelId : JsVal)
    (handle : ModelHandle) :
  createModel env provider modelId = Some handle
  <-> exists config,
        In (provider, config) AI_PROVIDERS
        /\ envTruthy env (envVar config) = true
        /\ handle = (factory config,
                     jsOr modelId (JStr (defaultModel config))).
Proof.
  unfold createModel. split.
  - destruct (entry provider AI_PROVIDERS) as [config|] eqn:He;
      [| discriminate].
    destruct (envTruthy env (envVar config)) eqn:Hk; cbn [negb];
      [| discriminate].
    intros [= <-]. exists config.
    split; [now apply entry_In | now split].
  - intros (config & Hin & Hk & ->).
    rewrite (In_entry _ _ _ AI_PROVIDERS_NoDup Hin), Hk. reflexivity.
Qed.

(** X13.  createModel returns a model exactly for the providers that
    getAvailableProviders lists: a provider of the table whose key variable
    is set to a non-empty text.  For every other provider name, and for a
    listed provider without its key, it throws. *)
Theorem createModel_succeeds_iff (env : Env) (provider : string)
    (modelId : JsVal) :
  (exists handle, createModel env provider modelId = Some handle)
  <-> In provider (map fst (getAvailableProviders env)).
Proof.
  unfold getAvailableProviders. rewrite in_map_iff. split.
  - intros [handle H]. apply createModel_Some in H as (config & Hin & Hk & _).
    exists (provider, config). split; [reflexivity |].
    apply filter_In. now split.
  - intros ([p config] & Hp & Hin). cbn [fst] in Hp. subst p.
    apply filter_In in Hin as [Hin Hk]. cbn [snd] in Hk.
    eexists. apply createModel_Some. exists config.
    split; [exact Hin | split; [exact Hk | reflexivity]].
Qed.

(** X14.  hasAvailableProviders is true exactly when createModel can
    succeed for some provider. *)
Theorem hasAvailableProviders_iff (env : Env) (modelId : JsVal) :
  hasAvailableProviders env = true
  <-> exists provider handle, createModel env provider modelId = Some handle.
Proof.
  unfold hasAvailableProviders, getAvailableProviders.
  rewrite length_map, Nat.ltb_lt. split.
  - destruct (filter _ AI_PROVIDERS) as [|[p config] rest] eqn:Hf;
      cbn [List.length]; [lia |].
    intros _.
    assert (Hin : In (p, config) (filter
                     (fun kc : string * ProviderConfig =>
                        envTruthy env (envVar (snd kc))) AI_PROVIDERS))
      by (rewrite Hf; now left).
    apply filter_In in Hin as [Hin Hk]. cbn [snd] in Hk.
    exists p. eexists. apply createModel_Some. exists config.
    split; [exact Hin | split; [exact Hk | reflexivity]].
  - intros (provider & handle & H).
    apply createModel_Some in H as (config & Hin & Hk & _).
    assert (Hf : In (provider, config) (filter
                    (fun kc : string * ProviderConfig =>
                       envTruthy env (envVar (snd kc))) AI_PROVIDERS))
      by (apply filter_In; now split).
    destruct (filter _ AI_PROVIDERS); [destruct Hf | cbn [List.length]; lia].
Qed.

(** X15.  Without a usable model id (undefined, null, empty) createModel
    asks the provider function of the named provider for that provider's
    default model, and this default is one of the models the table lists
    for the provider. *)
Theorem default_model_is_listed (env : Env) (provider : string)
    (modelId : JsVal) (handle : ModelHandle) :
  createModel env provider modelId = Some handle ->
  truthy modelId = false ->
  exists config,
    entry provider AI_PROVIDERS = Some config
    /\ handle = (factory config, JStr (defaultModel config))
    /\ exists description,
         entry (defaultModel config) (models config) = Some description.
Proof.
  intros H Hm. apply createModel_Some in H as (config & Hin & _ & ->).
  exists config. unfold jsOr. rewrite Hm.
  split; [exact (In_entry _ _ _ AI_PROVIDERS_NoDup Hin) |].
  split; [reflexivity |].
  cbn [AI_PROVIDERS In] in Hin.
  destruct Hin as [[= <- <-] | [[= <- <-] | [[= <- <-] | [[= <- <-] | []]]]];
    eexists; reflexivity.
Qed.

Lemma default_model_is_listed_witness :
  createModel openaiOnly "openai" JUndef = Some (openai, JStr "o4-mini")
  /\ exists config,
       entry "openai" AI_PROVIDERS = Some config
       /\ (openai, JStr "o4-mini") = (factory config, JStr (defaultModel config))
       /\ exists description,
            entry (defaultModel config) (models config) = Some description.
Proof.
  assert (H : createModel openaiOnly "openai" JUndef
              = Some (openai, JStr "o4-mini")) by reflexivity.
  split; [exact H |].
  exact (default_model_is_listed openaiOnly "openai" JUndef _ H eq_refl).
Defined.

(* ================================================================== *)
(** ** Prompts *)

Lemma append_nil_l (s : string) : EmptyString ++ s = s.
Proof. reflexivity. Qed.

Lemma requirements_agree (format commentFormat : string) :
  format <> "tailwind" ->
  chunkRequirements format commentFormat
  = promptRequirements format commentFormat.
Proof.
  intros Hne. unfold chunkRequirements, promptRequirements.
  destruct (format =? "css"); [reflexivity |].
  destruct (format =? "scss"); [reflexivity |].
  destruct (String.eqb_spec format "tailwind") as [-> | _];
    [now contradiction Hne |].
  reflexivity.
Qed.

(** X16.  For every format but tailwind, the prompt for a single chunk
    (chunk k of 1) is the prompt for a whole style set around its own
    serialized styles, with one paragraph added: the line saying which
    chunk this is.  Output rules and requirements are the same text. *)
Theorem single_chunk_prompt_adds_chunk_line
    (styles : JsVal) (compressed chunk : StyleSet) (format : string)
    (chunkNumber : nat) :
  compressStylesForAI styles = Some compressed ->
  format <> "tailwind" ->
  exists opening middle closing,
    createPrompt styles format
    = Some (opening ++ middle
            ++ serialize "  " EmptyString (toJs compressed) ++ closing)
    /\ createChunkPrompt chunk format chunkNumber 1
       = opening
         ++ "This is chunk " ++ showNat chunkNumber
         ++ " of 1 from a large design system." ++ newline ++ newline
         ++ middle ++ serialize "  " EmptyString (toJs chunk) ++ closing.
Proof.
  intros Hc Hne.
  unfold createPrompt, createChunkPrompt. rewrite Hc. cbn [bind].
  rewrite (requirements_agree _ _ Hne).
  unfold withRequirements, wholeBasePrompt, chunkBasePrompt,
    chunkInstructions.
  cbn [Nat.ltb Nat.leb join].
  set (reqs := join newline (promptRequirements _ _)).
  set (summary := serialize "  " EmptyString (toJs compressed)).
  set (chunkText := serialize "  " EmptyString (toJs chunk)).
  change ("This is chunk " ++ showNat chunkNumber ++ " of " ++ showNat 1
          ++ " from a large design system.")
    with ("This is chunk " ++ showNat chunkNumber
          ++ " of 1 from a large design system.").
  exists ("CRITICAL: Return ONLY valid " ++ format
          ++ " code. No explanations, no markdown, no text outside of code."
          ++ newline ++ newline).
  exists ("Convert these Figma design tokens to " ++ format ++ " code:"
          ++ newline ++ newline).
  eexists.
  rewrite !append_nil_l.
  rewrite !append_assoc.
  split; [f_equal |]; reflexivity.
Qed.

Lemma single_chunk_prompt_adds_chunk_line_witness :
  compressStylesForAI oneFill = Some oneFillCompressed
  /\ "css" <> "tailwind"
  /\ exists opening middle closing,
       createPrompt oneFill "css"
       = Some (opening ++ middle
               ++ serialize "  " EmptyString (toJs oneFillCompressed)
               ++ closing)
       /\ createChunkPrompt oneFillCompressed "css" 1 1
          = opening
            ++ "This is chunk " ++ showNat 1
            ++ " of 1 from a large design system." ++ newline ++ newline
            ++ middle ++ serialize "  " EmptyString (toJs oneFillCompressed)
            ++ closing.
Proof.
  assert (H1 : compressStylesForAI oneFill = Some oneFillCompressed)
    by (vm_compute; reflexivity).
  assert (H2 : "css" <> "tailwind") by discriminate.
  split; [exact H1 |]. split; [exact H2 |].
  exact (single_chunk_prompt_adds_chunk_line oneFill oneFillCompressed
           oneFillCompressed "css" 1 H1 H2).
Defined.

(* ================================================================== *)
(** ** Generation: requests and outcome *)

Lemma exceeds_chunkBudget (n : nat) (maxTokens : Z) :
  exceeds n (inject_Z maxTokens) = true ->
  exceeds n (chunkBudget maxTokens) = true.
Proof.
  unfold exceeds, chunkBudget. rewrite !negb_true_iff. intros H.
  apply not_true_iff_false. apply not_true_iff_false in H.
  intros Hle. apply H.
  apply Qle_bool_iff. apply Qle_bool_iff in Hle.
  unfold Qle in *. cbn in *. lia.
Qed.

Lemma answers_None_iff (service : nat -> Request -> option string)
    (requests : list Request) (n : nat) :
  answers service n requests = None
  <-> exists j r,
        nth_error (untilRejected service n requests) j = Some r
        /\ service (n + j) r = None.
Proof.
  revert n. induction requests as [|request rest IH]; intros n;
    cbn [answers untilRejected].
  - split; [discriminate |]. intros ([|j] & r & Hj & _); discriminate.
  - destruct (service n request) as [text|] eqn:Hs; cbn [bind].
    + assert (Hb : (texts <- answers service (S n) rest ;;
                    Some (text :: texts)) = None
                   <-> answers service (S n) rest = None)
        by (destruct (answers service (S n) rest); cbn [bind];
            split; congruence).
      rewrite Hb, IH. split.
      * intros (j & r & Hj & Hr). exists (S j), r.
        split; [exact Hj |]. now rewrite Nat.add_succ_r.
      * intros ([|j] & r & Hj & Hr); cbn [nth_error] in Hj.
        -- injection Hj as <-. rewrite Nat.add_0_r in Hr. congruence.
        -- exists j, r. split; [exact Hj |]. now rewrite Nat.add_succ_r in Hr.
    + split; [| reflexivity]. intros _. exists 0, request.
      split; [reflexivity |]. now rewrite Nat.add_0_r.
Qed.

Lemma untilRejected_last (service : nat -> Request -> option string)
    (requests : list Request) (n j : nat) (r : Request) :
  nth_error (untilRejected service n requests) j = Some r ->
  service (n + j) r = None ->
  S j = List.length (untilRejected service n requests).
Proof.
  revert n j. induction requests as [|request rest IH]; intros n j;
    cbn [untilRejected].
  - destruct j; discriminate.
  - destruct j as [|j]; cbn [nth_error].
    + intros [= <-]. rewrite Nat.add_0_r. now intros ->.
    + destruct (service n request) as [text|];
        [| destruct j; discriminate].
      intros Hj Hr. cbn [List.length]. f_equal.
      apply (IH (S n) j); [exact Hj |]. now rewrite Nat.add_succ_r in Hr.
Qed.

Section GenerateProperties.

Variable JSON_parse : string -> option JsVal.
Variable env : Env.
Variable service : nat -> Request -> option string.

Lemma run_processChunks (aiModel : ModelHandle) (format : string)
    (temperature : Q) (totalChunks : nat) (chunks : list StyleSet) :
  forall (i n : nat) (results : list string),
    run service n
      (processChunks JSON_parse aiModel format temperature totalChunks i
         chunks results)
    = (untilRejected service n
         (chunkRequests aiModel format temperature totalChunks i chunks),
       texts <- answers service n
                  (chunkRequests aiModel format temperature totalChunks i
                     chunks) ;;
       Some (combineChunkedResults JSON_parse (results ++ texts)%list
               format)).
Proof.
  induction chunks as [|chunk rest IH]; intros i n results.
  - cbn [processChunks chunkRequests run untilRejected answers bind].
    now rewrite app_nil_r.
  - cbn [processChunks chunkRequests run untilRejected answers].
    destruct (service n _) as [text|]; cbn [bind run]; [| reflexivity].
    rewrite IH.
    destruct (answers service (S n) _) as [texts|]; cbn [bind];
      [| reflexivity].
    now rewrite <- app_assoc.
Qed.

Lemma createPrompt_Some (styles : JsVal) (compressed : StyleSet)
    (format : string) :
  compressStylesForAI styles = Some compressed ->
  exists prompt, createPrompt styles format = Some prompt.
Proof.
  intros Hc. unfold createPrompt. rewrite Hc. cbn [bind].
  eexists. reflexivity.
Qed.

Lemma run_chunked (styles : JsVal) (provider : string) (modelId : JsVal)
    (format : string) (temperature : Q) (maxTokens : Z)
    (aiModel : ModelHandle) (compressed : StyleSet) :
  createModel env provider modelId = Some aiModel ->
  compressStylesForAI styles = Some compressed ->
  shouldChunkStyles compressed (inject_Z maxTokens) = true ->
  run service 0
    (generateCodeFromStyles JSON_parse env styles provider modelId format
       temperature maxTokens)
  = run service 0
      (processChunks JSON_parse aiModel format temperature
         (List.length (planChunks compressed (chunkBudget maxTokens))) 0
         (planChunks compressed (chunkBudget maxTokens)) []).
Proof.
  intros Hm Hc Hsplit. unfold generateCodeFromStyles, chunkStyles.
  rewrite Hm, Hc, Hsplit. reflexivity.
Qed.

Lemma run_whole (styles : JsVal) (provider : string) (modelId : JsVal)
    (format : string) (temperature : Q) (maxTokens : Z)
    (aiModel : ModelHandle) (compressed : StyleSet) (prompt : string) :
  createModel env provider modelId = Some aiModel ->
  compressStylesForAI styles = Some compressed ->
  shouldChunkStyles compressed (inject_Z maxTokens) = false ->
  createPrompt styles format = Some prompt ->
  run service 0
    (generateCodeFromStyles JSON_parse env styles provider modelId format
       temperature maxTokens)
  = ([mkRequest aiModel prompt temperature],
     service 0 (mkRequest aiModel prompt temperature)).
Proof.
  intros Hm Hc Hfits Hp. unfold generateCodeFromStyles.
  rewrite Hm, Hc, Hfits, Hp. cbn [run].
  now destruct (service 0 _).
Qed.

(** Whenever the model and the compressed set exist, the run is a list of
    requests sent in order up to the first rejection, and a result made
    from the answers when none was rejected. *)
Lemma run_generate (styles : JsVal) (provider : string) (modelId : JsVal)
    (format : string) (temperature : Q) (maxTokens : Z)
    (aiModel : ModelHandle) (compressed : StyleSet) :
  createModel env provider modelId = Some aiModel ->
  compressStylesForAI styles = Some compressed ->
  exists requests finish,
    run service 0
      (generateCodeFromStyles JSON_parse env styles provider modelId format
         temperature maxTokens)
    = (untilRejected service 0 requests,
       texts <- answers service 0 requests ;; Some (finish texts)).
Proof.
  intros Hm Hc.
  destruct (shouldChunkStyles compressed (inject_Z maxTokens)) eqn:Hsplit.
  - rewrite (run_chunked _ _ _ _ _ _ _ _ Hm Hc Hsplit), run_processChunks.
    eexists.
    exists (fun texts => combineChunkedResults JSON_parse texts format).
    reflexivity.
  - destruct (createPrompt_Some styles compressed format Hc) as [prompt Hp].
    rewrite (run_whole _ _ _ _ _ _ _ _ _ Hm Hc Hsplit Hp).
    exists [mkRequest aiModel prompt temperature],
      (fun texts => hd EmptyString texts).
    cbn [untilRejected answers].
    now destruct (service 0 _).
Qed.

Lemma run_no_model (styles : JsVal) (provider : string) (modelId : JsVal)
    (format : string) (temperature : Q) (maxTokens : Z) :
  createModel env provider modelId = None ->
  run service 0
    (generateCodeFromStyles JSON_parse env styles provider modelId format
       temperature maxTokens)
  = ([], None).
Proof. intros Hm. unfold generateCodeFromStyles. now rewrite Hm. Qed.

Lemma run_no_styles (styles : JsVal) (provider : string) (modelId : JsVal)
    (format : string) (temperature : Q) (maxTokens : Z) :
  compressStylesForAI styles = None ->
  run service 0
    (generateCodeFromStyles JSON_parse env styles provider modelId format
       temperature maxTokens)
  = ([], None).
Proof.
  intros Hc. unfold generateCodeFromStyles. rewrite Hc.
  now destruct (createModel env provider modelId).
Qed.

(** X17.  When the compressed set is over the limit, the requests are the
    chunk prompts of the plan made at 80 percent of the limit, in order,
    each announced as chunk i of n with i the chunkNumber of the chunk's
    own summary; they stop at the first rejection, and the answers are
    combined only when every request was answered. *)
Theorem chunked_generation_requests
    (styles : JsVal) (provider : string) (modelId : JsVal) (format : string)
    (temperature : Q) (maxTokens : Z) (aiModel : ModelHandle)
    (compressed : StyleSet) (chunks : list StyleSet)
    (requests : list Request) :
  createModel env provider modelId = Some aiModel ->
  compressStylesForAI styles = Some compressed ->
  shouldChunkStyles compressed (inject_Z maxTokens) = true ->
  chunks = planChunks compressed (chunkBudget maxTokens) ->
  requests
  = chunkRequests aiModel format temperature (List.length chunks) 0 chunks ->
  run service 0
    (generateCodeFromStyles JSON_parse env styles provider modelId format
       temperature maxTokens)
  = (untilRejected service 0 requests,
     texts <- answers service 0 requests ;;
     Some (combineChunkedResults JSON_parse texts format))
  /\ numberedFrom 1 chunks.
Proof.
  intros Hm Hc Hsplit -> ->. split.
  - rewrite (run_chunked _ _ _ _ _ _ _ _ Hm Hc Hsplit).
    apply run_processChunks.
  - apply planChunks_numbered. unfold shouldChunkStyles in *.
    now apply exceeds_chunkBudget.
Qed.

(** X18.  A set within the limit makes exactly one request, with the
    prompt of createPrompt, and the outcome is the service's answer to it as
    it is: the text unchanged, without a header, or the rejection. *)
Theorem within_limit_single_request
    (styles : JsVal) (provider : string) (modelId : JsVal) (format : string)
    (temperature : Q) (maxTokens : Z) (aiModel : ModelHandle)
    (compressed : StyleSet) :
  createModel env provider modelId = Some aiModel ->
  compressStylesForAI styles = Some compressed ->
  shouldChunkStyles compressed (inject_Z maxTokens) = false ->
  exists prompt,
    createPrompt styles format = Some prompt
    /\ run service 0
         (generateCodeFromStyles JSON_parse env styles provider modelId
            format temperature maxTokens)
       = ([mkRequest aiModel prompt temperature],
          service 0 (mkRequest aiModel prompt temperature)).
Proof.
  intros Hm Hc Hfits.
  destruct (createPrompt_Some styles compressed format Hc) as [prompt Hp].
  exists prompt. split; [exact Hp |].
  now apply (run_whole _ _ _ _ _ _ _ compressed).
Qed.

(** X19.  A call makes no request at all in exactly three cases: the
    provider is unknown or has no key, the raw collection makes the
    normalizer throw, or the compressed set has no items and is still over
    the limit. *)
Theorem no_request_iff
    (styles : JsVal) (provider : string) (modelId : JsVal) (format : string)
    (temperature : Q) (maxTokens : Z) :
  fst (run service 0
         (generateCodeFromStyles JSON_parse env styles provider modelId
            format temperature maxTokens)) = []
  <-> createModel env provider modelId = None
      \/ compressStylesForAI styles = None
      \/ exists compressed,
           compressStylesForAI styles = Some compressed
           /\ shouldChunkStyles compressed (inject_Z maxTokens) = true
           /\ items compressed = [].
Proof.
  destruct (createModel env provider modelId) as [aiModel|] eqn:Hm.
  2:{ rewrite (run_no_model _ _ _ _ _ _ Hm). cbn [fst]. tauto. }
  destruct (compressStylesForAI styles) as [compressed|] eqn:Hc.
  2:{ rewrite (run_no_styles _ _ _ _ _ _ Hc). cbn [fst]. tauto. }
  destruct (shouldChunkStyles compressed (inject_Z maxTokens)) eqn:Hsplit.
  - rewrite (run_chunked _ _ _ _ _ _ _ _ Hm Hc Hsplit), run_processChunks.
    cbn [fst].
    assert (Hover : shouldChunkStyles compressed (chunkBudget maxTokens)
                    = true)
      by (unfold shouldChunkStyles in *; now apply exceeds_chunkBudget).
    split.
    + intros Hnil. right. right. exists compressed.
      split; [reflexivity | split; [exact Hsplit |]].
      apply (planChunks_nil_iff compressed (chunkBudget maxTokens)).
      destruct (planChunks compressed (chunkBudget maxTokens));
        [reflexivity | discriminate].
    + intros [H | [H | (c & [= <-] & _ & Hitems)]]; try discriminate.
      rewrite (proj2 (planChunks_nil_iff compressed (chunkBudget maxTokens))
                 (conj Hover Hitems)).
      reflexivity.
  - destruct (createPrompt_Some styles compressed format Hc) as [prompt Hp].
    rewrite (run_whole _ _ _ _ _ _ _ _ _ Hm Hc Hsplit Hp). cbn [fst].
    split; [discriminate |].
    intros [H | [H | (c & [= <-] & Hover & _)]]; congruence.
Qed.

(** X20.  A set without items that is over the limit is answered without
    asking the service: the plan is empty, and the result is what combining
    no results gives. *)
Theorem empty_set_over_limit_returns_without_request
    (styles : JsVal) (provider : string) (modelId : JsVal) (format : string)
    (temperature : Q) (maxTokens : Z) (aiModel : ModelHandle)
    (compressed : StyleSet) :
  createModel env provider modelId = Some aiModel ->
  compressStylesForAI styles = Some compressed ->
  shouldChunkStyles compressed (inject_Z maxTokens) = true ->
  items compressed = [] ->
  run service 0
    (generateCodeFromStyles JSON_parse env styles provider modelId format
       temperature maxTokens)
  = ([], Some (combineChunkedResults JSON_parse [] format)).
Proof.
  intros Hm Hc Hsplit Hitems.
  rewrite (run_chunked _ _ _ _ _ _ _ _ Hm Hc Hsplit).
  assert (Hover : shouldChunkStyles compressed (chunkBudget maxTokens) = true)
    by (unfold shouldChunkStyles in *; now apply exceeds_chunkBudget).
  rewrite (proj2 (planChunks_nil_iff compressed (chunkBudget maxTokens))
             (conj Hover Hitems)).
  reflexivity.
Qed.

(** X21.  The call throws in exactly three cases: the provider is unknown
    or has no key, the raw collection makes the normalizer throw, or the
    service rejected one of the requests made. *)
Theorem generation_throws_iff
    (styles : JsVal) (provider : string) (modelId : JsVal) (format : string)
    (temperature : Q) (maxTokens : Z) :
  snd (run service 0
         (generateCodeFromStyles JSON_parse env styles provider modelId
            format temperature maxTokens)) = None
  <-> createModel env provider modelId = None
      \/ compressStylesForAI styles = None
      \/ exists j r,
           nth_error
             (fst (run service 0
                     (generateCodeFromStyles JSON_parse env styles provider
                        modelId format temperature maxTokens))) j = Some r
           /\ service j r = None.
Proof.
  destruct (createModel env provider modelId) as [aiModel|] eqn:Hm.
  2:{ rewrite (run_no_model _ _ _ _ _ _ Hm). cbn [snd]. tauto. }
  destruct (compressStylesForAI styles) as [compressed|] eqn:Hc.
  2:{ rewrite (run_no_styles _ _ _ _ _ _ Hc). cbn [snd]. tauto. }
  destruct (run_generate styles provider modelId format temperature maxTokens
              aiModel compressed Hm Hc) as (requests & finish & ->).
  cbn [fst snd].
  pose proof (answers_None_iff service requests 0) as Hn. cbn [Nat.add] in Hn.
  split.
  - intros Hnone. right. right. apply Hn.
    destruct (answers service 0 requests); [discriminate | reflexivity].
  - intros [H | [H | H]]; try discriminate.
    apply Hn in H. now rewrite H.
Qed.

(** X22.  Generation stops at the first rejection: a request the service
    rejected is the last request made. *)
Theorem rejected_request_is_last
    (styles : JsVal) (provider : string) (modelId : JsVal) (format : string)
    (temperature : Q) (maxTokens : Z) (j : nat) (r : Request) :
  nth_error
    (fst (run service 0
            (generateCodeFromStyles JSON_parse env styles provider modelId
               format temperature maxTokens))) j = Some r ->
  service j r = None ->
  S j = List.length
          (fst (run service 0
                  (generateCodeFromStyles JSON_parse env styles provider
                     modelId format temperature maxTokens))).
Proof.
  destruct (createModel env provider modelId) as [aiModel|] eqn:Hm.
  2:{ rewrite (run_no_model _ _ _ _ _ _ Hm). cbn [fst].
      destruct j; discriminate. }
  destruct (compressStylesForAI styles) as [compressed|] eqn:Hc.
  2:{ rewrite (run_no_styles _ _ _ _ _ _ Hc). cbn [fst].
      destruct j; discriminate. }
  destruct (run_generate styles provider modelId format temperature maxTokens
              aiModel compressed Hm Hc) as (requests & finish & ->).
  cbn [fst]. intros Hj Hr.
  now apply (untilRejected_last service requests 0 j r).
Qed.

End GenerateProperties.

Lemma chunked_generation_requests_witness :
  createModel openaiOnly "openai" JUndef = Some (openai, JStr "o4-mini")
  /\ compressStylesForAI oneFill = Some oneFillCompressed
  /\ shouldChunkStyles oneFillCompressed (inject_Z 19) = true
  /\ run ruleService 0
       (generateCodeFromStyles sampleParse openaiOnly oneFill "openai" JUndef
          "css" (3 # 10)%Q 19)
     = (untilRejected ruleService 0 sampleRequests,
        texts <- answers ruleService 0 sampleRequests ;;
        Some (combineChunkedResults sampleParse texts "css"))
  /\ numberedFrom 1 sampleChunks.
Proof.
  assert (H1 : createModel openaiOnly "openai" JUndef
               = Some (openai, JStr "o4-mini")) by reflexivity.
  assert (H2 : compressStylesForAI oneFill = Some oneFillCompressed)
    by (vm_compute; reflexivity).
  assert (H3 : shouldChunkStyles oneFillCompressed (inject_Z 19) = true)
    by (vm_compute; reflexivity).
  split; [exact H1 |]. split; [exact H2 |]. split; [exact H3 |].
  exact (chunked_generation_requests sampleParse openaiOnly ruleService
           oneFill "openai" JUndef "css" (3 # 10)%Q 19 _ oneFillCompressed
           sampleChunks sampleRequests H1 H2 H3 eq_refl eq_refl).
Defined.

Lemma within_limit_single_request_witness :
  createModel openaiOnly "openai" JUndef = Some (openai, JStr "o4-mini")
  /\ compressStylesForAI oneFill = Some oneFillCompressed
  /\ shouldChunkStyles oneFillCompressed (inject_Z 100000) = false
  /\ exists prompt,
       createPrompt oneFill "css" = Some prompt
       /\ run ruleService 0
            (generateCodeFromStyles sampleParse openaiOnly oneFill "openai"
               JUndef "css" (3 # 10)%Q 100000)
          = ([mkRequest (openai, JStr "o4-mini") prompt (3 # 10)%Q],
             ruleService 0
               (mkRequest (openai, JStr "o4-mini") prompt (3 # 10)%Q)).
Proof.
  assert (H1 : createModel openaiOnly "openai" JUndef
               = Some (openai, JStr "o4-mini")) by reflexivity.
  assert (H2 : compressStylesForAI oneFill = Some oneFillCompressed)
    by (vm_compute; reflexivity).
  assert (H3 : shouldChunkStyles oneFillCompressed (inject_Z 100000) = false)
    by (vm_compute; reflexivity).
  split; [exact H1 |]. split; [exact H2 |]. split; [exact H3 |].
  exact (within_limit_single_request sampleParse openaiOnly ruleService
           oneFill "openai" JUndef "css" (3 # 10)%Q 100000 _ oneFillCompressed
           H1 H2 H3).
Defined.

Lemma empty_set_over_limit_returns_without_request_witness :
  createModel openaiOnly "openai" JUndef = Some (openai, JStr "o4-mini")
  /\ compressStylesForAI (JNum 1) = Some noItemsCompressed
  /\ shouldChunkStyles noItemsCompressed (inject_Z 10) = true
  /\ items noItemsCompressed = []
  /\ run ruleService 0
       (generateCodeFromStyles sampleParse openaiOnly (JNum 1) "openai"
          JUndef "css" (3 # 10)%Q 10)
     = ([], Some (combineChunkedResults sampleParse [] "css")).
Proof.
  assert (H1 : createModel openaiOnly "openai" JUndef
               = Some (openai, JStr "o4-mini")) by reflexivity.
  assert (H2 : compressStylesForAI (JNum 1) = Some noItemsCompressed)
    by (vm_compute; reflexivity).
  assert (H3 : shouldChunkStyles noItemsCompressed (inject_Z 10) = true)
    by (vm_compute; reflexivity).
  assert (H4 : items noItemsCompressed = []) by reflexivity.
  split; [exact H1 |]. split; [exact H2 |]. split; [exact H3 |].
  split; [exact H4 |].
  exact (empty_set_over_limit_returns_without_request sampleParse openaiOnly
           ruleService (JNum 1) "openai" JUndef "css" (3 # 10)%Q 10 _
           noItemsCompressed H1 H2 H3 H4).
Defined.

Lemma rejected_request_is_last_witness :
  nth_error
    (fst (run rejectSecond 0
            (generateCodeFromStyles sampleParse openaiOnly oneFill "openai"
               JUndef "css" (3 # 10)%Q 19))) 1 = Some secondRequest
  /\ rejectSecond 1 secondRequest = None
  /\ 2 = List.length
           (fst (run rejectSecond 0
                   (generateCodeFromStyles sampleParse openaiOnly oneFill
                      "openai" JUndef "css" (3 # 10)%Q 19))).
Proof.
  assert (H1 : nth_error
                 (fst (run rejectSecond 0
                         (generateCodeFromStyles sampleParse openaiOnly
                            oneFill "openai" JUndef "css" (3 # 10)%Q 19))) 1
               = Some secondRequest) by (vm_compute; reflexivity).
  assert (H2 : rejectSecond 1 secondRequest = None) by reflexivity.
  split; [exact H1 |]. split; [exact H2 |].
  exact (rejected_request_is_last sampleParse openaiOnly rejectSecond oneFill
           "openai" JUndef "css" (3 # 10)%Q 19 1 secondRequest H1 H2).
Defined.

(* ================================================================== *)
(** ** Result combiner: results that do not parse *)

Lemma to_uint_nonnil (n : nat) : Nat.to_uint n <> Decimal.Nil.
Proof.
  rewrite <- (DecimalNat.Unsigned.of_to n) at 1.
  rewrite DecimalNat.Unsigned.to_of. unfold Decimal.unorm.
  destruct (Decimal.nzhead (Nat.to_uint n)); discriminate.
Qed.

Lemma showNat_inj (n m : nat) : showNat n = showNat m -> n = m.
Proof.
  unfold showNat. intros H.
  apply DecimalNat.Unsigned.to_uint_inj.
  pose proof (NilZero.usu _ (to_uint_nonnil n)) as Hn.
  pose proof (NilZero.usu _ (to_uint_nonnil m)) as Hm.
  rewrite H in Hn. congruence.
Qed.

Lemma chunkKey_eqb (n m : nat) :
  ("chunk_" ++ showNat n =? "chunk_" ++ showNat m) = true -> n = m.
Proof.
  intros H. apply String.eqb_eq in H. injection H as H.
  now apply showNat_inj.
Qed.

Section CombineUnparsed.

Variable JSON_parse : string -> option JsVal.

Lemma mergeFrom_unparsed (results : list string) :
  (forall r, In r results -> JSON_parse r = None) ->
  forall (i : nat) (merged : Merged),
    (forall j, i < j -> hasKey ("chunk_" ++ showNat j) (own merged) = false) ->
    own (mergeFrom JSON_parse i merged results)
    = (own merged ++ chunkEntries i results)%list.
Proof.
  induction results as [|r rest IH]; intros Hnone i merged Hfree;
    cbn [mergeFrom chunkEntries].
  - now rewrite app_nil_r.
  - unfold mergeResult. rewrite (Hnone r (or_introl eq_refl)).
    assert (Ha : assign merged ("chunk_" ++ showNat (i + 1)) (JStr r)
                 = mkMerged
                     (app (own merged)
                        [("chunk_" ++ showNat (i + 1), JStr r)])
                     (prototype merged)).
    { unfold assign, setProp. rewrite (Hfree (i + 1)) by lia.
      reflexivity. }
    rewrite Ha, IH.
    + cbn [own]. now rewrite <- app_assoc.
    + intros r' Hr'. apply Hnone. now right.
    + intros j Hj. cbn [own]. rewrite hasKey_app, (Hfree j) by lia.
      cbn [hasKey orb].
      destruct ("chunk_" ++ showNat (i + 1) =? "chunk_" ++ showNat j)
        eqn:He; [| reflexivity].
      apply chunkKey_eqb in He. lia.
Qed.

(** X23.  When no result parses as JSON, the json output keeps every
    result: result i is stored as text under its own key chunk_i, in the
    order of the results, and no result overwrites another. *)
Theorem unparsed_results_kept_by_number (results : list string) :
  (forall r, In r results -> JSON_parse r = None) ->
  mergeResults JSON_parse results = chunkEntries 0 results
  /\ combineChunkedResults JSON_parse results "json"
     = serialize "  " EmptyString (JObj (chunkEntries 0 results))
  /\ NoDup (map fst (chunkEntries 0 results)).
Proof.
  intros Hnone.
  assert (Hm : mergeResults JSON_parse results = chunkEntries 0 results).
  { unfold mergeResults, mergedAfter.
    now rewrite (mergeFrom_unparsed results Hnone 0 emptyObject). }
  split; [exact Hm |]. split.
  - unfold combineChunkedResults. cbn [String.eqb Ascii.eqb Bool.eqb orb].
    now rewrite Hm.
  - clear Hnone Hm. generalize 0 as i.
    assert (Hfresh : forall rs i j, j <= i ->
              ~ In ("chunk_" ++ showNat j) (map fst (chunkEntries i rs))).
    { induction rs as [|r rs IH]; intros i j Hj; cbn [chunkEntries map fst In];
        [tauto |].
      intros [He | Hin].
      - injection He as He. apply showNat_inj in He. lia.
      - apply (IH (S i) j); [lia | exact Hin]. }
    induction results as [|r rest IH]; intros i;
      cbn [chunkEntries map fst]; constructor.
    + apply Hfresh. lia.
    + apply IH.
Qed.

End CombineUnparsed.

Lemma unparsed_results_kept_by_number_witness :
  (forall r, In r [textBad; plainChunk] -> sampleParse r = None)
  /\ mergeResults sampleParse [textBad; plainChunk]
     = chunkEntries 0 [textBad; plainChunk]
  /\ combineChunkedResults sampleParse [textBad; plainChunk] "json"
     = serialize "  " EmptyString
         (JObj (chunkEntries 0 [textBad; plainChunk]))
  /\ NoDup (map fst (chunkEntries 0 [textBad; plainChunk])).
Proof.
  assert (H : forall r, In r [textBad; plainChunk] -> sampleParse r = None)
    by (intros r [<- | [<- | []]]; reflexivity).
  split; [exact H |].
  exact (unparsed_results_kept_by_number sampleParse [textBad; plainChunk] H).
Defined.

(* ================================================================== *)
(** ** Prompts: manual mode *)

Lemma guidelines_agree (format : string) :
  In format (map fst guidelines) ->
  getFormatSpecificGuidelines format
  = newline ++ join newline
                 (promptRequirements format (commentFormatOf format)).
Proof.
  cbn [guidelines map fst In].
  intros [<- | [<- | [<- | [<- | [<- | [<- | [<- | [<- | []]]]]]]]];
    vm_compute; reflexivity.
Qed.

(** X24.  For each of the eight formats that have guidelines, the prompt
    of manual mode (generatePrompt) is the prompt createPrompt sends to the
    service with two additions: the paragraph presenting the code
    generation expert, naming the llm when one is given, and an empty line
    under the REQUIREMENTS heading.  Output rules and requirement lines
    are the same text. *)
Theorem manual_prompt_has_api_requirements
    (styles : JsVal) (compressed : StyleSet) (llm : option string)
    (format : string) :
  compressStylesForAI styles = Some compressed ->
  In format (map fst guidelines) ->
  exists opening body requirements,
    createPrompt styles format
    = Some (opening ++ body ++ "REQUIREMENTS:" ++ newline ++ requirements)
    /\ generatePrompt styles llm format
       = Some (opening
               ++ "You are a code generation expert"
               ++ match llm with
                  | Some (String c text) => " using " ++ String c text
                  | _ => EmptyString
                  end
               ++ "." ++ newline ++ newline
               ++ body ++ "REQUIREMENTS:" ++ newline ++ newline
               ++ requirements)
    /\ requirements
       = join newline (promptRequirements format (commentFormatOf format)).
Proof.
  intros Hc Hin.
  unfold createPrompt, generatePrompt. rewrite Hc. cbn [bind].
  rewrite (guidelines_agree _ Hin).
  unfold withRequirements, wholeBasePrompt.
  cbn [join].
  set (reqs := join newline (promptRequirements _ _)).
  set (summary := serialize "  " EmptyString (toJs compressed)).
  set (llmText := match llm with
                  | Some (String c text) => " using " ++ String c text
                  | _ => EmptyString
                  end).
  exists ("CRITICAL: Return ONLY valid " ++ format
          ++ " code. No explanations, no markdown, no text outside of code."
          ++ newline ++ newline).
  exists ("Convert these Figma design tokens to " ++ format ++ " code:"
          ++ newline ++ newline ++ summary ++ newline ++ newline
          ++ "OUTPUT RULES:" ++ newline
          ++ "- Return ONLY valid " ++ format ++ " code" ++ newline
          ++ "- NO explanations or descriptions outside of code" ++ newline
          ++ "- NO markdown formatting, NO backticks" ++ newline
          ++ "- NO " ++ dquote ++ "Here's the code:" ++ dquote
          ++ " or similar text" ++ newline
          ++ "- All commentary must be in valid " ++ format
          ++ " comments using: " ++ commentFormatOf format ++ newline
          ++ "- Start immediately with the code" ++ newline ++ newline).
  exists reqs.
  rewrite !append_nil_l.
  rewrite !append_assoc.
  split; [reflexivity |].
  split; reflexivity.
Qed.

Lemma manual_prompt_has_api_requirements_witness :
  compressStylesForAI oneFill = Some oneFillCompressed
  /\ In "css" (map fst guidelines)
  /\ exists opening body requirements,
       createPrompt oneFill "css"
       = Some (opening ++ body ++ "REQUIREMENTS:" ++ newline ++ requirements)
       /\ generatePrompt oneFill None "css"
          = Some (opening
                  ++ "You are a code generation expert"
                  ++ EmptyString
                  ++ "." ++ newline ++ newline
                  ++ body ++ "REQUIREMENTS:" ++ newline ++ newline
                  ++ requirements)
       /\ requirements
          = join newline (promptRequirements "css" (commentFormatOf "css")).
Proof.
  assert (H1 : compressStylesForAI oneFill = Some oneFillCompressed)
    by (vm_compute; reflexivity).
  assert (H2 : In "css" (map fst guidelines)) by (left; reflexivity).
  split; [exact H1 |]. split; [exact H2 |].
  exact (manual_prompt_has_api_requirements oneFill oneFillCompressed None
           "css" H1 H2).
Defined.
